(** * A shallow embedding of the DWH storage layer of sonm core

    The development follows the Go sources:
    - [util] : [BigIntToPaddedString], [ParseBigInt] (package util);
    - [dwh]  : the query builder, the matching engine, the row codecs and
      the write path of [insonmnia/dwh/sql.go].

    Go's [*big.Int] is modelled as [Z], Go [string]s as [string] (the strings
    that occur here are ASCII, so bytes and characters coincide), [uint64]
    values as [Z].  A Go function that may panic returns a [Res]. *)

From Stdlib Require Import ZArith List String Ascii Bool Lia.
Import ListNotations.

Open Scope string_scope.
Open Scope Z_scope.

(** ** Results of Go calls: a value, a returned [error], or a panic *)

Inductive Res (A : Type) : Type :=
| Ok (a : A)
| Err (msg : string)
| Panic (msg : string).

Arguments Ok {A} a.
Arguments Err {A} msg.
Arguments Panic {A} msg.

Definition bind {A B : Type} (m : Res A) (f : A -> Res B) : Res B :=
  match m with
  | Ok a => f a
  | Err e => Err e
  | Panic p => Panic p
  end.

Notation "x <- m ;; k" := (bind m (fun x => k))
  (at level 61, m at next level, right associativity).

Definition is_ok {A : Type} (m : Res A) : bool :=
  match m with Ok _ => true | _ => false end.

Definition is_err {A : Type} (m : Res A) : bool :=
  match m with Err _ => true | _ => false end.

(** [len(s)] of a Go string, as an [int]. *)
Definition len (s : string) : Z := Z.of_nat (String.length s).

(** ** Package util *)

Module util.

Definition FormattedBigIntLength : Z := 80.

(** *** [big.Int.String()]: the decimal text of an integer *)

Definition digitChar (d : Z) : ascii := ascii_of_N (48 + Z.to_N d).

(** Digits of a non-negative [n], most significant first, pushed in front of
    [acc]; [fuel] bounds the number of digits. *)
Fixpoint natDigits (fuel : nat) (n : Z) (acc : string) : string :=
  match fuel with
  | O => acc
  | S f =>
      let acc' := String (digitChar (n mod 10)) acc in
      if n <? 10 then acc' else natDigits f (n / 10) acc'
  end.

Definition digitsFuel (n : Z) : nat := S (Z.to_nat (Z.log2 n)).

Definition bigString (x : Z) : string :=
  if x <? 0
  then String "-" (natDigits (digitsFuel (- x)) (- x) "")
  else natDigits (digitsFuel x) x "".

(** *** [make([]rune, n)]: panics on a negative length *)

Definition make_runes (n : Z) : Res (list ascii) :=
  if n <? 0 then Panic "makeslice: len out of range"
  else Ok (repeat zero (Z.to_nat n)).

(** [string(padding)] for a slice of ASCII runes. *)
Definition string_of_runes (l : list ascii) : string := string_of_list_ascii l.

(** <<
    func BigIntToPaddedString(x *big.Int) string {
        raw := x.String()
        paddingSize := FormattedBigIntLength - len(raw)
        padding := make([]rune, paddingSize)
        for idx := range padding { padding[idx] = '0' }
        return string(padding) + raw
    }
    >> *)
Definition BigIntToPaddedString (x : Z) : Res string :=
  let raw := bigString x in
  let paddingSize := FormattedBigIntLength - len raw in
  padding <- make_runes paddingSize ;;
  let padding := map (fun _ => "0"%char) padding in
  Ok (string_of_runes padding ++ raw).

End util.

(** ** Digit strings

    Auxiliary notions used to state and prove the ordering property of the
    padded encoding. *)

(** Numeric value of a character read as a decimal digit. *)
Definition digitVal (c : ascii) : Z := Z.of_N (N_of_ascii c) - 48.

Definition isDigit (c : ascii) : bool :=
  (48 <=? N_of_ascii c)%N && (N_of_ascii c <=? 57)%N.

Fixpoint isDigits (s : string) : bool :=
  match s with
  | EmptyString => true
  | String c r => isDigit c && isDigits r
  end.

(** Value of a digit string, most significant digit first. *)
Fixpoint val (s : string) : Z :=
  match s with
  | EmptyString => 0
  | String c r => digitVal c * 10 ^ len r + val r
  end.

Fixpoint zeros (k : nat) : string :=
  match k with
  | O => ""
  | S k' => String "0" (zeros k')
  end.

(** *** [big.Int.SetString(s, 10)] and [ParseBigInt] *)

Module bigint.

Fixpoint scanDigits (s : string) (acc : Z) : Z * string :=
  match s with
  | String c r =>
      if isDigit c then scanDigits r (10 * acc + digitVal c) else (acc, s)
  | EmptyString => (acc, s)
  end.

(** The receiver after the call and the [ok] flag: an optional sign, at least
    one digit, and nothing after the digits.  When the text is rejected Go
    leaves the receiver unspecified; what is computed here for that case is
    the number scanned before the offending character. *)
Definition SetString (s : string) : Z * bool :=
  let '(neg, body) :=
    match s with
    | String "-" r => (true, r)
    | String "+" r => (false, r)
    | _ => (false, s)
    end in
  let '(n, rest) := scanDigits body 0 in
  let ok := negb (String.length rest =? String.length body)%nat
            && (String.length rest =? 0)%nat in
  ((if neg then - n else n), ok).

End bigint.

Module util_parse.

(** <<
    func ParseBigInt(s string) ( *big.Int, error) {
        n := new(big.Int)
        n, ok := n.SetString(s, 10)
        if !ok { return nil, fmt.Errorf("cannot convert %s to big.Int", s) }
        return n, nil
    }
    >> *)
Definition ParseBigInt (s : string) : Res Z :=
  let '(n, ok) := bigint.SetString s in
  if negb ok then Err ("cannot convert " ++ s ++ " to big.Int")
  else Ok n.

End util_parse.

(** ** Values exchanged with the database driver *)

#[warnings="-register-all"]
Inductive Value : Type :=
| VInt (z : Z)            (* integers: uint64, int64, enum values *)
| VStr (s : string)       (* TEXT *)
| VBytes (s : string)     (* BLOB, []byte *)
| VBool (b : bool)
| VNull
| VSlice (l : list Value) (* a Go []interface{} passed as ONE argument *).

Definition Row := list Value.

(** [*sql.Rows]: the rows still to be read and the error [rows.Err()]
    reports once they are exhausted. *)
Record Rows : Type := mkRows { rows_data : list Row; rows_err : option string }.

(** A statement sent through [conn.Query] or [conn.Exec]. *)
Inductive Event : Type :=
| EvQuery (sql : string) (args : list Value)
| EvExec (sql : string) (args : list Value).

(** [queryConn]: the answers of the database. *)
Record queryConn : Type := mkConn {
  conn_Query : string -> list Value -> Res Rows;
  conn_Exec : string -> list Value -> option string  (* the returned error *)
}.

(** Code that talks to the database: it reads the connection and logs the
    statements it sends. *)
Definition M (A : Type) : Type := queryConn -> list Event * Res A.

Definition ret {A : Type} (a : A) : M A := fun _ => ([], Ok a).

Definition lift {A : Type} (r : Res A) : M A := fun _ => ([], r).

Definition bindM {A B : Type} (m : M A) (f : A -> M B) : M B :=
  fun conn =>
    match m conn with
    | (log, Ok a) => let '(log', r) := f a conn in ((log ++ log')%list, r)
    | (log, Err e) => (log, Err e)
    | (log, Panic p) => (log, Panic p)
    end.

Notation "x <-- m ;; k" := (bindM m (fun x => k))
  (at level 61, m at next level, right associativity).

(** Run [m] and hand its outcome, error included, to [k]
    (Go's [v, err := f(...)] followed by a test of [err]). *)
Definition tryM {A B : Type} (m : M A) (k : Res A -> M B) : M B :=
  fun conn =>
    let '(log, r) := m conn in
    let '(log', r') := k r conn in ((log ++ log')%list, r').

Definition Query (sql : string) (args : list Value) : M Rows :=
  fun conn => ([EvQuery sql args], conn_Query conn sql args).

Definition Exec (sql : string) (args : list Value) : M unit :=
  fun conn =>
    ([EvExec sql args],
     match conn_Exec conn sql args with
     | None => Ok tt
     | Some e => Err e
     end).

(** [errors.Wrap(err, msg)] *)
Definition Wrap {A : Type} (msg : string) (r : Res A) : Res A :=
  match r with
  | Err e => Err (msg ++ ": " ++ e)
  | other => other
  end.

(** ** Package pb: the protocol types used by the storage layer

    Enumerations are Go [int32] values with named constants. *)

Module pb.

Definition OrderType := Z.
Definition OrderType_ANY : OrderType := 0.
Definition OrderType_BID : OrderType := 1.
Definition OrderType_ASK : OrderType := 2.

Definition OrderStatus := Z.
Definition OrderStatus_ORDER_UNKNOWN : OrderStatus := 0.
Definition OrderStatus_ORDER_INACTIVE : OrderStatus := 1.
Definition OrderStatus_ORDER_ACTIVE : OrderStatus := 2.

Inductive CmpOp : Type := CmpOp_EQ | CmpOp_GTE | CmpOp_LTE.

Definition SortingOrder := Z.
Definition SortingOrder_Asc : SortingOrder := 0.
Definition SortingOrder_Desc : SortingOrder := 1.

(** The generated [SortingOrder_name] map; a missing key reads as the empty
    string. *)
Definition SortingOrder_name (o : Z) : string :=
  if o =? 0 then "Asc" else if o =? 1 then "Desc" else "".

Record SortingOption : Type := mkSortingOption {
  so_Field : string;
  so_Order : SortingOrder
}.

(** An Ethereum address, represented by the text [Hex()] prints for it. *)
Definition Address := string.

Definition zeroAddress : Address :=
  "0x0000000000000000000000000000000000000000".

(** Modelled from the spec: [pb.EthAddress.IsZero] is not part of the sources
    at hand; a filter value that is "the zero value for its type" is skipped,
    so a missing address and the all-zero address are both zero. *)
Definition EthAddress_IsZero (a : option Address) : bool :=
  match a with
  | None => true
  | Some x => (x =? zeroAddress)%string
  end.

(** [a.Unwrap().Hex()] *)
Definition EthAddress_Hex (a : option Address) : string :=
  match a with
  | None => zeroAddress
  | Some x => x
  end.

(** Modelled from the spec: [pb.BigInt.IsZero] is not part of the sources at
    hand; same convention as for addresses. *)
Definition BigInt_IsZero (x : option Z) : bool :=
  match x with
  | None => true
  | Some n => n =? 0
  end.

(** Modelled from the spec: [pb.BigInt.PaddedString] is not part of the
    sources at hand; "big integers [are encoded] to padded decimal strings",
    which is [util.BigIntToPaddedString] on the wrapped integer. *)
Definition BigInt_PaddedString (x : Z) : Res string :=
  util.BigIntToPaddedString x.

(** Modelled from the spec: [pb.NewBigIntFromString] is not part of the
    sources at hand; decoding "re-pars[es] padded strings into big integers"
    and reports a text that is not a decimal integer as an error. *)
Definition NewBigIntFromString (s : string) : Res Z :=
  util_parse.ParseBigInt s.

Record MaxMinUint64 : Type := mkMaxMinUint64 { Max64 : Z; Min64 : Z }.
Record MaxMinBig : Type := mkMaxMinBig { MaxBig : option Z; MinBig : option Z }.
Record MaxMinTimestamp : Type :=
  mkMaxMinTimestamp { MaxTS : option Z; MinTS : option Z }.
Record NetflagsFilter : Type :=
  mkNetflagsFilter { Operator : CmpOp; FlagsValue : Z }.

Record Order : Type := mkOrder {
  Id : Z;
  DealID : Z;
  OrderType_ : OrderType;
  OrderStatus_ : OrderStatus;
  AuthorID : option Address;
  CounterpartyID : option Address;
  Duration : Z;
  Price : Z;
  Netflags : Z;
  IdentityLevel : Z;
  Blacklist : string;
  Tag : string;
  FrozenSum : Z;
  Benchmarks : list Z
}.

Record DWHOrder : Type := mkDWHOrder {
  Order_ : Order;
  CreatedTS : Z;
  CreatorIdentityLevel : Z;
  CreatorName : string;
  CreatorCountry : string;
  CreatorCertificates : string
}.

Record OrdersRequest : Type := mkOrdersRequest {
  r_DealID : option Z;
  r_Type : OrderType;
  r_AuthorID : option Address;
  r_CounterpartyID : option Address;
  r_Duration : option MaxMinUint64;
  r_Price : option MaxMinBig;
  r_Netflags : option NetflagsFilter;
  r_CreatorIdentityLevel : Z;
  r_CreatedTS : option MaxMinTimestamp;
  r_Benchmarks : option (list (Z * MaxMinUint64));
  r_Sortings : list SortingOption;
  r_Limit : Z;
  r_Offset : Z;
  r_WithCount : bool
}.

Record MatchingOrdersRequest : Type := mkMatchingOrdersRequest {
  m_Id : Z;
  m_Limit : Z;
  m_Offset : Z;
  m_WithCount : bool
}.

Record Deal : Type := mkDeal {
  d_Id : Z;
  d_SupplierID : Address;
  d_ConsumerID : Address;
  d_MasterID : Address;
  d_AskID : Z;
  d_BidID : Z;
  d_Duration : Z;
  d_Price : Z;
  d_StartTime : Z;
  d_EndTime : Z;
  d_Status : Z;
  d_BlockedBalance : Z;
  d_TotalPayout : Z;
  d_LastBillTS : Z;
  d_Benchmarks : list Z
}.

Record DWHDeal : Type := mkDWHDeal {
  Deal_ : Deal;
  dd_Netflags : Z;
  dd_AskIdentityLevel : Z;
  dd_BidIdentityLevel : Z;
  dd_SupplierCertificates : string;
  dd_ConsumerCertificates : string;
  dd_ActiveChangeRequest : bool
}.

Record DealCondition : Type := mkDealCondition {
  dc_Id : Z;
  dc_SupplierID : Address;
  dc_ConsumerID : Address;
  dc_MasterID : Address;
  dc_Price : Z;
  dc_Duration : Z;
  dc_StartTime : Z;
  dc_EndTime : Z;
  dc_TotalPayout : Z;
  dc_DealID : Z
}.

Record DealChangeRequest : Type := mkDealChangeRequest {
  cr_Id : Z;
  cr_DealID : Z;
  cr_RequestType : OrderType;
  cr_Duration : Z;
  cr_Price : Z;
  cr_Status : Z
}.

End pb.

(** ** Go's [strings] package *)

Module strings.

(** [strings.Replace(s, old, new, 1)]: the first occurrence only. *)
Fixpoint Replace1 (s old new : string) : string :=
  if String.prefix old s
  then new ++ String.substring (String.length old)
                               (String.length s - String.length old) s
  else match s with
       | EmptyString => EmptyString
       | String c r => String c (Replace1 r old new)
       end.

Definition Join (l : list string) (sep : string) : string :=
  String.concat sep l.

(** [strings.Contains] *)
Fixpoint Contains (s sub : string) : bool :=
  String.prefix sub s
  || match s with
     | EmptyString => false
     | String _ r => Contains r sub
     end.

End strings.

(** ** The SQL builder (package squirrel), as far as the storage uses it *)

Module squirrel.

Inductive PlaceholderFormat : Type := Question | Dollar.

(** A part of a WHERE clause: SQL text with its arguments, or
    [squirrel.Eq{col: slice}]. *)
Inductive Sqlizer : Type :=
| Expr (sql : string) (args : list Value)
| Eq (col : string) (vals : list Value).

Record SelectBuilder : Type := mkSelect {
  sb_Placeholder : PlaceholderFormat;
  sb_Columns : list string;
  sb_From : string;
  sb_WhereParts : list Sqlizer;
  sb_OrderBys : list string;
  sb_Limit : string;
  sb_Offset : string
}.

Definition Select (f : PlaceholderFormat) (columns : list string) : SelectBuilder :=
  mkSelect f columns "" [] [] "" "".

Definition From (b : SelectBuilder) (from : string) : SelectBuilder :=
  mkSelect (sb_Placeholder b) (sb_Columns b) from (sb_WhereParts b)
           (sb_OrderBys b) (sb_Limit b) (sb_Offset b).

Definition WherePart (b : SelectBuilder) (p : Sqlizer) : SelectBuilder :=
  mkSelect (sb_Placeholder b) (sb_Columns b) (sb_From b)
           (sb_WhereParts b ++ [p])%list
           (sb_OrderBys b) (sb_Limit b) (sb_Offset b).

Definition Where (b : SelectBuilder) (pred : string) (args : list Value)
  : SelectBuilder := WherePart b (Expr pred args).

Definition OrderBy (b : SelectBuilder) (orderBys : list string) : SelectBuilder :=
  mkSelect (sb_Placeholder b) (sb_Columns b) (sb_From b) (sb_WhereParts b)
           (sb_OrderBys b ++ orderBys)%list (sb_Limit b) (sb_Offset b).

Definition Limit (b : SelectBuilder) (limit : Z) : SelectBuilder :=
  mkSelect (sb_Placeholder b) (sb_Columns b) (sb_From b) (sb_WhereParts b)
           (sb_OrderBys b) (util.bigString limit) (sb_Offset b).

Definition Offset (b : SelectBuilder) (offset : Z) : SelectBuilder :=
  mkSelect (sb_Placeholder b) (sb_Columns b) (sb_From b) (sb_WhereParts b)
           (sb_OrderBys b) (sb_Limit b) (util.bigString offset).

(** [Placeholders(n)]: n question marks separated by commas. *)
Definition Placeholders (n : nat) : string :=
  strings.Join (repeat "?" n) ",".

Definition partSql (p : Sqlizer) : string :=
  match p with
  | Expr sql _ => sql
  | Eq col [] => "(1=0)"
  | Eq col vals => col ++ " IN (" ++ Placeholders (List.length vals) ++ ")"
  end.

Definition partArgs (p : Sqlizer) : list Value :=
  match p with
  | Expr _ args => args
  | Eq _ vals => vals
  end.

(** [Dollar.ReplacePlaceholders]: the n-th question mark becomes [$n]; a
    doubled question mark is an escaped one. *)
Fixpoint dollars (s : string) (i : Z) : string :=
  match s with
  | EmptyString => EmptyString
  | String "?" (String "?" r) => String "?" (dollars r i)
  | String "?" r => "$" ++ util.bigString i ++ dollars r (i + 1)
  | String c r => String c (dollars r i)
  end.

Definition ReplacePlaceholders (f : PlaceholderFormat) (sql : string) : string :=
  match f with
  | Question => sql
  | Dollar => dollars sql 1
  end.

(** The statement text before the placeholders are numbered. *)
Definition rawSql (b : SelectBuilder) : string :=
  "SELECT " ++ strings.Join (sb_Columns b) ", "
  ++ (if (String.length (sb_From b) =? 0)%nat then ""
      else " FROM " ++ sb_From b)
  ++ match sb_WhereParts b with
     | [] => ""
     | parts => " WHERE " ++ strings.Join (map partSql parts) " AND "
     end
  ++ match sb_OrderBys b with
     | [] => ""
     | obs => " ORDER BY " ++ strings.Join obs ", "
     end
  ++ (if (String.length (sb_Limit b) =? 0)%nat then ""
      else " LIMIT " ++ sb_Limit b)
  ++ (if (String.length (sb_Offset b) =? 0)%nat then ""
      else " OFFSET " ++ sb_Offset b).

Definition ToSql (b : SelectBuilder) : string * list Value :=
  (ReplacePlaceholders (sb_Placeholder b) (rawSql b),
   flat_map partArgs (sb_WhereParts b)).

End squirrel.

(** ** [rows.Scan]: conversion of a column into a Go destination *)

Module sqlscan.

Definition uint64_max : Z := 2 ^ 64 - 1.

Definition scanString (v : Value) : Res string :=
  match v with
  | VStr s | VBytes s => Ok s
  | VInt z => Ok (util.bigString z)
  | VBool b => Ok (if b then "true" else "false")
  | VNull => Err "converting NULL to string is unsupported"
  | VSlice _ => Err "unsupported Scan, storing driver.Value into type *string"
  end.

Definition parseInRange (s : string) (lo hi : Z) : Res Z :=
  let '(n, ok) := bigint.SetString s in
  if ok && (lo <=? n) && (n <=? hi) then Ok n
  else Err ("converting driver.Value type string (" ++ s ++ ") to an integer").

Definition scanUint64 (v : Value) : Res Z :=
  match v with
  | VInt z =>
      if (0 <=? z) && (z <=? uint64_max) then Ok z
      else Err "converting driver.Value type int64 to a uint64: value out of range"
  | VStr s | VBytes s => parseInRange s 0 uint64_max
  | VBool _ => Err "converting driver.Value type bool to a uint64: invalid syntax"
  | VNull => Err "converting NULL to uint64 is unsupported"
  | VSlice _ => Err "unsupported Scan, storing driver.Value into type *uint64"
  end.

Definition scanInt64 (v : Value) : Res Z :=
  match v with
  | VInt z =>
      if (- 2 ^ 63 <=? z) && (z <=? 2 ^ 63 - 1) then Ok z
      else Err "converting driver.Value type int64 to a int64: value out of range"
  | VStr s | VBytes s => parseInRange s (- 2 ^ 63) (2 ^ 63 - 1)
  | VBool _ => Err "converting driver.Value type bool to a int64: invalid syntax"
  | VNull => Err "converting NULL to int64 is unsupported"
  | VSlice _ => Err "unsupported Scan, storing driver.Value into type *int64"
  end.

Definition scanBool (v : Value) : Res bool :=
  match v with
  | VBool b => Ok b
  | VInt 0 => Ok false
  | VInt 1 => Ok true
  | _ => Err "sql/driver: couldn't convert value into type bool"
  end.

Definition scanBytes (v : Value) : Res string :=
  match v with
  | VBytes s | VStr s => Ok s
  | VNull => Ok ""
  | VInt z => Ok (util.bigString z)
  | VBool b => Ok (if b then "true" else "false")
  | VSlice _ => Err "unsupported Scan, storing driver.Value into type *[]byte"
  end.

(** [Scan] refuses a row whose number of columns differs from the number of
    destinations. *)
Definition checkArity (row : Row) (ndest : nat) : Res unit :=
  if (List.length row =? ndest)%nat then Ok tt
  else Err "sql: wrong number of destination arguments in Scan".

Definition col (row : Row) (i : nat) : Value := nth i row VNull.

Fixpoint scanAll {A : Type} (f : Value -> Res A) (l : list Value) : Res (list A) :=
  match l with
  | [] => Ok []
  | v :: r => a <- f v ;; t <- scanAll f r ;; Ok (a :: t)
  end.

End sqlscan.

(** Conversions between Go integer types. *)
Definition toInt64 (u : Z) : Z := if u <? 2 ^ 63 then u else u - 2 ^ 64.

Definition toInt32 (u : Z) : Z :=
  let m := u mod 2 ^ 32 in if m <? 2 ^ 31 then m else m - 2 ^ 32.

(** ** Package dwh *)

Module dwh.

Import squirrel sqlscan.

Definition MaxLimit : Z := 200.
Definition NumMaxBenchmarks : Z := 128.
Definition gte : string := ">=".
Definition lte : string := "<=".
Definition eq : string := "=".

Record tablesInfo : Type := mkTablesInfo {
  DealColumns : list string;
  NumDealColumns : Z;
  OrderColumns : list string;
  NumOrderColumns : Z;
  DealConditionColumns : list string;
  DealChangeRequestColumns : list string;
  ProfileColumns : list string
}.

(** Modelled from the spec: [getBenchmarkColumn] is not part of the sources at
    hand; benchmark columns are "named positionally, benchmark index ->
    column name". *)
Definition getBenchmarkColumn (id : Z) : string :=
  "Benchmark" ++ util.bigString id.

Definition benchmarkColumns (numBenchmarks : Z) : list string :=
  map (fun i => getBenchmarkColumn (Z.of_nat i)) (seq 0 (Z.to_nat numBenchmarks)).

Definition newTablesInfo (numBenchmarks : Z) : tablesInfo :=
  let dealColumns :=
    ["Id"; "SupplierID"; "ConsumerID"; "MasterID"; "AskID"; "BidID";
     "Duration"; "Price"; "StartTime"; "EndTime"; "Status"; "BlockedBalance";
     "TotalPayout"; "LastBillTS"; "Netflags"; "AskIdentityLevel";
     "BidIdentityLevel"; "SupplierCertificates"; "ConsumerCertificates";
     "ActiveChangeRequest"] in
  let orderColumns :=
    ["Id"; "CreatedTS"; "DealID"; "Type"; "Status"; "AuthorID";
     "CounterpartyID"; "Duration"; "Price"; "Netflags"; "IdentityLevel";
     "Blacklist"; "Tag"; "FrozenSum"; "CreatorIdentityLevel"; "CreatorName";
     "CreatorCountry"; "CreatorCertificates"] in
  let dealChangeRequestColumns :=
    ["Id"; "CreatedTS"; "RequestType"; "Duration"; "Price"; "Status"; "DealID"] in
  let dealConditionColumns :=
    ["Id"; "SupplierID"; "ConsumerID"; "MasterID"; "Duration"; "Price";
     "StartTime"; "EndTime"; "TotalPayout"; "DealID"] in
  let profileColumns :=
    ["Id"; "UserID"; "IdentityLevel"; "Name"; "Country"; "IsCorporation";
     "IsProfessional"; "Certificates"] in
  mkTablesInfo
    (dealColumns ++ benchmarkColumns numBenchmarks)%list
    (Z.of_nat (List.length dealColumns))
    (orderColumns ++ benchmarkColumns numBenchmarks)%list
    (Z.of_nat (List.length orderColumns))
    dealConditionColumns dealChangeRequestColumns profileColumns.

(** [sqlStorage]: the fields the modelled functions read. *)
Record sqlStorage : Type := mkStorage {
  insertDeal : string;            (* commands.insertDeal *)
  numBenchmarks : Z;
  tablesInfo_ : tablesInfo;
  builder : PlaceholderFormat     (* the format [c.builder()] installs *)
}.

Definition newPostgresStorage (tInfo : tablesInfo) (numBenchmarks : Z)
                              (insertDeal : string) : sqlStorage :=
  mkStorage insertDeal numBenchmarks tInfo Dollar.

(** <<
    func builderWithOffsetLimit(builder, limit, offset uint64) {
        if limit > 0 { builder = builder.Limit(limit) }
        if offset > 0 { builder = builder.Offset(offset) }
        return builder }
    >> *)
Definition builderWithOffsetLimit (builder : SelectBuilder) (limit offset : Z)
  : SelectBuilder :=
  let builder := if limit >? 0 then Limit builder limit else builder in
  let builder := if offset >? 0 then Offset builder offset else builder in
  builder.

(** <<
    func builderWithSortings(builder, sortings []*pb.SortingOption) {
        var sortsFlat []string
        for _, sort := range sortings {
            sortsFlat = append(sortsFlat,
                fmt.Sprintf("%s %s", sort.Field, pb.SortingOrder_name[int32(sort.Order)]))
        }
        builder = builder.OrderBy(sortsFlat...)
        return builder }
    >> *)
Definition builderWithSortings (builder : SelectBuilder)
                               (sortings : list pb.SortingOption) : SelectBuilder :=
  let sortsFlat :=
    map (fun sort => pb.so_Field sort ++ " " ++ pb.SortingOrder_name (pb.so_Order sort))
        sortings in
  OrderBy builder sortsFlat.

(** <<
    func newNetflagsWhere(builder, operator pb.CmpOp, value uint64) {
        switch operator {
        case pb.CmpOp_GTE: return builder.Where("Netflags | ~ ? = -1", value)
        case pb.CmpOp_LTE: return builder.Where("? | ~Netflags = -1", value)
        default:           return builder.Where("Netflags = ?", value) } }
    >> *)
Definition newNetflagsWhere (builder : SelectBuilder) (operator : pb.CmpOp)
                            (value : Z) : SelectBuilder :=
  match operator with
  | pb.CmpOp_GTE => Where builder "Netflags | ~ ? = -1" [VInt value]
  | pb.CmpOp_LTE => Where builder "? | ~Netflags = -1" [VInt value]
  | _ => Where builder "Netflags = ?" [VInt value]
  end.

(** <<
    func (c *sqlStorage) filterSortings(sortings, columns map[string]bool) (out) {
        for _, sorting := range sortings {
            if columns[sorting.Field] { out = append(out, sorting) } }
        return out }
    >>
    The set [columns] is given by the list of its members. *)
Definition filterSortings (sortings : list pb.SortingOption)
                          (columns : list string) : list pb.SortingOption :=
  filter (fun sorting => existsb (String.eqb (pb.so_Field sorting)) columns)
         sortings.

(** <<
    func (c *sqlStorage) addBenchmarksConditionsWhere(builder, benches) {
        for benchID, condition := range benches {
            if condition.Max > 0 { builder = builder.Where(fmt.Sprintf("%s <= ?", getBenchmarkColumn(benchID)), condition.Max) }
            if condition.Min > 0 { builder = builder.Where(fmt.Sprintf("%s >= ?", getBenchmarkColumn(benchID)), condition.Min) }
        }
        return builder }
    >>
    The Go map is given as an association list, visited in list order. *)
Definition addBenchmarksConditionsWhere (builder : SelectBuilder)
    (benches : list (Z * pb.MaxMinUint64)) : SelectBuilder :=
  fold_left
    (fun builder '(benchID, condition) =>
       let builder :=
         if pb.Max64 condition >? 0
         then Where builder (getBenchmarkColumn benchID ++ " <= ?")
                    [VInt (pb.Max64 condition)]
         else builder in
       if pb.Min64 condition >? 0
       then Where builder (getBenchmarkColumn benchID ++ " >= ?")
                  [VInt (pb.Min64 condition)]
       else builder)
    benches builder.

(** One [countRows.Scan(&count)]: the error is dropped, and [count] keeps its
    value when the row is not a single unsigned integer. *)
Definition scanCount (count : Z) (row : Row) : Z :=
  match row with
  | [v] => match scanUint64 v with Ok n => n | _ => count end
  | _ => count
  end.

(** <<
    func runQuery(conn, columns string, withCount bool, query string, args ...interface{}) {
        dataQuery := strings.Replace(query, "*", columns, 1)
        rows, err := conn.Query(dataQuery, args...)
        if err != nil { return nil, 0, errors.Wrapf(err, "data query `%s` failed", dataQuery) }
        var count uint64
        if withCount {
            var countQuery = strings.Replace(query, "*", "count(*)", 1)
            countRows, err := conn.Query(countQuery, args)
            defer countRows.Close()
            if err != nil { return nil, 0, errors.Wrapf(err, "count query `%s` failed", countQuery) }
            for countRows.Next() { countRows.Scan(&count) }
        }
        return rows, count, nil }
    >>
    The count statement receives [args] as a single argument, not spread.
    When it fails, [countRows] is nil and the deferred [Close] dereferences
    it. *)
Definition runQuery (columns : string) (withCount : bool) (query : string)
                    (args : list Value) : M (Rows * Z) :=
  let dataQuery := strings.Replace1 query "*" columns in
  tryM (Query dataQuery args) (fun r =>
    match r with
    | Err e => lift (Err ("data query `" ++ dataQuery ++ "` failed: " ++ e))
    | Panic p => lift (Panic p)
    | Ok rows =>
        if withCount then
          let countQuery := strings.Replace1 query "*" "count(*)" in
          tryM (Query countQuery [VSlice args]) (fun r2 =>
            match r2 with
            | Err _ =>
                lift (Panic "invalid memory address or nil pointer dereference")
            | Panic p => lift (Panic p)
            | Ok countRows =>
                ret (rows, fold_left scanCount (rows_data countRows) 0)
            end)
        else ret (rows, 0)
    end).

Definition wrapM {A : Type} (msg : string) (m : M A) : M A :=
  fun conn => let '(log, r) := m conn in (log, Wrap msg r).

(** [status.Error(codes.Internal, msg)] in place of whatever error occurred. *)
Definition internalError {A : Type} (msg : string) (r : Res A) : Res A :=
  match r with
  | Err _ => Err ("rpc error: code = Internal desc = " ++ msg)
  | other => other
  end.

(** [common.HexToAddress], on the texts the write path stores. *)
Definition HexToAddress (s : string) : pb.Address := s.

(** *** Row decoders *)

(** [decodeOrder] (sql.go, lines 1065-1158): every numeric text is parsed
    with [pb.NewBigIntFromString] and a failure is returned. *)
Definition decodeOrder (c : sqlStorage) (row : Row) : Res pb.DWHOrder :=
  let nb := Z.to_nat (numBenchmarks c) in
  scanned <- Wrap "failed to scan Order row"
    (_ <- checkArity row (18 + nb) ;;
     id <- scanString (col row 0) ;;
     createdTS <- scanUint64 (col row 1) ;;
     dealID <- scanString (col row 2) ;;
     orderType <- scanUint64 (col row 3) ;;
     orderStatus <- scanUint64 (col row 4) ;;
     author <- scanString (col row 5) ;;
     counterAgent <- scanString (col row 6) ;;
     duration <- scanUint64 (col row 7) ;;
     price <- scanString (col row 8) ;;
     netflags <- scanUint64 (col row 9) ;;
     identityLevel <- scanUint64 (col row 10) ;;
     blacklist <- scanString (col row 11) ;;
     tag <- scanBytes (col row 12) ;;
     frozenSum <- scanString (col row 13) ;;
     creatorIdentityLevel <- scanUint64 (col row 14) ;;
     creatorName <- scanString (col row 15) ;;
     creatorCountry <- scanString (col row 16) ;;
     creatorCertificates <- scanBytes (col row 17) ;;
     benchmarks <- scanAll scanUint64 (skipn 18 row) ;;
     Ok (id, createdTS, dealID, orderType, orderStatus, author, counterAgent,
         duration, price, netflags, identityLevel, blacklist, tag, frozenSum,
         creatorIdentityLevel, creatorName, creatorCountry,
         creatorCertificates, benchmarks)) ;;
  let '(id, createdTS, dealID, orderType, orderStatus, author, counterAgent,
        duration, price, netflags, identityLevel, blacklist, tag, frozenSum,
        creatorIdentityLevel, creatorName, creatorCountry,
        creatorCertificates, benchmarks) := scanned in
  bigPrice <- Wrap "failed to NewBigIntFromString (Price)"
                   (pb.NewBigIntFromString price) ;;
  bigFrozenSum <- Wrap "failed to NewBigIntFromString (FrozenSum)"
                       (pb.NewBigIntFromString frozenSum) ;;
  bigID <- Wrap "failed to NewBigIntFromString (ID)"
                (pb.NewBigIntFromString id) ;;
  bigDealID <- Wrap "failed to NewBigIntFromString (DealID)"
                    (pb.NewBigIntFromString dealID) ;;
  Ok (pb.mkDWHOrder
        (pb.mkOrder bigID bigDealID (toInt32 orderType) (toInt32 orderStatus)
           (Some (HexToAddress author)) (Some (HexToAddress counterAgent))
           duration bigPrice netflags (toInt32 identityLevel) blacklist tag
           bigFrozenSum benchmarks)
        (toInt64 createdTS) creatorIdentityLevel creatorName creatorCountry
        creatorCertificates).

(** [decodeDeal] (sql.go, lines 906-1012): price, blocked balance and total
    payout go through [SetString] with the [ok] flag dropped; the ids go
    through [pb.NewBigIntFromString]. *)
Definition decodeDeal (c : sqlStorage) (row : Row) : Res pb.DWHDeal :=
  let nb := Z.to_nat (numBenchmarks c) in
  scanned <- Wrap "failed to scan Deal row"
    (_ <- checkArity row (20 + nb) ;;
     id <- scanString (col row 0) ;;
     supplierID <- scanString (col row 1) ;;
     consumerID <- scanString (col row 2) ;;
     masterID <- scanString (col row 3) ;;
     askID <- scanString (col row 4) ;;
     bidID <- scanString (col row 5) ;;
     duration <- scanUint64 (col row 6) ;;
     price <- scanString (col row 7) ;;
     startTime <- scanInt64 (col row 8) ;;
     endTime <- scanInt64 (col row 9) ;;
     dealStatus <- scanUint64 (col row 10) ;;
     blockedBalance <- scanString (col row 11) ;;
     totalPayout <- scanString (col row 12) ;;
     lastBillTS <- scanInt64 (col row 13) ;;
     netflags <- scanUint64 (col row 14) ;;
     askIdentityLevel <- scanUint64 (col row 15) ;;
     bidIdentityLevel <- scanUint64 (col row 16) ;;
     supplierCertificates <- scanBytes (col row 17) ;;
     consumerCertificates <- scanBytes (col row 18) ;;
     activeChangeRequest <- scanBool (col row 19) ;;
     benchmarks <- scanAll scanUint64 (skipn 20 row) ;;
     Ok (id, supplierID, consumerID, masterID, askID, bidID, duration, price,
         startTime, endTime, dealStatus, blockedBalance, totalPayout,
         lastBillTS, netflags, askIdentityLevel, bidIdentityLevel,
         supplierCertificates, consumerCertificates, activeChangeRequest,
         benchmarks)) ;;
  let '(id, supplierID, consumerID, masterID, askID, bidID, duration, price,
        startTime, endTime, dealStatus, blockedBalance, totalPayout,
        lastBillTS, netflags, askIdentityLevel, bidIdentityLevel,
        supplierCertificates, consumerCertificates, activeChangeRequest,
        benchmarks) := scanned in
  let bigPrice := fst (bigint.SetString price) in
  let bigBlockedBalance := fst (bigint.SetString blockedBalance) in
  let bigTotalPayout := fst (bigint.SetString totalPayout) in
  bigID <- Wrap "failed to NewBigIntFromString (ID)"
                (pb.NewBigIntFromString id) ;;
  bigAskID <- Wrap "failed to NewBigIntFromString (askID)"
                   (pb.NewBigIntFromString askID) ;;
  bigBidID <- Wrap "failed to NewBigIntFromString (bidID)"
                   (pb.NewBigIntFromString bidID) ;;
  Ok (pb.mkDWHDeal
        (pb.mkDeal bigID (HexToAddress supplierID) (HexToAddress consumerID)
           (HexToAddress masterID) bigAskID bigBidID duration bigPrice
           startTime endTime (toInt32 dealStatus) bigBlockedBalance
           bigTotalPayout lastBillTS benchmarks)
        netflags askIdentityLevel bidIdentityLevel supplierCertificates
        consumerCertificates activeChangeRequest).

(** [decodeDealCondition] (sql.go, lines 1014-1063). *)
Definition decodeDealCondition (row : Row) : Res pb.DealCondition :=
  scanned <- Wrap "failed to scan DealCondition row"
    (_ <- checkArity row 10 ;;
     id <- scanUint64 (col row 0) ;;
     supplierID <- scanString (col row 1) ;;
     consumerID <- scanString (col row 2) ;;
     masterID <- scanString (col row 3) ;;
     duration <- scanUint64 (col row 4) ;;
     price <- scanString (col row 5) ;;
     startTime <- scanInt64 (col row 6) ;;
     endTime <- scanInt64 (col row 7) ;;
     totalPayout <- scanString (col row 8) ;;
     dealID <- scanString (col row 9) ;;
     Ok (id, supplierID, consumerID, masterID, duration, price, startTime,
         endTime, totalPayout, dealID)) ;;
  let '(id, supplierID, consumerID, masterID, duration, price, startTime,
        endTime, totalPayout, dealID) := scanned in
  let bigPrice := fst (bigint.SetString price) in
  let bigTotalPayout := fst (bigint.SetString totalPayout) in
  bigDealID <- Wrap "failed to NewBigIntFromString (DealID)"
                    (pb.NewBigIntFromString dealID) ;;
  Ok (pb.mkDealCondition id (HexToAddress supplierID) (HexToAddress consumerID)
        (HexToAddress masterID) bigPrice duration startTime endTime
        bigTotalPayout bigDealID).

(** [decodeDealChangeRequest] (sql.go, lines 1160-1202). *)
Definition decodeDealChangeRequest (row : Row) : Res pb.DealChangeRequest :=
  scanned <- Wrap "failed to scan DealChangeRequest row"
    (_ <- checkArity row 7 ;;
     changeRequestID <- scanString (col row 0) ;;
     createdTS <- scanUint64 (col row 1) ;;
     requestType <- scanUint64 (col row 2) ;;
     duration <- scanUint64 (col row 3) ;;
     price <- scanString (col row 4) ;;
     changeRequestStatus <- scanUint64 (col row 5) ;;
     dealID <- scanString (col row 6) ;;
     Ok (changeRequestID, createdTS, requestType, duration, price,
         changeRequestStatus, dealID)) ;;
  let '(changeRequestID, createdTS, requestType, duration, price,
        changeRequestStatus, dealID) := scanned in
  let bigPrice := fst (bigint.SetString price) in
  bigDealID <- Wrap "failed to NewBigIntFromString (ID)"
                    (pb.NewBigIntFromString dealID) ;;
  bigChangeRequestID <- Wrap "failed to NewBigIntFromString (ChangeRequestID)"
                             (pb.NewBigIntFromString changeRequestID) ;;
  Ok (pb.mkDealChangeRequest bigChangeRequestID bigDealID (toInt32 requestType)
        duration bigPrice (toInt32 changeRequestStatus)).

(** The loop [for rows.Next() { x, err := decode(rows); if err != nil { return
    wrap(err) }; out = append(out, x) }] followed by the test of
    [rows.Err()]. *)
Fixpoint decodeRows {A : Type} (decode : Row -> Res A)
                    (onError : Res A -> Res A) (l : list Row) : Res (list A) :=
  match l with
  | [] => Ok []
  | row :: rest =>
      x <- onError (decode row) ;;
      out <- decodeRows decode onError rest ;;
      Ok (x :: out)
  end.

Definition rowsErr (rows : Rows) : Res unit :=
  match rows_err rows with
  | None => Ok tt
  | Some e => Err e
  end.

(** *** Read path *)

(** [GetOrderByID] (sql.go, lines 298-314). *)
Definition GetOrderByID (c : sqlStorage) (orderID : Z) : M pb.DWHOrder :=
  let '(query, args) :=
    ToSql (Where (From (Select (builder c) (OrderColumns (tablesInfo_ c))) "Orders")
                 "Id = ?" [VStr (util.bigString orderID)]) in
  rows <-- wrapM "failed to selectOrderByID" (Query query args) ;;
  match rows_data rows with
  | [] => lift (Err "no rows returned")
  | row :: _ => lift (decodeOrder c row)
  end.

(** The statement [GetOrders] assembles (sql.go, lines 317-364), before
    offset and limit are applied.  [PaddedString] may panic, hence [Res]. *)
Definition ordersBuilder (c : sqlStorage) (r : pb.OrdersRequest)
  : Res SelectBuilder :=
  let builder := From (Select (builder c) ["*"]) "Orders" in
  let builder :=
    Where builder "Status = ?" [VInt pb.OrderStatus_ORDER_ACTIVE] in
  let builder :=
    match pb.r_DealID r with
    | Some n =>
        if negb (pb.BigInt_IsZero (pb.r_DealID r))
        then Where builder "DealID = ?" [VStr (util.bigString n)]
        else builder
    | None => builder
    end in
  let builder :=
    if pb.r_Type r >? 0 then Where builder "Type = ?" [VInt (pb.r_Type r)]
    else builder in
  let builder :=
    if negb (pb.EthAddress_IsZero (pb.r_AuthorID r))
    then Where builder "AuthorID = ?" [VStr (pb.EthAddress_Hex (pb.r_AuthorID r))]
    else builder in
  let builder :=
    if negb (pb.EthAddress_IsZero (pb.r_CounterpartyID r))
    then Where builder "CounterpartyID = ?"
               [VStr (pb.EthAddress_Hex (pb.r_CounterpartyID r))]
    else builder in
  let builder :=
    match pb.r_Duration r with
    | Some d =>
        let builder :=
          if pb.Max64 d >? 0 then Where builder "Duration <= ?" [VInt (pb.Max64 d)]
          else builder in
        Where builder "Duration >= ?" [VInt (pb.Min64 d)]
    | None => builder
    end in
  builder <-
    match pb.r_Price r with
    | Some p =>
        builder <-
          match pb.MaxBig p with
          | Some mx => s <- pb.BigInt_PaddedString mx ;;
                       Ok (Where builder "Price <= ?" [VStr s])
          | None => Ok builder
          end ;;
        match pb.MinBig p with
        | Some mn => s <- pb.BigInt_PaddedString mn ;;
                     Ok (Where builder "Price >= ?" [VStr s])
        | None => Ok builder
        end
    | None => Ok builder
    end ;;
  let builder :=
    match pb.r_Netflags r with
    | Some nf =>
        if pb.FlagsValue nf >? 0
        then newNetflagsWhere builder (pb.Operator nf) (pb.FlagsValue nf)
        else builder
    | None => builder
    end in
  let builder :=
    if pb.r_CreatorIdentityLevel r >? 0
    then Where builder "CreatorIdentityLevel >= ?" [VInt (pb.r_CreatorIdentityLevel r)]
    else builder in
  let builder :=
    match pb.r_CreatedTS r with
    | Some createdTS =>
        let builder :=
          match pb.MaxTS createdTS with
          | Some mx => if mx >? 0 then Where builder "CreatedTS <= ?" [VInt mx]
                       else builder
          | None => builder
          end in
        match pb.MinTS createdTS with
        | Some mn => if mn >? 0 then Where builder "CreatedTS >= ?" [VInt mn]
                     else builder
        | None => builder
        end
    | None => builder
    end in
  let builder :=
    match pb.r_Benchmarks r with
    | Some benches => addBenchmarksConditionsWhere builder benches
    | None => builder
    end in
  Ok (builderWithSortings builder (pb.r_Sortings r)).

(** [GetOrders] (sql.go, lines 316-386). *)
Definition GetOrders (c : sqlStorage) (r : pb.OrdersRequest)
  : M (list pb.DWHOrder * Z) :=
  builder <-- lift (ordersBuilder c r) ;;
  let '(query, args) :=
    ToSql (builderWithOffsetLimit builder (pb.r_Limit r) (pb.r_Offset r)) in
  res <-- wrapM "failed to run query"
        (runQuery (strings.Join (OrderColumns (tablesInfo_ c)) ", ")
                  (pb.r_WithCount r) query args) ;;
  let '(rows, count) := res in
  orders <-- lift (decodeRows (decodeOrder c) (Wrap "failed to decodeOrder")
                              (rows_data rows)) ;;
  _ <-- lift (Wrap "rows error" (rowsErr rows)) ;;
  ret (orders, count).

(** The statement [GetMatchingOrders] assembles for the reference order
    (sql.go, lines 396-440), before offset and limit are applied. *)
Definition matchingBuilder (c : sqlStorage) (order : pb.DWHOrder)
  : Res SelectBuilder :=
  let builder := From (Select (builder c) ["*"]) "Orders" in
  let o := pb.Order_ order in
  let '(orderType, priceOp, durationOp, benchOp, sortingOrder) :=
    if pb.OrderType_ o =? pb.OrderType_BID
    then (pb.OrderType_ASK, lte, gte, gte, pb.SortingOrder_Asc)
    else (pb.OrderType_BID, gte, lte, lte, pb.SortingOrder_Desc) in
  let builder := Where builder "Type = ?" [VInt orderType] in
  let builder :=
    Where builder "Status = ?" [VInt pb.OrderStatus_ORDER_ACTIVE] in
  price <- pb.BigInt_PaddedString (pb.Price o) ;;
  let builder := Where builder ("Price " ++ priceOp ++ " ?") [VStr price] in
  let builder :=
    if pb.Duration o >? 0
    then Where builder ("Duration " ++ durationOp ++ " ?") [VInt (pb.Duration o)]
    else Where builder "Duration = ?" [VInt (pb.Duration o)] in
  let builder :=
    if negb (pb.EthAddress_IsZero (pb.CounterpartyID o))
    then Where builder "AuthorID = ?"
               [VStr (pb.EthAddress_Hex (pb.CounterpartyID o))]
    else builder in
  let builder :=
    WherePart builder
      (Eq "CounterpartyID"
          [VStr pb.zeroAddress; VStr (pb.EthAddress_Hex (pb.AuthorID o))]) in
  let builder :=
    if pb.OrderType_ o =? pb.OrderType_BID
    then newNetflagsWhere builder pb.CmpOp_GTE (pb.Netflags o)
    else newNetflagsWhere builder pb.CmpOp_LTE (pb.Netflags o) in
  let builder := Where builder "IdentityLevel >= ?" [VInt (pb.IdentityLevel o)] in
  let builder :=
    Where builder "CreatorIdentityLevel <= ?" [VInt (pb.CreatorIdentityLevel order)] in
  let builder :=
    fold_left
      (fun builder '(benchID, benchValue) =>
         Where builder
               (getBenchmarkColumn (Z.of_nat benchID) ++ " " ++ benchOp ++ " ?")
               [VInt benchValue])
      (combine (seq 0 (List.length (pb.Benchmarks o))) (pb.Benchmarks o))
      builder in
  Ok (builderWithSortings builder [pb.mkSortingOption "Price" sortingOrder]).

(** [GetMatchingOrders] (sql.go, lines 388-462). *)
Definition GetMatchingOrders (c : sqlStorage) (r : pb.MatchingOrdersRequest)
  : M (list pb.DWHOrder * Z) :=
  order <-- wrapM "failed to GetOrderByID" (GetOrderByID c (pb.m_Id r)) ;;
  builder <-- lift (matchingBuilder c order) ;;
  let '(query, args) :=
    ToSql (builderWithOffsetLimit builder (pb.m_Limit r) (pb.m_Offset r)) in
  res <-- wrapM "failed to run Query"
        (runQuery (strings.Join (OrderColumns (tablesInfo_ c)) ", ")
                  (pb.m_WithCount r) query args) ;;
  let '(rows, count) := res in
  orders <-- lift (decodeRows (decodeOrder c)
                              (internalError "failed to GetMatchingOrders")
                              (rows_data rows)) ;;
  _ <-- lift (internalError "failed to GetMatchingOrders" (rowsErr rows)) ;;
  ret (orders, count).

(** [GetDealChangeRequestsByID] (sql.go, lines 586-611). *)
Definition GetDealChangeRequestsByID (c : sqlStorage) (changeRequestID : Z)
  : M (list pb.DealChangeRequest) :=
  let '(query, args) :=
    ToSql (Where (From (Select (builder c)
                               (DealChangeRequestColumns (tablesInfo_ c)))
                       "DealChangeRequests")
                 "DealID = ?" [VStr (util.bigString changeRequestID)]) in
  rows <-- wrapM "failed to selectDealChangeRequests" (Query query args) ;;
  out <-- lift (decodeRows decodeDealChangeRequest
                           (Wrap "failed to decodeDealChangeRequest")
                           (rows_data rows)) ;;
  _ <-- lift (rowsErr rows) ;;
  ret out.

(** *** Write path *)

(** [deal.Benchmarks.Values[benchID]] for [benchID < numBenchmarks]; an index
    out of range panics. *)
Fixpoint benchmarkArgs (values : list Z) (n : nat) : Res (list Value) :=
  match n with
  | O => Ok []
  | S n' =>
      match values with
      | [] => Panic "index out of range"
      | v :: rest => t <- benchmarkArgs rest n' ;; Ok (VInt v :: t)
      end
  end.

(** The argument list [InsertDeal] hands to the insert statement
    (sql.go, lines 68-92). *)
Definition dealColumns (c : sqlStorage) (deal : pb.Deal) (ask bid : pb.DWHOrder)
                       (hasActiveChangeRequests : bool) : Res (list Value) :=
  price <- pb.BigInt_PaddedString (pb.d_Price deal) ;;
  blockedBalance <- pb.BigInt_PaddedString (pb.d_BlockedBalance deal) ;;
  totalPayout <- pb.BigInt_PaddedString (pb.d_TotalPayout deal) ;;
  let allColumns :=
    [VStr (util.bigString (pb.d_Id deal));
     VStr (pb.d_SupplierID deal);
     VStr (pb.d_ConsumerID deal);
     VStr (pb.d_MasterID deal);
     VStr (util.bigString (pb.d_AskID deal));
     VStr (util.bigString (pb.d_BidID deal));
     VInt (pb.d_Duration deal);
     VStr price;
     VInt (pb.d_StartTime deal);
     VInt (pb.d_EndTime deal);
     VInt (pb.d_Status deal);
     VStr blockedBalance;
     VStr totalPayout;
     VInt (pb.d_LastBillTS deal);
     VInt (pb.Netflags (pb.Order_ ask));
     VInt (pb.IdentityLevel (pb.Order_ ask));
     VInt (pb.IdentityLevel (pb.Order_ bid));
     VBytes (pb.CreatorCertificates ask);
     VBytes (pb.CreatorCertificates bid);
     VBool hasActiveChangeRequests] in
  benches <- benchmarkArgs (pb.d_Benchmarks deal) (Z.to_nat (numBenchmarks c)) ;;
  Ok (allColumns ++ benches)%list.

(** <<
    func (c *sqlStorage) InsertDeal(conn queryConn, deal *pb.Deal) error {
        ask, err := c.GetOrderByID(conn, deal.AskID.Unwrap())
        if err != nil { return errors.Wrapf(err, "failed to getOrderDetails (Ask)") }
        bid, err := c.GetOrderByID(conn, deal.BidID.Unwrap())
        if err != nil { return errors.Wrapf(err, "failed to getOrderDetails (Bid)") }
        var hasActiveChangeRequests bool
        if _, err := c.GetDealChangeRequestsByID(conn, deal.Id.Unwrap()); err == nil {
            hasActiveChangeRequests = true
        }
        allColumns := []interface{}{ ... }
        _, err = conn.Exec(c.commands.insertDeal, allColumns...)
        return err }
    >> *)
Definition InsertDeal (c : sqlStorage) (deal : pb.Deal) : M unit :=
  ask <-- wrapM "failed to getOrderDetails (Ask)"
                (GetOrderByID c (pb.d_AskID deal)) ;;
  bid <-- wrapM "failed to getOrderDetails (Bid)"
                (GetOrderByID c (pb.d_BidID deal)) ;;
  tryM (GetDealChangeRequestsByID c (pb.d_Id deal)) (fun r =>
    match r with
    | Panic p => lift (Panic p)
    | looked =>
        let hasActiveChangeRequests := is_ok looked in
        allColumns <-- lift (dealColumns c deal ask bid hasActiveChangeRequests) ;;
        Exec (insertDeal c) allColumns
    end).

End dwh.

(** ** Package node *)

Module node.

(** <<
    func invertOrderType(s pb.OrderType) pb.OrderType {
        if s == pb.OrderType_ASK { return pb.OrderType_BID } else { return pb.OrderType_ASK } }
    >> *)
Definition invertOrderType (s : pb.OrderType) : pb.OrderType :=
  if s =? pb.OrderType_ASK then pb.OrderType_BID else pb.OrderType_ASK.

End node.

(** ** Meaning of the WHERE fragments

    A reference reading of the SQL the builder emits: a fragment is
    [side cmp side], a side is a [|]-separated list of operands, an operand
    is a column, a placeholder or an integer literal under any number of
    [~].  Integers are 64-bit two's complement in the database; [~] and [|]
    never overflow, so on the integers the columns hold they are [Z.lnot] and
    [Z.lor].  Texts compare bytewise. *)

Module sqlsem.

(** A stored row: column name and value. *)
Definition NamedRow := list (string * Value).

Fixpoint lookup (row : NamedRow) (c : string) : option Value :=
  match row with
  | [] => None
  | (k, v) :: rest => if String.eqb k c then Some v else lookup rest c
  end.

Inductive Tok : Type :=
| TParam | TInt (z : Z) | TIdent (s : string) | TOr | TNot | TCmp (op : string).

Fixpoint words (s : string) : list string :=
  match s with
  | EmptyString => [EmptyString]
  | String c r =>
      if Ascii.eqb c " " then EmptyString :: words r
      else match words r with
           | w :: ws => String c w :: ws
           | [] => [String c EmptyString]
           end
  end.

Definition atom (w : string) : Tok :=
  if String.eqb w "?" then TParam
  else let '(n, ok) := bigint.SetString w in
       if ok then TInt n else TIdent w.

Definition tokensOf (w : string) : list Tok :=
  if String.eqb w "" then []
  else if String.eqb w "|" then [TOr]
  else if String.eqb w "~" then [TNot]
  else if String.eqb w "=" || String.eqb w "<=" || String.eqb w ">="
       then [TCmp w]
  else match w with
       | String "~" rest => [TNot; atom rest]
       | _ => [atom w]
       end.

Definition tokenize (s : string) : list Tok := flat_map tokensOf (words s).

(** Cut a token list at the first comparison operator. *)
Fixpoint splitCmp (toks : list Tok) : option (list Tok * string * list Tok) :=
  match toks with
  | [] => None
  | TCmp op :: rest => Some ([], op, rest)
  | t :: rest =>
      match splitCmp rest with
      | Some (l, op, r) => Some (t :: l, op, r)
      | None => None
      end
  end.

(** Cut a side at its [|]. *)
Fixpoint splitOr (toks : list Tok) : list (list Tok) :=
  match toks with
  | [] => [[]]
  | TOr :: rest => [] :: splitOr rest
  | t :: rest =>
      match splitOr rest with
      | g :: gs => (t :: g) :: gs
      | [] => [[t]]
      end
  end.

(** An operand; placeholders take the arguments from left to right. *)
Fixpoint evalOperand (g : list Tok) (row : NamedRow) (args : list Value)
  : option (Value * list Value) :=
  match g with
  | [TParam] => match args with a :: r => Some (a, r) | [] => None end
  | [TInt z] => Some (VInt z, args)
  | [TIdent c] => match lookup row c with Some v => Some (v, args) | None => None end
  | TNot :: g' =>
      match evalOperand g' row args with
      | Some (VInt z, r) => Some (VInt (Z.lnot z), r)
      | _ => None
      end
  | _ => None
  end.

Fixpoint evalOrs (acc : Value) (gs : list (list Tok)) (row : NamedRow)
                 (args : list Value) : option (Value * list Value) :=
  match gs with
  | [] => Some (acc, args)
  | g :: rest =>
      match acc, evalOperand g row args with
      | VInt a, Some (VInt b, r) => evalOrs (VInt (Z.lor a b)) rest row r
      | _, _ => None
      end
  end.

Definition evalSide (toks : list Tok) (row : NamedRow) (args : list Value)
  : option (Value * list Value) :=
  match splitOr toks with
  | [] => None
  | g :: gs =>
      match evalOperand g row args with
      | Some (v, r) => evalOrs v gs row r
      | None => None
      end
  end.

Definition cmpHolds (op : string) (c : comparison) : bool :=
  if String.eqb op "=" then match c with Datatypes.Eq => true | _ => false end
  else if String.eqb op "<=" then match c with Gt => false | _ => true end
  else match c with Lt => false | _ => true end.

Definition compareValues (a b : Value) : option comparison :=
  match a, b with
  | VInt x, VInt y => Some (x ?= y)
  | VStr s, VStr t => Some (String.compare s t)
  | _, _ => None
  end.

(** Does the fragment hold on the row?  [None]: the fragment is outside the
    grammar above or ill-typed. *)
Definition evalPred (sql : string) (args : list Value) (row : NamedRow)
  : option bool :=
  match splitCmp (tokenize sql) with
  | None => None
  | Some (l, op, r) =>
      match evalSide l row args with
      | None => None
      | Some (a, args') =>
          match evalSide r row args' with
          | Some (b, []) =>
              match compareValues a b with
              | Some c => Some (cmpHolds op c)
              | None => None
              end
          | _ => None
          end
      end
  end.

Definition valueEqb (a b : Value) : bool :=
  match a, b with
  | VInt x, VInt y => x =? y
  | VStr s, VStr t => String.eqb s t
  | _, _ => false
  end.

(** A part of the WHERE clause on a row; [Eq col vals] is [col IN (vals)]. *)
Definition partHolds (p : squirrel.Sqlizer) (row : NamedRow) : option bool :=
  match p with
  | squirrel.Expr sql args => evalPred sql args row
  | squirrel.Eq c vals =>
      match lookup row c with
      | Some v => Some (existsb (valueEqb v) vals)
      | None => None
      end
  end.

(** The row is selected when every part holds. *)
Definition selects (b : squirrel.SelectBuilder) (row : NamedRow) : bool :=
  forallb (fun p => match partHolds p row with Some true => true | _ => false end)
          (squirrel.sb_WhereParts b).

End sqlsem.

(** ** Notions used to state the properties of the builder *)

Section BuilderNotions.

Import dwh squirrel.

(** The first WHERE part, once set, stays first. *)
Definition firstPart (b : SelectBuilder) : option Sqlizer :=
  hd_error (sb_WhereParts b).

(** Outcome of a builder computation that may panic: a statement satisfying
    [P], or a panic (then nothing is sent), never a returned error. *)
Definition builds (P : SelectBuilder -> Prop) (m : Res SelectBuilder) : Prop :=
  match m with
  | Ok b => P b
  | Panic _ => True
  | Err _ => False
  end.

Definition activePart : Sqlizer :=
  Expr "Status = ?" [VInt pb.OrderStatus_ORDER_ACTIVE].

(** A per-benchmark comparison added by the loop over the benchmarks of the
    reference order. *)
Definition benchPart (op : string) (p : Sqlizer) : Prop :=
  exists id v, p = Expr (getBenchmarkColumn id ++ " " ++ op ++ " ?") [VInt v].

(** The counterparty of orders the reference order may match: the field is
    unset or names the author of the reference order. *)
Definition counterpartyPart (o : pb.Order) : Sqlizer :=
  Eq "CounterpartyID" [VStr pb.zeroAddress; VStr (pb.EthAddress_Hex (pb.AuthorID o))].

Definition authorPart (o : pb.Order) : Sqlizer :=
  Expr "AuthorID = ?" [VStr (pb.EthAddress_Hex (pb.CounterpartyID o))].

End BuilderNotions.

(** ** The counterparty rule as the specification words it

    "If O names a specific counterparty, restrict to orders authored by that
    address; otherwise accept orders whose counterparty field is either unset
    or equals O's author": the author restriction is present exactly when O
    names a counterparty, the counterparty restriction exactly when it does
    not. *)

Definition spec_counterparty_rule (c : dwh.sqlStorage) (order : pb.DWHOrder)
  : Prop :=
  let o := pb.Order_ order in
  forall b, dwh.matchingBuilder c order = Ok b ->
    (In (squirrel.Expr "AuthorID = ?" [VStr (pb.EthAddress_Hex (pb.CounterpartyID o))])
        (squirrel.sb_WhereParts b)
     <-> pb.EthAddress_IsZero (pb.CounterpartyID o) = false)
    /\ (In (squirrel.Eq "CounterpartyID"
              [VStr pb.zeroAddress; VStr (pb.EthAddress_Hex (pb.AuthorID o))])
           (squirrel.sb_WhereParts b)
        <-> pb.EthAddress_IsZero (pb.CounterpartyID o) = true).

(** ** Sample data *)

Module sample.

Definition storage : dwh.sqlStorage :=
  dwh.newPostgresStorage (dwh.newTablesInfo 2) 2
    "INSERT INTO Deals VALUES ($1, $2, $3, $4, $5, $6, $7, $8, $9, $10, $11, $12, $13, $14, $15, $16, $17, $18, $19, $20, $21, $22)".

Definition alice : pb.Address := "0x00000000000000000000000000000000000000A1".
Definition bob : pb.Address := "0x00000000000000000000000000000000000000B2".
Definition carol : pb.Address := "0x00000000000000000000000000000000000000C3".

(** A bid by alice, open to any supplier. *)
Definition openBid : pb.DWHOrder :=
  pb.mkDWHOrder
    (pb.mkOrder 5 0 pb.OrderType_BID pb.OrderStatus_ORDER_ACTIVE
                (Some alice) None 3600 100 3 1 "" "" 0 [7; 8])
    1500000000 2 "alice" "NL" "".

(** An ask by bob, open to any consumer. *)
Definition openAsk : pb.DWHOrder :=
  pb.mkDWHOrder
    (pb.mkOrder 6 0 pb.OrderType_ASK pb.OrderStatus_ORDER_ACTIVE
                (Some bob) None 7200 90 7 1 "" "" 0 [9; 9])
    1500000001 2 "bob" "DE" "".

(** A bid by alice that names bob as its counterparty. *)
Definition targetedBid : pb.DWHOrder :=
  pb.mkDWHOrder
    (pb.mkOrder 7 0 pb.OrderType_BID pb.OrderStatus_ORDER_ACTIVE
                (Some alice) (Some bob) 3600 100 3 1 "" "" 0 [7; 8])
    1500000002 2 "alice" "NL" "".

Definition padded (n : Z) : string :=
  match util.BigIntToPaddedString n with
  | Ok s => s
  | _ => ""
  end.

(** A stored ask of bob that is reserved for carol. *)
Definition askForCarol : sqlsem.NamedRow :=
  [("Id", VStr "8"); ("Type", VInt pb.OrderType_ASK);
   ("Status", VInt pb.OrderStatus_ORDER_ACTIVE);
   ("AuthorID", VStr bob); ("CounterpartyID", VStr carol);
   ("Duration", VInt 7200); ("Price", VStr (padded 90));
   ("Netflags", VInt 7); ("IdentityLevel", VInt 1);
   ("CreatorIdentityLevel", VInt 2);
   ("Benchmark0", VInt 9); ("Benchmark1", VInt 9)].

(** Rows as the driver returns them: the order and deal rows have the 18
    resp. 20 fixed columns followed by the two benchmark columns. *)
Definition orderRow (id : Z) (otype : Z) (author : pb.Address) (price : string)
  : Row :=
  [VStr (util.bigString id); VInt 1500000000; VStr "0"; VInt otype;
   VInt pb.OrderStatus_ORDER_ACTIVE; VStr author; VStr pb.zeroAddress;
   VInt 3600; VStr price; VInt 3; VInt 1; VStr ""; VBytes ""; VStr (padded 0);
   VInt 2; VStr "name"; VStr "NL"; VBytes ""; VInt 7; VInt 8].

Definition dealRow (price : string) : Row :=
  [VStr "11"; VStr bob; VStr alice; VStr bob; VStr "6"; VStr "5"; VInt 3600;
   VStr price; VInt 1500000100; VInt 0; VInt 1; VStr (padded 0);
   VStr (padded 0); VInt 1500000100; VInt 7; VInt 1; VInt 1; VBytes "";
   VBytes ""; VBool false; VInt 9; VInt 9].

Definition conditionRow (price : string) : Row :=
  [VInt 1; VStr bob; VStr alice; VStr bob; VInt 3600; VStr price;
   VInt 1500000100; VInt 0; VStr (padded 0); VStr "11"].

Definition changeRequestRow (price : string) : Row :=
  [VStr "21"; VInt 1500000200; VInt pb.OrderType_BID; VInt 3600; VStr price;
   VInt 1; VStr "11"].

(** A deal between the open ask and the open bid. *)
Definition deal : pb.Deal :=
  pb.mkDeal 11 bob alice bob 6 5 3600 95 1500000100 0 1 0 0 1500000100 [9; 9].

(** A database that holds the two orders of the deal and no change request:
    statements over Orders find an order, any other statement finds no
    row. *)
Definition dealConn : queryConn :=
  mkConn
    (fun sql args =>
       if strings.Contains sql "FROM Orders"
       then match args with
            | [VStr "6"] => Ok (mkRows [orderRow 6 pb.OrderType_ASK bob (padded 90)] None)
            | [VStr "5"] => Ok (mkRows [orderRow 5 pb.OrderType_BID alice (padded 100)] None)
            | _ => Ok (mkRows [] None)
            end
       else Ok (mkRows [] None))
    (fun _ _ => None).

(** A database that answers every statement without rows. *)
Definition emptyConn : queryConn :=
  mkConn (fun _ _ => Ok (mkRows [] None)) (fun _ _ => None).

(** A page of active orders with the total requested. *)
Definition pagedRequest : pb.OrdersRequest :=
  pb.mkOrdersRequest None 0 None None None None None 0 None None [] 2 1 true.

(** A request whose sort field is not a column. *)
Definition hostileSort : pb.SortingOption :=
  pb.mkSortingOption "Price; DROP TABLE Orders; --" pb.SortingOrder_Asc.

Definition hostileRequest : pb.OrdersRequest :=
  pb.mkOrdersRequest None 0 None None None None None 0 None None
                     [hostileSort] 0 0 false.

End sample.

(** * Further functions of the sources *)

(** ** Package util, continued *)

Module util_more.

(** [strconv.Atoi]: an optional sign and decimal digits, within [int]. *)
Definition Atoi (s : string) : Res Z :=
  let '(n, ok) := bigint.SetString s in
  if negb ok then Err ("strconv.Atoi: parsing " ++ s ++ ": invalid syntax")
  else if (n <? - 2 ^ 63) || (2 ^ 63 - 1 <? n)
       then Err ("strconv.Atoi: parsing " ++ s ++ ": value out of range")
       else Ok n.

Section Endpoint.

(** [net.SplitHostPort]: host and port of an endpoint, or an error. *)
Variable SplitHostPort : string -> Res (string * string).

(** <<
    func ParseEndpointPort(s string) (string, error) {
        _, port, err := net.SplitHostPort(s)
        if err != nil { return "", err }
        intPort, err := strconv.Atoi(port)
        if err != nil { return "", err }
        if intPort < 1 || intPort > 65535 { return "", errors.New("invalid port value") }
        return port, nil }
    >> *)
Definition ParseEndpointPort (s : string) : Res string :=
  hp <- SplitHostPort s ;;
  let port := snd hp in
  intPort <- Atoi port ;;
  if (intPort <? 1) || (intPort >? 65535) then Err "invalid port value"
  else Ok port.

End Endpoint.

(** What [os.Stat] reports for a path: the file information, of which only
    [IsDir] is read, the error [os.IsNotExist] recognises, or another error.
    On an error the file information is nil. *)
Inductive StatResult : Type :=
| StatInfo (isDir : bool)
| StatNotExist
| StatError (msg : string).

Section Files.

Variable Stat : string -> StatResult.

(** <<
    func FileExists(p string) bool {
        f, err := os.Stat(p)
        if err != nil { return !os.IsNotExist(err) && !f.IsDir() }
        return !f.IsDir() }
    >>
    [f.IsDir()] on the nil [f] of the error case panics. *)
Definition FileExists (p : string) : Res bool :=
  match Stat p with
  | StatInfo isDir => Ok (negb isDir)
  | StatNotExist => Ok false
  | StatError _ => Panic "invalid memory address or nil pointer dereference"
  end.

(** <<
    func DirectoryExists(p string) bool {
        f, err := os.Stat(p)
        if err != nil { return false }
        return f.IsDir() }
    >> *)
Definition DirectoryExists (p : string) : bool :=
  match Stat p with
  | StatInfo isDir => isDir
  | _ => false
  end.

End Files.

End util_more.

(** ** Package config *)

Module config.

(** [unicode.IsUpper] and [unicode.ToLower] on ASCII. *)
Definition IsUpper (c : ascii) : bool :=
  (65 <=? N_of_ascii c)%N && (N_of_ascii c <=? 90)%N.

Definition ToLower (c : ascii) : ascii :=
  if IsUpper c then ascii_of_N (N_of_ascii c + 32) else c.

(** <<
    func camelCaseToSnakeCase(src string) string {
        var b bytes.Buffer
        for i, r := range src {
            if unicode.IsUpper(r) {
                if i > 0 { b.WriteByte('_') }
                r = unicode.ToLower(r)
            }
            b.WriteRune(r)
        }
        return b.String() }
    >>
    The loop from position [i] on; names are ASCII, one byte per rune. *)
Fixpoint snakeFrom (i : nat) (src : string) : string :=
  match src with
  | EmptyString => EmptyString
  | String r rest =>
      if IsUpper r
      then (if (0 <? i)%nat then String "_" (String (ToLower r) (snakeFrom (S i) rest))
            else String (ToLower r) (snakeFrom (S i) rest))
      else String r (snakeFrom (S i) rest)
  end.

Definition camelCaseToSnakeCase (src : string) : string := snakeFrom 0 src.

End config.

(** ** Package dwh, continued *)

Module dwh_more.

Import squirrel sqlscan dwh.

(** [fmt.Sprintf] for formats whose only verbs are [%s], with strings as
    arguments. *)
Fixpoint Sprintf (format : string) (args : list string) : string :=
  match format with
  | EmptyString => EmptyString
  | String "%" (String "s" rest) =>
      match args with
      | a :: args' => a ++ Sprintf rest args'
      | [] => "%!s(MISSING)" ++ Sprintf rest []
      end
  | String c rest => String c (Sprintf rest args)
  end.

(** The statements of [sqlCommands] used below. *)
Record sqlCommands : Type := mkCommands {
  insertOrder : string;
  storeStaleID : string;
  removeStaleID : string;
  checkStaleID : string
}.

(** *** Placeholders of the insert statements *)

(** [formatArg]: the placeholder of argument [argID], followed by a separator
    unless it is the last one. *)
Definition formatArg := Z -> bool -> string.

(** postgres.go, [newPostgresStorage]:
    <<
    formatCb := func(argID uint64, lastArg bool) string {
        if lastArg { return fmt.Sprintf("$%d", argID+1) }
        return fmt.Sprintf("$%d, ", argID+1) }
    >> *)
Definition postgresFormatCb : formatArg :=
  fun argID lastArg =>
    if lastArg then "$" ++ util.bigString ((argID + 1) mod 2 ^ 64)
    else "$" ++ util.bigString ((argID + 1) mod 2 ^ 64) ++ ", ".

(** The two loops of [makeInsertDealQuery] and [makeInsertOrderQuery]:
    <<
    for i := uint64(0); i < numColumns; i++ { placeholders += formatCb(i, false) }
    for i := numColumns; i < numColumns+numBenchmarks; i++ {
        if i == numBenchmarks+numColumns-1 { placeholders += formatCb(i, true)
        } else { placeholders += formatCb(i, false) } }
    >> *)
Definition placeholdersOf (formatCb : formatArg) (numColumns numBenchmarks : Z)
  : string :=
  let placeholders :=
    fold_left (fun acc i => acc ++ formatCb (Z.of_nat i) false)
              (seq 0 (Z.to_nat numColumns)) "" in
  fold_left
    (fun acc i =>
       if Z.of_nat i =? numBenchmarks + numColumns - 1
       then acc ++ formatCb (Z.of_nat i) true
       else acc ++ formatCb (Z.of_nat i) false)
    (seq (Z.to_nat numColumns) (Z.to_nat numBenchmarks)) placeholders.

(** [makeInsertDealQuery] (sql.go, lines 1600-1613). *)
Definition makeInsertDealQuery (format : string) (formatCb : formatArg)
    (numBenchmarks : Z) (tInfo : tablesInfo) : string :=
  let dealPlaceholders :=
    placeholdersOf formatCb (NumDealColumns tInfo) numBenchmarks in
  Sprintf format [strings.Join (DealColumns tInfo) ", "; dealPlaceholders].

(** [makeInsertOrderQuery] (sql.go, lines 1619-1632). *)
Definition makeInsertOrderQuery (format : string) (formatCb : formatArg)
    (numBenchmarks : Z) (tInfo : tablesInfo) : string :=
  let orderPlaceholders :=
    placeholdersOf formatCb (NumOrderColumns tInfo) numBenchmarks in
  Sprintf format [strings.Join (OrderColumns tInfo) ", "; orderPlaceholders].

(** *** Orders: the write path *)

(** [uint64(x)] of a Go [int32] or [int64]. *)
Definition toUint64 (x : Z) : Z := x mod 2 ^ 64.

(** The argument list of [InsertOrder] (sql.go, lines 250-272). *)
Definition orderColumns (c : sqlStorage) (order : pb.DWHOrder) : Res (list Value) :=
  let o := pb.Order_ order in
  price <- pb.BigInt_PaddedString (pb.Price o) ;;
  frozenSum <- pb.BigInt_PaddedString (pb.FrozenSum o) ;;
  let allColumns :=
    [VStr (util.bigString (pb.Id o));
     VInt (pb.CreatedTS order);
     VStr (util.bigString (pb.DealID o));
     VInt (toUint64 (pb.OrderType_ o));
     VInt (toUint64 (pb.OrderStatus_ o));
     VStr (pb.EthAddress_Hex (pb.AuthorID o));
     VStr (pb.EthAddress_Hex (pb.CounterpartyID o));
     VInt (pb.Duration o);
     VStr price;
     VInt (pb.Netflags o);
     VInt (toUint64 (pb.IdentityLevel o));
     VStr (pb.Blacklist o);
     VBytes (pb.Tag o);
     VStr frozenSum;
     VInt (pb.CreatorIdentityLevel order);
     VStr (pb.CreatorName order);
     VStr (pb.CreatorCountry order);
     VBytes (pb.CreatorCertificates order)] in
  benches <- benchmarkArgs (pb.Benchmarks o) (Z.to_nat (numBenchmarks c)) ;;
  Ok (allColumns ++ benches)%list.

(** [InsertOrder] (sql.go, lines 249-276). *)
Definition InsertOrder (cmds : sqlCommands) (c : sqlStorage)
                       (order : pb.DWHOrder) : M unit :=
  allColumns <-- lift (orderColumns c order) ;;
  Exec (insertOrder cmds) allColumns.

(** *** Stale ids *)

(** [fmt.Sprintf("%s_%s", entity, id.String())] *)
Definition staleKey (id : Z) (entity : string) : string :=
  Sprintf "%s_%s" [entity; util.bigString id].

(** [StoreStaleID], [RemoveStaleID], [CheckStaleID]
    (sql.go, lines 862-890). *)
Definition StoreStaleID (cmds : sqlCommands) (id : Z) (entity : string) : M unit :=
  Exec (storeStaleID cmds) [VStr (staleKey id entity)].

Definition RemoveStaleID (cmds : sqlCommands) (id : Z) (entity : string) : M unit :=
  Exec (removeStaleID cmds) [VStr (staleKey id entity)].

Definition CheckStaleID (cmds : sqlCommands) (id : Z) (entity : string) : M bool :=
  rows <-- Query (checkStaleID cmds) [VStr (staleKey id entity)] ;;
  match rows_data rows with
  | [] => ret false
  | _ :: _ => ret true
  end.

(** *** Deal conditions *)

Record DealConditionsRequest : Type := mkDealConditionsRequest {
  dcr_DealID : Z;
  dcr_Sortings : list pb.SortingOption;
  dcr_Limit : Z;
  dcr_Offset : Z;
  dcr_WithCount : bool
}.

(** The statement of [GetDealConditions] (sql.go, lines 221-226):
    <<
    builder := c.builder().Select("*").From("DealConditions")
    builder = builder.Where("DealID = ?", r.DealID.Unwrap().String())
    if len(r.Sortings) == 0 {
        builder = builderWithSortings(builder, []*pb.SortingOption{{Field: "Id", Order: pb.SortingOrder_Desc}})
    }
    query, args, _ := builderWithOffsetLimit(builder, r.Limit, r.Offset).ToSql()
    >> *)
Definition dealConditionsBuilder (c : sqlStorage) (r : DealConditionsRequest)
  : SelectBuilder :=
  let builder := From (Select (builder c) ["*"]) "DealConditions" in
  let builder := Where builder "DealID = ?" [VStr (util.bigString (dcr_DealID r))] in
  let builder :=
    if (List.length (dcr_Sortings r) =? 0)%nat
    then builderWithSortings builder [pb.mkSortingOption "Id" pb.SortingOrder_Desc]
    else builder in
  builderWithOffsetLimit builder (dcr_Limit r) (dcr_Offset r).

(** [GetDealConditions] (sql.go, lines 220-247). *)
Definition GetDealConditions (c : sqlStorage) (r : DealConditionsRequest)
  : M (list pb.DealCondition * Z) :=
  let '(query, args) := ToSql (dealConditionsBuilder c r) in
  res <-- wrapM "failed to run query" (runQuery "*" (dcr_WithCount r) query args) ;;
  let '(rows, count) := res in
  out <-- lift (decodeRows decodeDealCondition
                           (Wrap "failed to decodeDealCondition")
                           (rows_data rows)) ;;
  _ <-- lift (internalError "failed to GetDealConditions" (rowsErr rows)) ;;
  ret (out, count).

End dwh_more.

(** ** Notions used to state the further properties *)

(** A text without underscore. *)
Fixpoint noUnderscore (s : string) : bool :=
  match s with
  | EmptyString => true
  | String c r => negb (Ascii.eqb c "_") && noUnderscore r
  end.


(** The placeholders [$1], ..., [$k]. *)
Definition dollarPlaceholders (k : nat) : list string :=
  map (fun i => "$" ++ util.bigString (Z.of_nat i + 1)) (seq 0 k).

(** ** Entities the store can hold

    The ranges within which the driver accepts the fields of an entity as
    arguments: unsigned values below [2 ^ 63], enumeration values
    non-negative, prices and sums within the padded width, as many benchmarks
    as the storage is configured for, addresses present. *)

Definition inRange (lo hi x : Z) : bool := (lo <=? x) && (x <? hi).

Definition storableOrder (c : dwh.sqlStorage) (order : pb.DWHOrder) : bool :=
  let o := pb.Order_ order in
  inRange 0 (10 ^ 80) (pb.Price o) && inRange 0 (10 ^ 80) (pb.FrozenSum o)
  && inRange 0 (2 ^ 63) (pb.CreatedTS order)
  && inRange 0 (2 ^ 31) (pb.OrderType_ o)
  && inRange 0 (2 ^ 31) (pb.OrderStatus_ o)
  && inRange 0 (2 ^ 31) (pb.IdentityLevel o)
  && inRange 0 (2 ^ 63) (pb.Duration o)
  && inRange 0 (2 ^ 63) (pb.Netflags o)
  && inRange 0 (2 ^ 63) (pb.CreatorIdentityLevel order)
  && forallb (inRange 0 (2 ^ 63)) (pb.Benchmarks o)
  && (Z.of_nat (List.length (pb.Benchmarks o)) =? dwh.numBenchmarks c)
  && match pb.AuthorID o, pb.CounterpartyID o with
     | Some _, Some _ => true
     | _, _ => false
     end.

Definition storableDeal (c : dwh.sqlStorage) (deal : pb.Deal) : bool :=
  inRange 0 (10 ^ 80) (pb.d_Price deal)
  && inRange 0 (10 ^ 80) (pb.d_BlockedBalance deal)
  && inRange 0 (10 ^ 80) (pb.d_TotalPayout deal)
  && inRange 0 (2 ^ 63) (pb.d_Duration deal)
  && inRange (- 2 ^ 63) (2 ^ 63) (pb.d_StartTime deal)
  && inRange (- 2 ^ 63) (2 ^ 63) (pb.d_EndTime deal)
  && inRange (- 2 ^ 63) (2 ^ 63) (pb.d_LastBillTS deal)
  && inRange 0 (2 ^ 31) (pb.d_Status deal)
  && forallb (inRange 0 (2 ^ 63)) (pb.d_Benchmarks deal)
  && (Z.of_nat (List.length (pb.d_Benchmarks deal)) =? dwh.numBenchmarks c).

(** ** More sample data *)

Module sample_more.

(** A database that answers every query with one stored bid. *)
Definition oneOrderConn : queryConn :=
  mkConn
    (fun _ _ =>
       Ok (mkRows [sample.orderRow 5 pb.OrderType_BID sample.alice
                                   (sample.padded 100)] None))
    (fun _ _ => None).

(** The order that row decodes to. *)
Definition storedBid : pb.DWHOrder :=
  pb.mkDWHOrder
    (pb.mkOrder 5 0 pb.OrderType_BID pb.OrderStatus_ORDER_ACTIVE
                (Some sample.alice) (Some pb.zeroAddress) 3600 100 3 1 "" "" 0
                [7; 8])
    1500000000 2 "name" "NL" "".

(** An order stored with type ANY. *)
Definition untypedOrder : pb.DWHOrder :=
  pb.mkDWHOrder
    (pb.mkOrder 9 0 pb.OrderType_ANY pb.OrderStatus_ORDER_ACTIVE
                (Some sample.alice) None 3600 100 3 1 "" "" 0 [7; 8])
    1500000003 2 "alice" "NL" "".

(** A request for the active orders, without filters. *)
Definition plainRequest : pb.OrdersRequest :=
  pb.mkOrdersRequest None 0 None None None None None 0 None None [] 0 0 false.

(** A database without orders. *)
Definition noOrderConn : queryConn := sample.emptyConn.

(** A database that holds the two orders of the sample deal and fails every
    statement over another table. *)
Definition brokenRequestsConn : queryConn :=
  mkConn
    (fun sql args =>
       if strings.Contains sql "FROM Orders"
       then conn_Query sample.dealConn sql args
       else Err "relation does not exist")
    (fun _ _ => None).

End sample_more.

(** A statement that modifies the store. *)
Definition isExec (e : Event) : bool :=
  match e with EvExec _ _ => true | EvQuery _ _ => false end.


(** An endpoint splitter that cuts at the last colon (host names and IPv4
    addresses). *)
Fixpoint splitLastColon (s : string) : option (string * string) :=
  match s with
  | EmptyString => None
  | String c r =>
      match splitLastColon r with
      | Some (h, p) => Some (String c h, p)
      | None => if Ascii.eqb c ":" then Some (EmptyString, r) else None
      end
  end.

Definition simpleSplitHostPort (s : string) : Res (string * string) :=
  match splitLastColon s with
  | Some hp => Ok hp
  | None => Err ("address " ++ s ++ ": missing port in address")
  end.

(** No capital ASCII letter. *)
Fixpoint noUpper (s : string) : bool :=
  match s with
  | EmptyString => true
  | String c r => negb (config.IsUpper c) && noUpper r
  end.

(** Number of capital ASCII letters. *)
Fixpoint countUpper (s : string) : nat :=
  match s with
  | EmptyString => O
  | String c r => ((if config.IsUpper c then 1 else 0) + countUpper r)%nat
  end.

(** Bytes below 128 only: one byte per rune. *)
Fixpoint isASCII (s : string) : bool :=
  match s with
  | EmptyString => true
  | String c r => (N_of_ascii c <? 128)%N && isASCII r
  end.

(** ** Profiles *)

Module profiles.

Import squirrel dwh.

Inductive ProfileRole : Type :=
| ProfileRole_AnyRole | ProfileRole_Supplier | ProfileRole_Consumer.

Inductive BlacklistOption : Type :=
| BlacklistOption_WithoutMatching
| BlacklistOption_OnlyMatching
| BlacklistOption_IncludeAndMark.

Record BlacklistQuery : Type := mkBlacklistQuery {
  bq_OwnerID : option pb.Address;
  bq_Option : BlacklistOption
}.

Record ProfilesRequest : Type := mkProfilesRequest {
  pr_Role : ProfileRole;
  pr_IdentityLevel : Z;
  pr_Country : string;
  pr_Name : string;
  pr_BlacklistQuery : option BlacklistQuery;
  pr_Sortings : list pb.SortingOption;
  pr_Limit : Z;
  pr_Offset : Z;
  pr_WithCount : bool
}.

(** [r.BlacklistQuery != nil && !r.BlacklistQuery.OwnerID.IsZero()] *)
Definition hasOwner (r : ProfilesRequest) : bool :=
  match pr_BlacklistQuery r with
  | Some q => negb (pb.EthAddress_IsZero (bq_OwnerID q))
  | None => false
  end.

(** The sub-select over the blacklist of the owner (sql.go, lines 480-482):
    <<
    ownerBuilder := c.builder().Select("AddeeID").From("Blacklists").
        Where("AdderID = ?", r.BlacklistQuery.OwnerID.Unwrap().Hex()).Where("AddeeID = p.UserID")
    ownerQuery, _, _ := ownerBuilder.ToSql()
    >> *)
Definition ownerQuery (c : sqlStorage) (q : BlacklistQuery) : string :=
  fst (ToSql (Where (Where (From (Select (builder c) ["AddeeID"]) "Blacklists")
                           "AdderID = ?" [VStr (pb.EthAddress_Hex (bq_OwnerID q))])
                    "AddeeID = p.UserID" [])).

(** The statement of [GetProfiles] before sorting (sql.go, lines 465-491). *)
Definition profilesBuilder (c : sqlStorage) (r : ProfilesRequest) : SelectBuilder :=
  let builder := From (Select (builder c) ["*"]) "Profiles AS p" in
  let builder :=
    match pr_Role r with
    | ProfileRole_Supplier => Where builder "ActiveAsks >= 1" []
    | ProfileRole_Consumer => Where builder "ActiveBids >= 1" []
    | _ => builder
    end in
  let builder := Where builder "IdentityLevel >= ?" [VInt (pr_IdentityLevel r)] in
  let builder :=
    if (0 <? String.length (pr_Country r))%nat
    then Where builder "Country = ?" [VStr (pr_Country r)]
    else builder in
  let builder :=
    if (0 <? String.length (pr_Name r))%nat
    then Where builder "Name LIKE ?" [VStr (pr_Name r)]
    else builder in
  match pr_BlacklistQuery r with
  | Some q =>
      if negb (pb.EthAddress_IsZero (bq_OwnerID q))
      then match bq_OwnerID q, bq_Option q with
           | Some _, BlacklistOption_WithoutMatching =>
               Where builder ("UserID NOT IN (" ++ ownerQuery c q ++ ")") []
           | Some _, BlacklistOption_OnlyMatching =>
               Where builder ("UserID IN (" ++ ownerQuery c q ++ ")") []
           | _, _ => builder
           end
      else builder
  | None => builder
  end.

(** Text and arguments [GetProfiles] hands to [runQuery]
    (sql.go, lines 492-499):
    <<
    builder = builderWithSortings(builder, r.Sortings)
    query, args, _ := builderWithOffsetLimit(builder, r.Limit, r.Offset).ToSql()
    if r.BlacklistQuery != nil && !r.BlacklistQuery.OwnerID.IsZero() {
        args = append(args, r.BlacklistQuery.OwnerID.Unwrap().Hex())
    }
    >> *)
Definition profilesStatement (c : sqlStorage) (r : ProfilesRequest)
  : string * list Value :=
  let builder := builderWithSortings (profilesBuilder c r) (pr_Sortings r) in
  let '(query, args) :=
    ToSql (builderWithOffsetLimit builder (pr_Limit r) (pr_Offset r)) in
  let args :=
    match pr_BlacklistQuery r with
    | Some q =>
        if negb (pb.EthAddress_IsZero (bq_OwnerID q))
        then (args ++ [VStr (pb.EthAddress_Hex (bq_OwnerID q))])%list
        else args
    | None => args
    end in
  (query, args).

End profiles.

(** Text without a question mark: [ReplacePlaceholders] has nothing to number
    in it. *)
Fixpoint noQuestion (s : string) : bool :=
  match s with
  | EmptyString => true
  | String c r => negb (Ascii.eqb c "?") && noQuestion r
  end.

(** The blacklist predicate of [GetProfiles] as it stands in the statement of
    a Postgres storage; [kw] is [NOT IN] or [IN]. *)
Definition blacklistPart (kw : string) : string :=
  "UserID " ++ kw
  ++ " (SELECT AddeeID FROM Blacklists WHERE AdderID = $1 AND AddeeID = p.UserID)".

Module sample_profiles.

Definition blacklisting : profiles.ProfilesRequest :=
  profiles.mkProfilesRequest
    profiles.ProfileRole_Supplier 2 "NL" ""
    (Some (profiles.mkBlacklistQuery (Some sample.alice)
                                     profiles.BlacklistOption_WithoutMatching))
    [] 10 0 false.

End sample_profiles.

Module sample_filters.

(** The asks of bob that name carol, lasting one to three hours, by creators
    of identity level 2 or more. *)
Definition asksOfBob : pb.OrdersRequest :=
  pb.mkOrdersRequest None pb.OrderType_ASK (Some sample.bob) (Some sample.carol)
                     (Some (pb.mkMaxMinUint64 10800 3600)) None None 2 None None
                     [] 0 0 false.

(** A stored ask of bob, open to any consumer. *)
Definition openAskRow : sqlsem.NamedRow :=
  [("Id", VStr "6"); ("Type", VInt pb.OrderType_ASK);
   ("Status", VInt pb.OrderStatus_ORDER_ACTIVE);
   ("AuthorID", VStr sample.bob); ("CounterpartyID", VStr pb.zeroAddress);
   ("Duration", VInt 7200); ("Price", VStr (sample.padded 90));
   ("Netflags", VInt 7); ("IdentityLevel", VInt 1);
   ("CreatorIdentityLevel", VInt 2);
   ("Benchmark0", VInt 9); ("Benchmark1", VInt 9)].

End sample_filters.

Module sample_matching.

(** The row [InsertOrder] stores for an order. *)
Definition storedRow (order : pb.DWHOrder) : Row :=
  match dwh_more.orderColumns sample.storage order with
  | Ok row => row
  | _ => []
  end.

(** A database whose lookup by id finds the given order, and whose other
    queries find no row. *)
Definition connWith (order : pb.DWHOrder) : queryConn :=
  mkConn
    (fun sql args =>
       if strings.Contains sql "WHERE Id = "
       then Ok (mkRows [storedRow order] None)
       else Ok (mkRows [] None))
    (fun _ _ => None).

Definition request (id : Z) : pb.MatchingOrdersRequest :=
  pb.mkMatchingOrdersRequest id 0 0 false.

End sample_matching.
(** * Properties of the padded encoding *)

Section DigitStrings.

Lemma len_nonneg (s : string) : 0 <= len s.
Proof. unfold len; lia. Qed.

Lemma len_String (c : ascii) (s : string) : len (String c s) = 1 + len s.
Proof. unfold len; simpl String.length; lia. Qed.

Lemma length_app (s t : string) :
  String.length (s ++ t) = (String.length s + String.length t)%nat.
Proof. induction s as [|c s IH]; simpl; [reflexivity | now rewrite IH]. Qed.

Lemma len_app (s t : string) : len (s ++ t) = len s + len t.
Proof. unfold len; rewrite length_app; lia. Qed.

Lemma isDigit_range (c : ascii) :
  isDigit c = true -> 0 <= digitVal c <= 9.
Proof.
  unfold isDigit, digitVal; intros H.
  apply andb_true_iff in H as [H1 H2].
  apply N.leb_le in H1, H2; lia.
Qed.

Lemma N_of_digitChar (d : Z) :
  0 <= d <= 9 -> N_of_ascii (util.digitChar d) = (48 + Z.to_N d)%N.
Proof.
  intros Hd; unfold util.digitChar.
  apply N_ascii_embedding; lia.
Qed.

Lemma digitVal_digitChar (d : Z) :
  0 <= d <= 9 -> digitVal (util.digitChar d) = d.
Proof.
  intros Hd; unfold digitVal; rewrite N_of_digitChar by assumption; lia.
Qed.

Lemma isDigit_digitChar (d : Z) :
  0 <= d <= 9 -> isDigit (util.digitChar d) = true.
Proof.
  intros Hd; unfold isDigit; rewrite N_of_digitChar by assumption.
  apply andb_true_iff; split; apply N.leb_le; lia.
Qed.

Lemma val_bounds (s : string) :
  isDigits s = true -> 0 <= val s < 10 ^ len s.
Proof.
  induction s as [|c r IH]; cbn [val isDigits]; intros H.
  - change (len "") with 0; simpl; lia.
  - apply andb_true_iff in H as [Hc Hr].
    specialize (IH Hr). apply isDigit_range in Hc.
    rewrite len_String, Z.pow_add_r by (pose proof (len_nonneg r); lia).
    nia.
Qed.

Lemma isDigits_app (s t : string) :
  isDigits (s ++ t) = isDigits s && isDigits t.
Proof.
  induction s as [|c s IH]; simpl; [reflexivity|].
  now rewrite IH, andb_assoc.
Qed.

Lemma val_app (s t : string) :
  val (s ++ t) = val s * 10 ^ len t + val t.
Proof.
  induction s as [|c s IH]; cbn [val append]; [lia|].
  rewrite IH, len_app, Z.pow_add_r
    by (pose proof (len_nonneg s); pose proof (len_nonneg t); lia).
  ring.
Qed.

(** Equal-length digit strings: numeric order decides the comparison Go's
    [<] and [<=] perform on strings (bytewise lexicographic). *)
Lemma compare_val (s : string) :
  forall t, isDigits s = true -> isDigits t = true ->
            String.length s = String.length t ->
            String.compare s t = (val s ?= val t).
Proof.
  induction s as [|c r IH]; intros [|d u] Hs Ht Hl; simpl in Hl;
    try discriminate; [reflexivity|].
  cbn [isDigits] in Hs, Ht.
  apply andb_true_iff in Hs as [Hc Hr], Ht as [Hd Hu].
  injection Hl as Hl.
  assert (Hlen : len u = len r) by (unfold len; now rewrite Hl).
  pose proof (val_bounds _ Hr) as Br. pose proof (val_bounds _ Hu) as Bu.
  rewrite Hlen in Bu.
  pose proof (isDigit_range _ Hc) as Rc. pose proof (isDigit_range _ Hd) as Rd.
  cbn [val String.compare]. rewrite Hlen. unfold Ascii.compare.
  assert (Hcmp : (N_of_ascii c ?= N_of_ascii d)%N = (digitVal c ?= digitVal d)).
  { unfold digitVal. rewrite <- N2Z.inj_compare.
    destruct (Z.compare_spec (Z.of_N (N_of_ascii c)) (Z.of_N (N_of_ascii d)));
      symmetry; [apply Z.compare_eq_iff | apply Z.compare_lt_iff
                | apply Z.compare_gt_iff]; lia. }
  rewrite Hcmp.
  set (p := 10 ^ len r) in *.
  destruct (Z.compare_spec (digitVal c) (digitVal d)) as [E|L|G].
  - rewrite E, (IH u Hr Hu Hl).
    destruct (Z.compare_spec (val r) (val u)); symmetry;
      [apply Z.compare_eq_iff | apply Z.compare_lt_iff
      | apply Z.compare_gt_iff]; lia.
  - symmetry; apply Z.compare_lt_iff; nia.
  - symmetry; apply Z.compare_gt_iff; nia.
Qed.

End DigitStrings.

Section PaddedString.

Import util.

Lemma app_nil_r_string (d : string) : d ++ "" = d.
Proof. induction d as [|c d IH]; cbn [append]; [reflexivity | now rewrite IH]. Qed.

Lemma app_String_assoc (d : string) (c : ascii) (acc : string) :
  d ++ String c acc = (d ++ String c "") ++ acc.
Proof. induction d as [|x d IH]; cbn [append]; [reflexivity | now rewrite IH]. Qed.

(** With enough fuel, [natDigits] puts in front of [acc] a digit string that
    denotes [n] and has no leading zero unless it is the single digit of a
    number below ten. *)
Lemma natDigits_spec (fuel : nat) :
  forall n acc, 0 <= n < 10 ^ Z.of_nat (S fuel) ->
    exists d, natDigits (S fuel) n acc = d ++ acc
              /\ isDigits d = true /\ val d = n
              /\ (len d = 1 \/ 10 ^ (len d - 1) <= n).
Proof.
  induction fuel as [|f IH]; intros n acc Hn.
  - change (10 ^ Z.of_nat 1) with 10 in Hn.
    cbn [natDigits]. replace (n <? 10) with true by (symmetry; apply Z.ltb_lt; lia).
    exists (String (digitChar (n mod 10)) ""). rewrite Z.mod_small by lia.
    repeat split.
    + cbn [isDigits]. now rewrite isDigit_digitChar by lia.
    + cbn [val]. rewrite digitVal_digitChar by lia.
      change (len "") with 0. simpl. lia.
    + now left.
  - assert (Hd : 0 <= n mod 10 <= 9) by (pose proof (Z.mod_pos_bound n 10); lia).
    remember (S f) as f1. cbn [natDigits].
    destruct (n <? 10) eqn:E.
    + apply Z.ltb_lt in E.
      exists (String (digitChar (n mod 10)) ""). rewrite Z.mod_small by lia.
      repeat split.
      * cbn [isDigits]. now rewrite isDigit_digitChar by lia.
      * cbn [val]. rewrite digitVal_digitChar by lia.
        change (len "") with 0. simpl. lia.
      * now left.
    + apply Z.ltb_ge in E. subst f1.
      assert (Hq : 0 <= n / 10 < 10 ^ Z.of_nat (S f)).
      { split; [apply Z.div_pos; lia|].
        apply Z.div_lt_upper_bound; [lia|].
        replace (Z.of_nat (S (S f))) with (1 + Z.of_nat (S f)) in Hn by lia.
        rewrite Z.pow_add_r in Hn by lia. lia. }
      destruct (IH (n / 10) (String (digitChar (n mod 10)) acc) Hq)
        as (d & Hd1 & Hd2 & Hd3 & Hd4).
      exists (d ++ String (digitChar (n mod 10)) "").
      pose proof (Z.div_mod n 10) as DM.
      repeat split.
      * rewrite Hd1. apply app_String_assoc.
      * rewrite isDigits_app, Hd2. cbn [isDigits].
        now rewrite isDigit_digitChar by lia.
      * rewrite val_app, Hd3. cbn [val]. rewrite digitVal_digitChar by lia.
        change (len (String (digitChar (n mod 10)) "")) with 1.
        change (len "") with 0. simpl. lia.
      * right. rewrite len_app.
        change (len (String (digitChar (n mod 10)) "")) with 1.
        replace (len d + 1 - 1) with (len d) by lia.
        destruct Hd4 as [L|L].
        -- rewrite L. simpl. lia.
        -- pose proof (len_nonneg d).
           assert (Hpos : 1 <= len d).
           { destruct d; [|rewrite len_String; pose proof (len_nonneg d); lia].
             simpl in Hd3. lia. }
           replace (len d) with (1 + (len d - 1)) by lia.
           rewrite Z.pow_add_r by lia. lia.
Qed.

Lemma digitsFuel_enough (n : Z) :
  0 <= n -> n < 10 ^ Z.of_nat (digitsFuel n).
Proof.
  intros Hn. unfold digitsFuel.
  rewrite Nat2Z.inj_succ, Z2Nat.id by apply Z.log2_nonneg.
  destruct (Z.eq_dec n 0) as [->|Hz].
  - simpl. lia.
  - assert (H2 : n < 2 ^ Z.succ (Z.log2 n)) by (apply Z.log2_spec; lia).
    assert (H10 : 2 ^ Z.succ (Z.log2 n) <= 10 ^ Z.succ (Z.log2 n)).
    { apply Z.pow_le_mono_l. lia. }
    lia.
Qed.

(** The decimal text of a non-negative integer is a digit string denoting
    it. *)
Lemma bigString_nonneg (x : Z) :
  0 <= x -> isDigits (bigString x) = true /\ val (bigString x) = x.
Proof.
  intros Hx. unfold bigString.
  replace (x <? 0) with false by (symmetry; apply Z.ltb_ge; lia).
  destruct (natDigits_spec (Z.to_nat (Z.log2 x)) x "") as (d & H1 & H2 & H3 & _).
  { split; [assumption | apply (digitsFuel_enough x Hx)]. }
  unfold digitsFuel. rewrite H1, app_nil_r_string. now split.
Qed.

(** A non-negative integer below [10 ^ k] has at most [k] decimal digits. *)
Lemma bigString_length (x k : Z) :
  0 <= x < 10 ^ k -> 1 <= k -> len (bigString x) <= k.
Proof.
  intros Hx Hk. unfold bigString.
  replace (x <? 0) with false by (symmetry; apply Z.ltb_ge; lia).
  destruct (natDigits_spec (Z.to_nat (Z.log2 x)) x "") as (d & H1 & _ & _ & H4).
  { split; [lia | apply (digitsFuel_enough x)]. lia. }
  unfold digitsFuel. rewrite H1, app_nil_r_string.
  destruct H4 as [L|L]; [lia|].
  destruct (Z_le_gt_dec (len d) k) as [?|G]; [assumption|exfalso].
  assert (10 ^ k <= 10 ^ (len d - 1)) by (apply Z.pow_le_mono_r; lia).
  lia.
Qed.

Lemma padding_zeros (k : nat) :
  string_of_runes (map (fun _ => "0"%char) (repeat zero k)) = zeros k.
Proof.
  induction k as [|k IH]; [reflexivity|].
  unfold string_of_runes in *. cbn [repeat map string_of_list_ascii zeros].
  now rewrite IH.
Qed.

Lemma zeros_facts (k : nat) :
  isDigits (zeros k) = true /\ val (zeros k) = 0 /\ String.length (zeros k) = k.
Proof.
  induction k as [|k (I1 & I2 & I3)]; [now repeat split|].
  cbn [zeros isDigits val String.length]. rewrite I1, I2, I3.
  repeat split.
Qed.

(** What [BigIntToPaddedString] computes when the raw text fits. *)
Lemma BigIntToPaddedString_fits (x : Z) :
  len (bigString x) <= FormattedBigIntLength ->
  BigIntToPaddedString x =
    Ok (zeros (Z.to_nat (FormattedBigIntLength - len (bigString x)))
        ++ bigString x).
Proof.
  intros Hl. unfold BigIntToPaddedString, make_runes.
  replace (FormattedBigIntLength - len (bigString x) <? 0) with false
    by (symmetry; apply Z.ltb_ge; lia).
  cbn [bind]. now rewrite padding_zeros.
Qed.

Lemma BigIntToPaddedString_overflow (x : Z) :
  FormattedBigIntLength < len (bigString x) ->
  BigIntToPaddedString x = Panic "makeslice: len out of range".
Proof.
  intros Hl. unfold BigIntToPaddedString, make_runes.
  replace (FormattedBigIntLength - len (bigString x) <? 0) with true
    by (symmetry; apply Z.ltb_lt; lia).
  reflexivity.
Qed.

Lemma padded_length (x : Z) :
  len (bigString x) <= FormattedBigIntLength ->
  len (zeros (Z.to_nat (FormattedBigIntLength - len (bigString x)))
       ++ bigString x) = FormattedBigIntLength.
Proof.
  intros Hl. rewrite len_app.
  destruct (zeros_facts (Z.to_nat (FormattedBigIntLength - len (bigString x))))
    as (_ & _ & L).
  unfold len at 1. rewrite L. pose proof (len_nonneg (bigString x)). lia.
Qed.

Lemma padded_digits (x : Z) (k : nat) :
  0 <= x ->
  isDigits (zeros k ++ bigString x) = true /\ val (zeros k ++ bigString x) = x.
Proof.
  intros Hx. destruct (bigString_nonneg x Hx) as [D V].
  destruct (zeros_facts k) as (Z1 & Z2 & _).
  rewrite isDigits_app, val_app, Z1, Z2, D, V. split; [reflexivity | lia].
Qed.

End PaddedString.

Section PaddedOrder.

Import util.

(** Comparing two padded encodings as strings is comparing the numbers. *)
Lemma padded_compare (x y : Z) (kx ky : nat) :
  0 <= x -> 0 <= y ->
  String.length (zeros kx ++ bigString x)
  = String.length (zeros ky ++ bigString y) ->
  String.compare (zeros kx ++ bigString x) (zeros ky ++ bigString y)
  = (x ?= y).
Proof.
  intros Hx Hy Hl.
  destruct (padded_digits x kx Hx) as [Dx Vx].
  destruct (padded_digits y ky Hy) as [Dy Vy].
  now rewrite (compare_val _ _ Dx Dy Hl), Vx, Vy.
Qed.

(** C1. For non-negative [x <= y] of at most 80 decimal digits
    ([y < 10 ^ 80]), [BigIntToPaddedString] returns two strings of exactly 80
    characters, and the encoding of [x] is less than or equal to the encoding
    of [y] in the lexicographic order of strings. *)
Theorem padded_string_order (x y : Z) :
  0 <= x -> x <= y -> y < 10 ^ FormattedBigIntLength ->
  exists sx sy,
    BigIntToPaddedString x = Ok sx /\ BigIntToPaddedString y = Ok sy
    /\ String.leb sx sy = true
    /\ len sx = FormattedBigIntLength /\ len sy = FormattedBigIntLength.
Proof.
  intros Hx Hxy Hy.
  assert (Lx : len (bigString x) <= FormattedBigIntLength)
    by (apply bigString_length; [lia | now vm_compute]).
  assert (Ly : len (bigString y) <= FormattedBigIntLength)
    by (apply bigString_length; [lia | now vm_compute]).
  eexists; eexists.
  split; [apply (BigIntToPaddedString_fits x Lx)|].
  split; [apply (BigIntToPaddedString_fits y Ly)|].
  pose proof (padded_length x Lx) as Ex.
  pose proof (padded_length y Ly) as Ey.
  split; [|split; assumption].
  unfold String.leb. rewrite padded_compare.
  - destruct (Z.compare_spec x y); try reflexivity; lia.
  - assumption.
  - lia.
  - apply Nat2Z.inj. exact (eq_trans Ex (eq_sym Ey)).
Qed.

Lemma padded_string_order_witness :
  exists sx sy,
    BigIntToPaddedString 99 = Ok sx /\ BigIntToPaddedString 100 = Ok sy
    /\ String.leb sx sy = true
    /\ len sx = FormattedBigIntLength /\ len sy = FormattedBigIntLength.
Proof.
  apply (padded_string_order 99 100); [lia | lia | now vm_compute].
Defined.

(** C9. [BigIntToPaddedString] returns exactly when the decimal text of its
    argument (sign included) has at most 80 characters, in which case the
    result has exactly 80 characters; on a longer text the padding length is
    negative and the call panics. *)
Theorem padded_string_total_up_to_width (x : Z) :
  (len (bigString x) <= FormattedBigIntLength ->
   exists s, BigIntToPaddedString x = Ok s /\ len s = FormattedBigIntLength)
  /\ (FormattedBigIntLength < len (bigString x) ->
      FormattedBigIntLength - len (bigString x) < 0
      /\ BigIntToPaddedString x = Panic "makeslice: len out of range").
Proof.
  split.
  - intros Hl. eexists. split.
    + apply (BigIntToPaddedString_fits x Hl).
    + apply (padded_length x Hl).
  - intros Hl. split; [lia | apply (BigIntToPaddedString_overflow x Hl)].
Qed.

Lemma padded_string_total_up_to_width_witness :
  (exists s, BigIntToPaddedString 12345 = Ok s /\ len s = FormattedBigIntLength)
  /\ BigIntToPaddedString (10 ^ 80) = Panic "makeslice: len out of range"
  /\ BigIntToPaddedString (- 10 ^ 79) = Panic "makeslice: len out of range".
Proof.
  split; [|split].
  - apply (proj1 (padded_string_total_up_to_width 12345)). now vm_compute.
  - apply (proj2 (padded_string_total_up_to_width (10 ^ 80))). now vm_compute.
  - apply (proj2 (padded_string_total_up_to_width (- 10 ^ 79))). now vm_compute.
Defined.

End PaddedOrder.

(** * The query builder *)

Section Netflags.

Import dwh squirrel sqlsem.

(** Bitwise superset, stated on the bits. *)
Lemma lor_lnot_all_ones (f v : Z) :
  Z.lor f (Z.lnot v) = -1 <-> Z.land f v = v.
Proof.
  split; intros H; apply Z.bits_inj'; intros i Hi.
  - assert (B : Z.testbit (Z.lor f (Z.lnot v)) i = true)
      by (rewrite H; apply Z.bits_m1; assumption).
    rewrite Z.lor_spec, Z.lnot_spec in B by assumption.
    rewrite Z.land_spec.
    destruct (Z.testbit f i), (Z.testbit v i); simpl in *; congruence.
  - assert (B : Z.testbit (Z.land f v) i = Z.testbit v i) by now rewrite H.
    rewrite Z.land_spec in B.
    rewrite Z.lor_spec, Z.lnot_spec, Z.bits_m1 by assumption.
    destruct (Z.testbit f i), (Z.testbit v i); simpl in *; congruence.
Qed.

Lemma compare_eq_eqb (a b : Z) :
  match a ?= b with Datatypes.Eq => true | _ => false end = (a =? b).
Proof.
  destruct (Z.compare_spec a b), (Z.eqb_spec a b); try reflexivity; lia.
Qed.

Lemma eqb_iff_eqb (a b c d : Z) : (a = b <-> c = d) -> (a =? b) = (c =? d).
Proof.
  intros H. destruct (Z.eqb_spec a b) as [E|E], (Z.eqb_spec c d) as [E'|E'];
    try reflexivity; exfalso; tauto.
Qed.

(** The three fragments on a row whose [Netflags] column holds [f]. *)
Lemma evalPred_at_least (f v : Z) (row : NamedRow) :
  lookup row "Netflags" = Some (VInt f) ->
  evalPred "Netflags | ~ ? = -1" [VInt v] row = Some (Z.land f v =? v).
Proof.
  intros L. unfold evalPred.
  change (tokenize "Netflags | ~ ? = -1")
    with [TIdent "Netflags"; TOr; TNot; TParam; TCmp "="; TInt (-1)].
  cbn [splitCmp]. unfold evalSide. cbn [splitOr evalOperand evalOrs].
  rewrite L. cbn [evalOrs evalOperand compareValues].
  change (cmpHolds "=" ?c) with (match c with Datatypes.Eq => true | _ => false end).
  rewrite compare_eq_eqb. f_equal. apply eqb_iff_eqb, lor_lnot_all_ones.
Qed.

Lemma evalPred_at_most (f v : Z) (row : NamedRow) :
  lookup row "Netflags" = Some (VInt f) ->
  evalPred "? | ~Netflags = -1" [VInt v] row = Some (Z.land v f =? f).
Proof.
  intros L. unfold evalPred.
  change (tokenize "? | ~Netflags = -1")
    with [TParam; TOr; TNot; TIdent "Netflags"; TCmp "="; TInt (-1)].
  cbn [splitCmp]. unfold evalSide. cbn [splitOr evalOperand evalOrs].
  rewrite L. cbn [evalOrs evalOperand compareValues].
  change (cmpHolds "=" ?c) with (match c with Datatypes.Eq => true | _ => false end).
  rewrite compare_eq_eqb. f_equal. apply eqb_iff_eqb, lor_lnot_all_ones.
Qed.

Lemma evalPred_exact (f v : Z) (row : NamedRow) :
  lookup row "Netflags" = Some (VInt f) ->
  evalPred "Netflags = ?" [VInt v] row = Some (f =? v).
Proof.
  intros L. unfold evalPred.
  change (tokenize "Netflags = ?") with [TIdent "Netflags"; TCmp "="; TParam].
  cbn [splitCmp]. unfold evalSide. cbn [splitOr evalOperand evalOrs].
  rewrite L. cbn [evalOrs evalOperand compareValues].
  change (cmpHolds "=" ?c) with (match c with Datatypes.Eq => true | _ => false end).
  now rewrite compare_eq_eqb.
Qed.

(** C2. [newNetflagsWhere] appends exactly one predicate to the WHERE
    clause.  On a row whose stored flags are [f] and for the filter value
    [v]: with [CmpOp_GTE] the predicate is [Netflags | ~ ? = -1], which holds
    iff [f] is a bitwise superset of [v] ([f AND v = v]); with [CmpOp_LTE] it
    is [? | ~Netflags = -1], which holds iff [f] is a bitwise subset of [v]
    ([v AND f = f]); with any other operator it is [Netflags = ?], which
    holds iff [f = v]. *)
Theorem netflags_where_superset_subset
        (b : SelectBuilder) (op : pb.CmpOp) (v f : Z) (row : NamedRow) :
  lookup row "Netflags" = Some (VInt f) ->
  exists p,
    sb_WhereParts (newNetflagsWhere b op v) = (sb_WhereParts b ++ [p])%list
    /\ match op with
       | pb.CmpOp_GTE =>
           p = Expr "Netflags | ~ ? = -1" [VInt v]
           /\ (Z.lor f (Z.lnot v) = -1 <-> Z.land f v = v)
           /\ (partHolds p row = Some true <-> Z.land f v = v)
       | pb.CmpOp_LTE =>
           p = Expr "? | ~Netflags = -1" [VInt v]
           /\ (Z.lor v (Z.lnot f) = -1 <-> Z.land v f = f)
           /\ (partHolds p row = Some true <-> Z.land v f = f)
       | pb.CmpOp_EQ =>
           p = Expr "Netflags = ?" [VInt v]
           /\ (partHolds p row = Some true <-> f = v)
       end.
Proof.
  intros L. destruct op; eexists; (split; [reflexivity|]).
  - split; [reflexivity|]. cbn [partHolds].
    rewrite (evalPred_exact f v row L). split.
    + intros H. injection H as H. now apply Z.eqb_eq.
    + intros H. f_equal. now apply Z.eqb_eq.
  - split; [reflexivity|]. split; [apply lor_lnot_all_ones|].
    cbn [partHolds]. rewrite (evalPred_at_least f v row L). split.
    + intros H. injection H as H. now apply Z.eqb_eq.
    + intros H. f_equal. now apply Z.eqb_eq.
  - split; [reflexivity|]. split; [apply lor_lnot_all_ones|].
    cbn [partHolds]. rewrite (evalPred_at_most f v row L). split.
    + intros H. injection H as H. now apply Z.eqb_eq.
    + intros H. f_equal. now apply Z.eqb_eq.
Qed.

Lemma netflags_where_superset_subset_witness :
  exists p,
    sb_WhereParts (newNetflagsWhere (Select Dollar ["*"]) pb.CmpOp_GTE 5)
    = (sb_WhereParts (Select Dollar ["*"]) ++ [p])%list
    /\ p = Expr "Netflags | ~ ? = -1" [VInt 5]
    /\ (Z.lor 7 (Z.lnot 5) = -1 <-> Z.land 7 5 = 5)
    /\ (partHolds p [("Netflags", VInt 7)] = Some true <-> Z.land 7 5 = 5).
Proof.
  apply (netflags_where_superset_subset (Select Dollar ["*"]) pb.CmpOp_GTE 5 7
           [("Netflags", VInt 7)]).
  reflexivity.
Defined.

End Netflags.

(** ** How the builder steps act on the WHERE parts and the ORDER BY list *)

Section BuilderSteps.

Import dwh squirrel.

Lemma parts_Where (b : SelectBuilder) (sql : string) (args : list Value) :
  sb_WhereParts (Where b sql args) = (sb_WhereParts b ++ [Expr sql args])%list.
Proof. reflexivity. Qed.

Lemma parts_WherePart (b : SelectBuilder) (p : Sqlizer) :
  sb_WhereParts (WherePart b p) = (sb_WhereParts b ++ [p])%list.
Proof. reflexivity. Qed.

Lemma parts_newNetflagsWhere (b : SelectBuilder) (op : pb.CmpOp) (v : Z) :
  exists p, sb_WhereParts (newNetflagsWhere b op v) = (sb_WhereParts b ++ [p])%list.
Proof. destruct op; eexists; reflexivity. Qed.

Lemma parts_builderWithSortings (b : SelectBuilder) (l : list pb.SortingOption) :
  sb_WhereParts (builderWithSortings b l) = sb_WhereParts b.
Proof. reflexivity. Qed.

Lemma parts_builderWithOffsetLimit (b : SelectBuilder) (limit offset : Z) :
  sb_WhereParts (builderWithOffsetLimit b limit offset) = sb_WhereParts b.
Proof.
  unfold builderWithOffsetLimit.
  destruct (limit >? 0), (offset >? 0); reflexivity.
Qed.

Lemma orderBys_builderWithOffsetLimit (b : SelectBuilder) (limit offset : Z) :
  sb_OrderBys (builderWithOffsetLimit b limit offset) = sb_OrderBys b.
Proof.
  unfold builderWithOffsetLimit.
  destruct (limit >? 0), (offset >? 0); reflexivity.
Qed.

Lemma firstPart_app (b b' : SelectBuilder) (p : Sqlizer) (l : list Sqlizer) :
  sb_WhereParts b' = (sb_WhereParts b ++ l)%list ->
  firstPart b = Some p -> firstPart b' = Some p.
Proof.
  unfold firstPart. intros -> H.
  destruct (sb_WhereParts b); [discriminate | exact H].
Qed.

Lemma firstPart_Where (b : SelectBuilder) (p : Sqlizer) sql args :
  firstPart b = Some p -> firstPart (Where b sql args) = Some p.
Proof. apply (firstPart_app b _ p [Expr sql args]). reflexivity. Qed.

Lemma firstPart_newNetflagsWhere (b : SelectBuilder) (p : Sqlizer) op v :
  firstPart b = Some p -> firstPart (newNetflagsWhere b op v) = Some p.
Proof.
  destruct (parts_newNetflagsWhere b op v) as [q Hq].
  apply (firstPart_app b _ p [q]). exact Hq.
Qed.

Lemma firstPart_builderWithSortings (b : SelectBuilder) (p : Sqlizer) l :
  firstPart b = Some p -> firstPart (builderWithSortings b l) = Some p.
Proof. intros H. exact H. Qed.

Lemma firstPart_addBenchmarks (benches : list (Z * pb.MaxMinUint64)) :
  forall (b : SelectBuilder) (p : Sqlizer),
    firstPart b = Some p ->
    firstPart (addBenchmarksConditionsWhere b benches) = Some p.
Proof.
  unfold addBenchmarksConditionsWhere.
  induction benches as [|[benchID condition] rest IH]; intros b p H;
    [exact H|].
  cbn [fold_left]. apply IH.
  destruct (pb.Max64 condition >? 0), (pb.Min64 condition >? 0);
    repeat apply firstPart_Where; exact H.
Qed.

Lemma builds_Ok (P : SelectBuilder -> Prop) (b : SelectBuilder) :
  P b -> builds P (Ok b).
Proof. intros H. exact H. Qed.

Lemma builds_bind (P Q : SelectBuilder -> Prop) (m : Res SelectBuilder)
      (f : SelectBuilder -> Res SelectBuilder) :
  builds P m -> (forall b, P b -> builds Q (f b)) -> builds Q (bind m f).
Proof. destruct m; simpl; intros H K; [now apply K | contradiction | exact I]. Qed.

Lemma builds_padded (Q : SelectBuilder -> Prop) (x : Z)
      (f : string -> Res SelectBuilder) :
  (forall s, builds Q (f s)) -> builds Q (bind (pb.BigInt_PaddedString x) f).
Proof.
  intros K. unfold pb.BigInt_PaddedString, util.BigIntToPaddedString, util.make_runes.
  destruct (_ <? 0); simpl; [exact I | apply K].
Qed.

End BuilderSteps.

Section LogLemmas.

Lemma bindM_lift_Ok {A B : Type} (a : A) (f : A -> M B) (conn : queryConn) :
  bindM (lift (Ok a)) f conn = f a conn.
Proof. unfold bindM, lift. now destruct (f a conn). Qed.

Lemma bindM_lift_Panic {A B : Type} (p : string) (f : A -> M B) (conn : queryConn) :
  bindM (lift (Panic p)) f conn = ([], Panic p).
Proof. reflexivity. Qed.

Lemma bindM_log_prefix {A B : Type} (m : M A) (f : A -> M B) (conn : queryConn) :
  exists rest, fst (bindM m f conn) = (fst (m conn) ++ rest)%list.
Proof.
  unfold bindM. destruct (m conn) as [log [a|e|p]]; cbn [fst].
  - destruct (f a conn) as [log' r]. now exists log'.
  - exists []. now rewrite app_nil_r.
  - exists []. now rewrite app_nil_r.
Qed.

Lemma wrapM_log {A : Type} (msg : string) (m : M A) (conn : queryConn) :
  fst (dwh.wrapM msg m conn) = fst (m conn).
Proof. unfold dwh.wrapM. now destruct (m conn). Qed.

End LogLemmas.

Section GetOrdersActive.

Import dwh squirrel sqlsem.

(** Peel one [let builder := step in rest]: prove the invariant for [step],
    then continue with an arbitrary builder that satisfies it. *)
Ltac keep_first :=
  repeat first
    [ assumption
    | reflexivity
    | apply firstPart_Where
    | apply firstPart_newNetflagsWhere
    | apply firstPart_addBenchmarks
    | apply firstPart_builderWithSortings
    | match goal with
      | |- context [if ?c then _ else _] => destruct c
      | |- context [match ?o with Some _ => _ | None => _ end] => destruct o
      end ].

Ltac peel_let :=
  lazymatch goal with
  | |- builds ?P (let x := ?A in @?B x) =>
      let H := fresh "H" in
      let b := fresh "builder" in
      assert (H : firstPart A = Some activePart) by keep_first;
      change (builds P (B A)); revert H; generalize A;
      clear; intros b H; cbv beta
  end.

Ltac inline_let :=
  lazymatch goal with
  | |- builds ?P (let x := ?A in @?B x) => change (builds P (B A)); cbv beta
  end.

Lemma ordersBuilder_first (c : sqlStorage) (r : pb.OrdersRequest) :
  builds (fun b => firstPart b = Some activePart) (ordersBuilder c r).
Proof.
  cbv beta delta [ordersBuilder].
  inline_let. do 6 peel_let.
  eapply builds_bind with (P := fun b => firstPart b = Some activePart).
  - destruct (pb.r_Price r) as [p|]; [|assumption].
    eapply builds_bind with (P := fun b => firstPart b = Some activePart).
    + destruct (pb.MaxBig p) as [mx|]; [|assumption].
      apply builds_padded. intros s. simpl. keep_first.
    + intros b Hb. destruct (pb.MinBig p) as [mn|]; [|exact Hb].
      apply builds_padded. intros s. simpl. keep_first.
  - clear. intros builder Hb.
    do 4 peel_let.
    apply builds_Ok. keep_first.
Qed.

(** The fragment [Status = ?] holds only on rows whose status is the
    argument. *)
Lemma evalPred_status (st : Z) (row : NamedRow) :
  evalPred "Status = ?" [VInt st] row = Some true ->
  lookup row "Status" = Some (VInt st).
Proof.
  unfold evalPred.
  change (tokenize "Status = ?") with [TIdent "Status"; TCmp "="; TParam].
  cbn [splitCmp]. unfold evalSide. cbn [splitOr evalOperand evalOrs].
  destruct (lookup row "Status") as [v|]; [|discriminate].
  cbn [evalOrs evalOperand].
  destruct v as [x| | | | |]; cbn [compareValues]; try discriminate.
  change (cmpHolds "=" ?c) with (match c with Datatypes.Eq => true | _ => false end).
  rewrite compare_eq_eqb. intros H. injection H as H.
  apply Z.eqb_eq in H. now subst.
Qed.

Lemma selects_first (b : SelectBuilder) (p : Sqlizer) (row : NamedRow) :
  firstPart b = Some p -> selects b row = true -> partHolds p row = Some true.
Proof.
  unfold firstPart, selects. destruct (sb_WhereParts b) as [|q rest];
    [discriminate|].
  intros H. injection H as ->. cbn [forallb]. intros S.
  apply andb_true_iff in S as [S _].
  destruct (partHolds p row) as [[|]|]; [reflexivity | discriminate..].
Qed.

(** The first statement [runQuery] sends is the data query. *)
Lemma runQuery_first_event columns withCount query args (conn : queryConn) :
  exists rest,
    fst (runQuery columns withCount query args conn)
    = EvQuery (strings.Replace1 query "*" columns) args :: rest.
Proof.
  unfold runQuery, tryM, Query.
  destruct (conn_Query conn (strings.Replace1 query "*" columns) args);
    [destruct withCount|..]; cbn;
    repeat match goal with
           | |- context [conn_Query ?c ?q ?a] => destruct (conn_Query c q a); cbn
           end; eexists; reflexivity.
Qed.

(** C8. Whatever the request, the statement [GetOrders] builds has
    [Status = ?] with argument [ORDER_ACTIVE] as its first WHERE part, every
    row the statement selects is an active order, also after offset and limit
    are applied, and this statement is the data query [GetOrders] sends.
    The only other outcome of the construction is a panic of
    [PaddedString], in which case nothing is sent. *)
Theorem getorders_status_always_active (c : sqlStorage) (r : pb.OrdersRequest) :
  match ordersBuilder c r with
  | Ok b =>
      (exists rest, sb_WhereParts b = activePart :: rest)
      /\ (forall row,
             selects (builderWithOffsetLimit b (pb.r_Limit r) (pb.r_Offset r)) row
             = true ->
             lookup row "Status" = Some (VInt pb.OrderStatus_ORDER_ACTIVE))
      /\ (forall conn, exists rest,
             fst (GetOrders c r conn)
             = EvQuery
                 (strings.Replace1
                    (fst (ToSql (builderWithOffsetLimit b (pb.r_Limit r) (pb.r_Offset r))))
                    "*" (strings.Join (OrderColumns (tablesInfo_ c)) ", "))
                 (snd (ToSql (builderWithOffsetLimit b (pb.r_Limit r) (pb.r_Offset r))))
               :: rest)
  | Panic _ => forall conn, fst (GetOrders c r conn) = []
  | Err _ => False
  end.
Proof.
  pose proof (ordersBuilder_first c r) as F.
  unfold GetOrders.
  destruct (ordersBuilder c r) as [b|e|p]; cbn [builds] in F;
    [|contradiction|reflexivity].
  repeat split.
  - unfold firstPart in F. destruct (sb_WhereParts b) as [|q rest];
      [discriminate|]. injection F as ->. now exists rest.
  - intros row S.
    apply evalPred_status.
    apply (selects_first
             (builderWithOffsetLimit b (pb.r_Limit r) (pb.r_Offset r))
             activePart row); [|exact S].
    unfold firstPart. now rewrite parts_builderWithOffsetLimit.
  - intros conn. rewrite bindM_lift_Ok.
    destruct (ToSql (builderWithOffsetLimit b (pb.r_Limit r) (pb.r_Offset r)))
      as [query args]. cbn [fst snd].
    match goal with
    | |- exists _, fst (bindM ?m ?f conn) = _ =>
        destruct (bindM_log_prefix m f conn) as [rest1 E1]; rewrite E1
    end.
    rewrite wrapM_log.
    destruct (runQuery_first_event
                (strings.Join (OrderColumns (tablesInfo_ c)) ", ")
                (pb.r_WithCount r) query args conn) as [rest E].
    rewrite E. eexists. reflexivity.
Qed.

Lemma getorders_status_always_active_witness :
  lookup sample.askForCarol "Status" = Some (VInt pb.OrderStatus_ORDER_ACTIVE).
Proof.
  apply (proj1 (proj2
    (getorders_status_always_active
       sample.storage
       (pb.mkOrdersRequest None 0 None None None None None 0 None None [] 10 0
                           false))) sample.askForCarol).
  now vm_compute.
Defined.

End GetOrdersActive.

(** * The matching engine *)

Section Matching.

Import dwh squirrel sqlsem.

Lemma bench_loop (op : string) (l : list (nat * Z)) :
  forall b : SelectBuilder,
  exists extra,
    sb_WhereParts
      (fold_left
         (fun builder '(benchID, benchValue) =>
            Where builder
                  (getBenchmarkColumn (Z.of_nat benchID) ++ " " ++ op ++ " ?")
                  [VInt benchValue]) l b)
    = (sb_WhereParts b ++ extra)%list
    /\ Forall (benchPart op) extra
    /\ sb_OrderBys
         (fold_left
            (fun builder '(benchID, benchValue) =>
               Where builder
                     (getBenchmarkColumn (Z.of_nat benchID) ++ " " ++ op ++ " ?")
                     [VInt benchValue]) l b)
       = sb_OrderBys b.
Proof.
  induction l as [|[benchID benchValue] rest IH]; intros b; cbn [fold_left].
  - exists []. rewrite app_nil_r. repeat split. constructor.
  - destruct (IH (Where b (getBenchmarkColumn (Z.of_nat benchID) ++ " " ++ op ++ " ?")
                        [VInt benchValue])) as (extra & E1 & E2 & E3).
    exists (Expr (getBenchmarkColumn (Z.of_nat benchID) ++ " " ++ op ++ " ?")
                 [VInt benchValue] :: extra).
    rewrite E1, E3, parts_Where, <- app_assoc. repeat split.
    constructor; [|exact E2]. now exists (Z.of_nat benchID), benchValue.
Qed.

(** The statement built for a reference order, part by part. *)
Lemma matchingBuilder_shape (c : sqlStorage) (order : pb.DWHOrder) (price : string) :
  util.BigIntToPaddedString (pb.Price (pb.Order_ order)) = Ok price ->
  let o := pb.Order_ order in
  let bid := pb.OrderType_ o =? pb.OrderType_BID in
  exists b flags extra,
    matchingBuilder c order = Ok b
    /\ sb_WhereParts b
       = ([Expr "Type = ?"
                [VInt (if bid then pb.OrderType_ASK else pb.OrderType_BID)];
           activePart;
           Expr (if bid then "Price <= ?" else "Price >= ?") [VStr price];
           Expr (if pb.Duration o >? 0
                 then (if bid then "Duration >= ?" else "Duration <= ?")
                 else "Duration = ?") [VInt (pb.Duration o)]]
          ++ (if pb.EthAddress_IsZero (pb.CounterpartyID o) then []
              else [authorPart o])
          ++ [counterpartyPart o; flags;
              Expr "IdentityLevel >= ?" [VInt (pb.IdentityLevel o)];
              Expr "CreatorIdentityLevel <= ?" [VInt (pb.CreatorIdentityLevel order)]]
          ++ extra)%list
    /\ flags = Expr (if bid then "Netflags | ~ ? = -1" else "? | ~Netflags = -1")
                    [VInt (pb.Netflags o)]
    /\ Forall (benchPart (if bid then gte else lte)) extra
    /\ sb_OrderBys b = [if bid then "Price Asc" else "Price Desc"].
Proof.
  intros Hp o bid. subst o bid.
  unfold matchingBuilder, pb.BigInt_PaddedString.
  rewrite Hp. cbn [bind].
  set (o := pb.Order_ order) in *.
  destruct (pb.OrderType_ o =? pb.OrderType_BID);
    [ match goal with
      | |- context [fold_left ?f ?l ?b0] =>
          destruct (bench_loop gte l b0) as (extra & E1 & E2 & E3)
      end
    | match goal with
      | |- context [fold_left ?f ?l ?b0] =>
          destruct (bench_loop lte l b0) as (extra & E1 & E2 & E3)
      end ];
    eexists; eexists; exists extra;
    (split; [reflexivity|]);
    rewrite parts_builderWithSortings;
    unfold builderWithSortings; cbn [sb_OrderBys OrderBy map];
    rewrite E1, E3;
    destruct (pb.Duration o >? 0), (pb.EthAddress_IsZero (pb.CounterpartyID o));
    cbn; repeat split; assumption.
Qed.

Lemma selects_In (b : SelectBuilder) (p : Sqlizer) (row : NamedRow) :
  In p (sb_WhereParts b) -> selects b row = true -> partHolds p row = Some true.
Proof.
  unfold selects. intros I S.
  rewrite forallb_forall in S. specialize (S p I).
  destruct (partHolds p row) as [[|]|]; [reflexivity | discriminate..].
Qed.

Lemma evalPred_type (t : Z) (row : NamedRow) :
  evalPred "Type = ?" [VInt t] row = Some true ->
  lookup row "Type" = Some (VInt t).
Proof.
  unfold evalPred.
  change (tokenize "Type = ?") with [TIdent "Type"; TCmp "="; TParam].
  cbn [splitCmp]. unfold evalSide. cbn [splitOr evalOperand evalOrs].
  destruct (lookup row "Type") as [v|]; [|discriminate].
  cbn [evalOrs evalOperand].
  destruct v as [x| | | | |]; cbn [compareValues]; try discriminate.
  change (cmpHolds "=" ?c) with (match c with Datatypes.Eq => true | _ => false end).
  rewrite compare_eq_eqb. intros H. injection H as H.
  apply Z.eqb_eq in H. now subst.
Qed.

Lemma evalPred_price_le (s : string) (row : NamedRow) :
  evalPred "Price <= ?" [VStr s] row = Some true ->
  exists p, lookup row "Price" = Some (VStr p) /\ String.leb p s = true.
Proof.
  unfold evalPred.
  change (tokenize "Price <= ?") with [TIdent "Price"; TCmp "<="; TParam].
  cbn [splitCmp]. unfold evalSide. cbn [splitOr evalOperand evalOrs].
  destruct (lookup row "Price") as [v|]; [|discriminate].
  cbn [evalOrs evalOperand].
  destruct v as [|p| | | |]; cbn [compareValues]; try discriminate.
  change (cmpHolds "<=" ?c) with (match c with Gt => false | _ => true end).
  intros H. injection H as H. exists p. split; [reflexivity | exact H].
Qed.

Lemma evalPred_price_ge (s : string) (row : NamedRow) :
  evalPred "Price >= ?" [VStr s] row = Some true ->
  exists p, lookup row "Price" = Some (VStr p) /\ String.leb s p = true.
Proof.
  unfold evalPred.
  change (tokenize "Price >= ?") with [TIdent "Price"; TCmp ">="; TParam].
  cbn [splitCmp]. unfold evalSide. cbn [splitOr evalOperand evalOrs].
  destruct (lookup row "Price") as [v|]; [|discriminate].
  cbn [evalOrs evalOperand].
  destruct v as [|p| | | |]; cbn [compareValues]; try discriminate.
  change (cmpHolds ">=" ?c) with (match c with Lt => false | _ => true end).
  intros H. injection H as H. exists p. split; [reflexivity|].
  unfold String.leb. rewrite String.compare_antisym.
  destruct (String.compare p s); simpl in *; congruence.
Qed.

(** Once the reference order is found, the statement built for it, with
    offset and limit applied and the column list in place of the star, is
    the next statement [GetMatchingOrders] sends. *)
Lemma GetMatchingOrders_sends (c : sqlStorage) (r : pb.MatchingOrdersRequest)
      (conn : queryConn) (log0 : list Event) (order : pb.DWHOrder)
      (b : SelectBuilder) :
  GetOrderByID c (pb.m_Id r) conn = (log0, Ok order) ->
  matchingBuilder c order = Ok b ->
  exists rest,
    fst (GetMatchingOrders c r conn)
    = (log0
       ++ EvQuery
            (strings.Replace1
               (fst (ToSql (builderWithOffsetLimit b (pb.m_Limit r) (pb.m_Offset r))))
               "*" (strings.Join (OrderColumns (tablesInfo_ c)) ", "))
            (snd (ToSql (builderWithOffsetLimit b (pb.m_Limit r) (pb.m_Offset r))))
       :: rest)%list.
Proof.
  intros HO HB. unfold GetMatchingOrders.
  unfold bindM at 1. unfold wrapM at 1. rewrite HO. cbn [Wrap].
  rewrite HB, bindM_lift_Ok.
  destruct (ToSql (builderWithOffsetLimit b (pb.m_Limit r) (pb.m_Offset r)))
    as [query args]. cbn [fst snd].
  match goal with
  | |- context [bindM ?m ?f conn] =>
      destruct (bindM_log_prefix m f conn) as [rest1 E1];
      destruct (bindM m f conn) as [log' res]
  end.
  cbn [fst] in *. rewrite E1, wrapM_log.
  destruct (runQuery_first_event
              (strings.Join (OrderColumns (tablesInfo_ c)) ", ")
              (pb.m_WithCount r) query args conn) as [rest E].
  rewrite E. exists (rest ++ rest1)%list. reflexivity.
Qed.

(** When the price of the reference order does not fit the padded width,
    [GetMatchingOrders] panics after the lookup and sends nothing more. *)
Lemma GetMatchingOrders_panics (c : sqlStorage) (r : pb.MatchingOrdersRequest)
      (conn : queryConn) (log0 : list Event) (order : pb.DWHOrder) (p : string) :
  GetOrderByID c (pb.m_Id r) conn = (log0, Ok order) ->
  matchingBuilder c order = Panic p ->
  GetMatchingOrders c r conn = (log0, Panic p).
Proof.
  intros HO HB. unfold GetMatchingOrders.
  unfold bindM at 1. unfold wrapM at 1. rewrite HO. cbn [Wrap].
  rewrite HB, bindM_lift_Panic. now rewrite app_nil_r.
Qed.

Lemma matchingBuilder_overflow (c : sqlStorage) (order : pb.DWHOrder) :
  util.FormattedBigIntLength < len (util.bigString (pb.Price (pb.Order_ order))) ->
  matchingBuilder c order = Panic "makeslice: len out of range".
Proof.
  intros H. unfold matchingBuilder, pb.BigInt_PaddedString.
  rewrite (BigIntToPaddedString_overflow _ H).
  destruct (pb.OrderType_ (pb.Order_ order) =? pb.OrderType_BID); reflexivity.
Qed.

Lemma selects_builderWithOffsetLimit (b : SelectBuilder) (limit offset : Z)
      (row : NamedRow) :
  selects (builderWithOffsetLimit b limit offset) row = selects b row.
Proof. unfold selects. now rewrite parts_builderWithOffsetLimit. Qed.

(** C3. For every reference order, the statement [GetMatchingOrders] builds
    has the predicates [Type = ?] on the opposite type and [Status = ?] on
    [ORDER_ACTIVE]; for a bid the price predicate is [Price <= ?] and the
    only sort key is [Price Asc]; for an ask the price predicate is
    [Price >= ?] and the only sort key is [Price Desc]; the argument of the
    price predicate is the padded price of the reference order.  The rows
    the statement selects satisfy these predicates, offset and limit leave
    predicates and sort keys untouched, and once the reference order has
    been looked up this statement is the one [GetMatchingOrders] sends.  The
    only other outcome of the construction is the panic of [PaddedString] on
    a price wider than the padding, after which nothing is sent. *)
Theorem matching_orders_opposite_type_best_price
        (c : sqlStorage) (order : pb.DWHOrder) :
  let o := pb.Order_ order in
  match matchingBuilder c order with
  | Ok b =>
      exists price,
        util.BigIntToPaddedString (pb.Price o) = Ok price
        /\ In activePart (sb_WhereParts b)
        /\ (pb.OrderType_ o = pb.OrderType_BID \/ pb.OrderType_ o = pb.OrderType_ASK ->
            In (Expr "Type = ?" [VInt (node.invertOrderType (pb.OrderType_ o))])
               (sb_WhereParts b))
        /\ (pb.OrderType_ o = pb.OrderType_BID ->
            In (Expr "Price <= ?" [VStr price]) (sb_WhereParts b)
            /\ sb_OrderBys b = ["Price Asc"])
        /\ (pb.OrderType_ o = pb.OrderType_ASK ->
            In (Expr "Price >= ?" [VStr price]) (sb_WhereParts b)
            /\ sb_OrderBys b = ["Price Desc"])
        /\ (forall limit offset,
              sb_WhereParts (builderWithOffsetLimit b limit offset) = sb_WhereParts b
              /\ sb_OrderBys (builderWithOffsetLimit b limit offset) = sb_OrderBys b)
        /\ (forall row, selects b row = true ->
              lookup row "Status" = Some (VInt pb.OrderStatus_ORDER_ACTIVE)
              /\ (pb.OrderType_ o = pb.OrderType_BID ->
                  lookup row "Type" = Some (VInt pb.OrderType_ASK)
                  /\ exists p, lookup row "Price" = Some (VStr p)
                               /\ String.leb p price = true)
              /\ (pb.OrderType_ o = pb.OrderType_ASK ->
                  lookup row "Type" = Some (VInt pb.OrderType_BID)
                  /\ exists p, lookup row "Price" = Some (VStr p)
                               /\ String.leb price p = true))
        /\ (forall r conn log0,
              GetOrderByID c (pb.m_Id r) conn = (log0, Ok order) ->
              exists rest,
                fst (GetMatchingOrders c r conn)
                = (log0
                   ++ EvQuery
                        (strings.Replace1
                           (fst (ToSql (builderWithOffsetLimit
                                          b (pb.m_Limit r) (pb.m_Offset r))))
                           "*" (strings.Join (OrderColumns (tablesInfo_ c)) ", "))
                        (snd (ToSql (builderWithOffsetLimit
                                       b (pb.m_Limit r) (pb.m_Offset r))))
                   :: rest)%list)
  | Panic p =>
      util.FormattedBigIntLength < len (util.bigString (pb.Price o))
      /\ (forall r conn log0,
            GetOrderByID c (pb.m_Id r) conn = (log0, Ok order) ->
            GetMatchingOrders c r conn = (log0, Panic p))
  | Err _ => False
  end.
Proof.
  intros o.
  destruct (Z_le_gt_dec (len (util.bigString (pb.Price o)))
                        util.FormattedBigIntLength) as [Hl|Hl].
  2:{ assert (HP : matchingBuilder c order = Panic "makeslice: len out of range")
        by (apply matchingBuilder_overflow; fold o; lia).
      rewrite HP. split; [lia|].
      intros r conn log0 HO.
      exact (GetMatchingOrders_panics c r conn log0 order _ HO HP). }
  pose proof (BigIntToPaddedString_fits _ Hl) as Hp.
  match type of Hp with _ = Ok ?s => set (price := s) in * end.
  destruct (matchingBuilder_shape c order price Hp)
    as (b & flags & extra & Hb & Hparts & _ & _ & Hsort).
  fold o in Hparts, Hsort.
  rewrite Hb. exists price. split; [exact Hp|].
  assert (Iact : In activePart (sb_WhereParts b))
    by (rewrite Hparts; cbn; tauto).
  assert (Ibid : pb.OrderType_ o = pb.OrderType_BID ->
                 In (Expr "Type = ?" [VInt pb.OrderType_ASK]) (sb_WhereParts b)
                 /\ In (Expr "Price <= ?" [VStr price]) (sb_WhereParts b)
                 /\ sb_OrderBys b = ["Price Asc"]).
  { intros E. rewrite Hparts, Hsort, E. cbn. tauto. }
  assert (Iask : pb.OrderType_ o = pb.OrderType_ASK ->
                 In (Expr "Type = ?" [VInt pb.OrderType_BID]) (sb_WhereParts b)
                 /\ In (Expr "Price >= ?" [VStr price]) (sb_WhereParts b)
                 /\ sb_OrderBys b = ["Price Desc"]).
  { intros E. rewrite Hparts, Hsort, E. cbn. tauto. }
  split; [exact Iact|].
  split; [intros [E|E]; rewrite E; [apply (Ibid E) | apply (Iask E)]|].
  split; [intros E; split; apply (Ibid E)|].
  split; [intros E; split; apply (Iask E)|].
  split.
  { intros limit offset. split;
      [apply parts_builderWithOffsetLimit | apply orderBys_builderWithOffsetLimit]. }
  split.
  { intros row S. split; [|split].
    - apply evalPred_status. exact (selects_In b _ row Iact S).
    - intros E. destruct (Ibid E) as (I1 & I2 & _). split.
      + apply evalPred_type. exact (selects_In b _ row I1 S).
      + apply evalPred_price_le. exact (selects_In b _ row I2 S).
    - intros E. destruct (Iask E) as (I1 & I2 & _). split.
      + apply evalPred_type. exact (selects_In b _ row I1 S).
      + apply evalPred_price_ge. exact (selects_In b _ row I2 S). }
  intros r conn log0 HO.
  exact (GetMatchingOrders_sends c r conn log0 order b HO Hb).
Qed.

Lemma matching_orders_opposite_type_best_price_witness :
  exists b price,
    matchingBuilder sample.storage sample.openBid = Ok b
    /\ util.BigIntToPaddedString 100 = Ok price
    /\ In (Expr "Type = ?" [VInt pb.OrderType_ASK]) (sb_WhereParts b)
    /\ In (Expr "Price <= ?" [VStr price]) (sb_WhereParts b)
    /\ sb_OrderBys b = ["Price Asc"].
Proof.
  generalize (matching_orders_opposite_type_best_price sample.storage
                                                       sample.openBid).
  cbv zeta.
  destruct (matchingBuilder sample.storage sample.openBid) as [b|e|p] eqn:E.
  - intros (price & Hp & _ & Ht & Hbid & _).
    exists b, price. split; [reflexivity|]. split; [exact Hp|].
    split; [exact (Ht (or_introl eq_refl))|]. exact (Hbid eq_refl).
  - intros [].
  - vm_compute in E. discriminate E.
Defined.

(** ** The counterparty restriction *)

Lemma evalPred_author (a : string) (row : NamedRow) :
  evalPred "AuthorID = ?" [VStr a] row = Some true ->
  lookup row "AuthorID" = Some (VStr a).
Proof.
  unfold evalPred.
  change (tokenize "AuthorID = ?") with [TIdent "AuthorID"; TCmp "="; TParam].
  cbn [splitCmp]. unfold evalSide. cbn [splitOr evalOperand evalOrs].
  destruct (lookup row "AuthorID") as [v|]; [|discriminate].
  cbn [evalOrs evalOperand].
  destruct v as [|p| | | |]; cbn [compareValues]; try discriminate.
  change (cmpHolds "=" ?c) with (match c with Datatypes.Eq => true | _ => false end).
  destruct (String.compare p a) eqn:E; try discriminate.
  apply String.compare_eq_iff in E. now subst.
Qed.

Lemma counterpartyPart_holds (o : pb.Order) (row : NamedRow) :
  partHolds (counterpartyPart o) row = Some true ->
  lookup row "CounterpartyID" = Some (VStr pb.zeroAddress)
  \/ lookup row "CounterpartyID" = Some (VStr (pb.EthAddress_Hex (pb.AuthorID o))).
Proof.
  unfold counterpartyPart. cbn [partHolds].
  destruct (lookup row "CounterpartyID") as [v|]; [|discriminate].
  cbn [existsb]. rewrite orb_false_r. intros H. injection H as H.
  apply orb_true_iff in H as [H|H];
    destruct v; cbn [valueEqb] in H; try discriminate;
    apply String.eqb_eq in H; subst; [left | right]; reflexivity.
Qed.

Lemma authorPart_not_bench (o : pb.Order) (op : string) (extra : list Sqlizer) :
  Forall (benchPart op) extra -> ~ In (authorPart o) extra.
Proof.
  intros F I. rewrite Forall_forall in F.
  destruct (F _ I) as (id & v & E).
  unfold authorPart, getBenchmarkColumn in E. cbn in E. discriminate E.
Qed.

(** C4, as worded, at the targeted bid of the sample data: the statement
    carries the author restriction and the counterparty restriction
    together, so the rule as the specification words it does not hold; an
    ask of the named counterparty that is reserved for someone else passes
    every other predicate and is not selected.  On a store that holds the
    targeted bid, this statement is what [GetMatchingOrders] sends after the
    lookup. *)
Lemma counterparty_rule_as_worded_fails :
  ~ spec_counterparty_rule sample.storage sample.targetedBid
  /\ exists b,
       matchingBuilder sample.storage sample.targetedBid = Ok b
       /\ lookup sample.askForCarol "AuthorID" = Some (VStr sample.bob)
       /\ map (fun p => partHolds p sample.askForCarol) (sb_WhereParts b)
          = [Some true; Some true; Some true; Some true; Some true;
             Some false; Some true; Some true; Some true; Some true; Some true]
       /\ nth_error (sb_WhereParts b) 5
          = Some (counterpartyPart (pb.Order_ sample.targetedBid))
       /\ selects b sample.askForCarol = false
       /\ exists log0,
            GetOrderByID sample.storage 7
                         (sample_matching.connWith sample.targetedBid)
            = (log0, Ok sample.targetedBid)
            /\ fst (GetMatchingOrders sample.storage (sample_matching.request 7)
                                      (sample_matching.connWith sample.targetedBid))
               = (log0
                  ++ [EvQuery
                        (strings.Replace1
                           (fst (ToSql b)) "*"
                           (strings.Join (OrderColumns (tablesInfo_ sample.storage))
                                         ", "))
                        (snd (ToSql b))])%list
            /\ strings.Contains
                 (fst (ToSql b))
                 "AuthorID = $5 AND CounterpartyID IN ($6,$7)" = true.
Proof.
  split.
  - intros H.
    destruct (H _ eq_refl) as [_ [H2 _]].
    assert (E : pb.EthAddress_IsZero
                  (pb.CounterpartyID (pb.Order_ sample.targetedBid)) = true).
    { apply H2. vm_compute. tauto. }
    vm_compute in E. discriminate E.
  - eexists. split; [reflexivity|].
    do 4 (split; [now vm_compute|]).
    eexists. split; [now vm_compute|]. split; now vm_compute.
Qed.

(** C4, as amended. For every reference order, the statement
    [GetMatchingOrders] builds restricts the result to orders authored by
    the counterparty the reference order names exactly when it names one,
    and in every case, whether or not a counterparty is named, to orders
    whose own counterparty field is the zero address or the author of the
    reference order; once the reference order has been looked up, this
    statement is the one [GetMatchingOrders] sends.  The only other outcome
    of the construction is the panic of [PaddedString] on a price wider than
    the padding, after which nothing is sent. *)
Theorem matching_orders_counterparty_always_checked
        (c : sqlStorage) (order : pb.DWHOrder) :
  let o := pb.Order_ order in
  match matchingBuilder c order with
  | Ok b =>
      In (counterpartyPart o) (sb_WhereParts b)
      /\ (In (authorPart o) (sb_WhereParts b)
          <-> pb.EthAddress_IsZero (pb.CounterpartyID o) = false)
      /\ (forall limit offset row,
            selects (builderWithOffsetLimit b limit offset) row = true ->
            (lookup row "CounterpartyID" = Some (VStr pb.zeroAddress)
             \/ lookup row "CounterpartyID"
                = Some (VStr (pb.EthAddress_Hex (pb.AuthorID o))))
            /\ (pb.EthAddress_IsZero (pb.CounterpartyID o) = false ->
                lookup row "AuthorID"
                = Some (VStr (pb.EthAddress_Hex (pb.CounterpartyID o)))))
      /\ (forall r conn log0,
              GetOrderByID c (pb.m_Id r) conn = (log0, Ok order) ->
              exists rest,
                fst (GetMatchingOrders c r conn)
                = (log0
                   ++ EvQuery
                        (strings.Replace1
                           (fst (ToSql (builderWithOffsetLimit
                                          b (pb.m_Limit r) (pb.m_Offset r))))
                           "*" (strings.Join (OrderColumns (tablesInfo_ c)) ", "))
                        (snd (ToSql (builderWithOffsetLimit
                                       b (pb.m_Limit r) (pb.m_Offset r))))
                   :: rest)%list)
  | Panic p =>
      util.FormattedBigIntLength < len (util.bigString (pb.Price o))
      /\ (forall r conn log0,
            GetOrderByID c (pb.m_Id r) conn = (log0, Ok order) ->
            GetMatchingOrders c r conn = (log0, Panic p))
  | Err _ => False
  end.
Proof.
  intros o.
  destruct (Z_le_gt_dec (len (util.bigString (pb.Price o)))
                        util.FormattedBigIntLength) as [Hl|Hl].
  2:{ assert (HP : matchingBuilder c order = Panic "makeslice: len out of range")
        by (apply matchingBuilder_overflow; fold o; lia).
      rewrite HP. split; [lia|].
      intros r conn log0 HO.
      exact (GetMatchingOrders_panics c r conn log0 order _ HO HP). }
  pose proof (BigIntToPaddedString_fits _ Hl) as Hp.
  match type of Hp with _ = Ok ?s => set (price := s) in * end.
  destruct (matchingBuilder_shape c order price Hp)
    as (b & flags & extra & Hb & Hparts & Hflags & Hextra & _).
  fold o in Hparts, Hflags, Hextra.
  rewrite Hb.
  assert (Icp : In (counterpartyPart o) (sb_WhereParts b)).
  { rewrite Hparts. apply in_or_app. right. apply in_or_app. right.
    apply in_or_app. left. now left. }
  assert (Iau : In (authorPart o) (sb_WhereParts b)
                <-> pb.EthAddress_IsZero (pb.CounterpartyID o) = false).
  { rewrite Hparts, Hflags. split.
    - intros I. destruct (pb.EthAddress_IsZero (pb.CounterpartyID o));
        [|reflexivity].
      exfalso. cbn [app] in I.
      repeat (destruct I as [I|I];
              [ unfold authorPart, activePart, counterpartyPart in I;
                repeat match type of I with
                       | context [if ?x then _ else _] => destruct x
                       end; discriminate I |]).
      exact (authorPart_not_bench o _ extra Hextra I).
    - intros E. rewrite E. apply in_or_app. right. apply in_or_app. left.
      now left. }
  split; [exact Icp|]. split; [exact Iau|].
  split.
  { intros limit offset row S.
    rewrite selects_builderWithOffsetLimit in S. split.
    - apply counterpartyPart_holds. exact (selects_In b _ row Icp S).
    - intros E. apply evalPred_author.
      exact (selects_In b (authorPart o) row (proj2 Iau E) S). }
  intros r conn log0 HO.
  exact (GetMatchingOrders_sends c r conn log0 order b HO Hb).
Qed.

Lemma matching_orders_counterparty_always_checked_witness :
  exists b,
    matchingBuilder sample.storage sample.targetedBid = Ok b
    /\ In (counterpartyPart (pb.Order_ sample.targetedBid)) (sb_WhereParts b)
    /\ In (authorPart (pb.Order_ sample.targetedBid)) (sb_WhereParts b).
Proof.
  generalize (matching_orders_counterparty_always_checked sample.storage
                                                          sample.targetedBid).
  cbv zeta.
  destruct (matchingBuilder sample.storage sample.targetedBid) as [b|e|p] eqn:E.
  - intros (Hc & Ha & _).
    exists b. split; [reflexivity|]. split; [exact Hc|].
    apply Ha. reflexivity.
  - intros [].
  - vm_compute in E. discriminate E.
Defined.

End Matching.

(** * Counting, sorting and decoding *)

Section CountQuery.

Import dwh squirrel.

(** With the count requested and the data query answered, [runQuery] sends
    exactly two statements: the query with the columns in place of the first
    star, and the same query with "count(*)" in place of the first star, which
    therefore keeps every clause of the query, LIMIT and OFFSET included; the
    second receives the argument list as one value. *)
Lemma runQuery_count_statement columns query args (conn : queryConn) rows :
  conn_Query conn (strings.Replace1 query "*" columns) args = Ok rows ->
  fst (runQuery columns true query args conn)
  = [EvQuery (strings.Replace1 query "*" columns) args;
     EvQuery (strings.Replace1 query "*" "count(*)") [VSlice args]].
Proof.
  intros H. unfold runQuery, tryM, Query. rewrite H. cbn.
  destruct (conn_Query conn (strings.Replace1 query "*" "count(*)") [VSlice args]);
    reflexivity.
Qed.

(** C5, at a request for the second page of two orders with the total. The
    count statement [GetOrders] sends keeps [LIMIT 2 OFFSET 1] and is given
    the argument list wrapped into a single argument. *)
Theorem count_query_keeps_limit_and_offset :
  fst (GetOrders sample.storage sample.pagedRequest sample.emptyConn)
  = [EvQuery
       ("SELECT Id, CreatedTS, DealID, Type, Status, AuthorID, CounterpartyID, "
        ++ "Duration, Price, Netflags, IdentityLevel, Blacklist, Tag, FrozenSum, "
        ++ "CreatorIdentityLevel, CreatorName, CreatorCountry, "
        ++ "CreatorCertificates, Benchmark0, Benchmark1 "
        ++ "FROM Orders WHERE Status = $1 LIMIT 2 OFFSET 1")
       [VInt pb.OrderStatus_ORDER_ACTIVE];
     EvQuery "SELECT count(*) FROM Orders WHERE Status = $1 LIMIT 2 OFFSET 1"
             [VSlice [VInt pb.OrderStatus_ORDER_ACTIVE]]].
Proof. now vm_compute. Qed.

End CountQuery.

Section Sortings.

Import dwh squirrel.

Lemma orderBys_Where (b : SelectBuilder) sql args :
  sb_OrderBys (Where b sql args) = sb_OrderBys b.
Proof. reflexivity. Qed.

Lemma orderBys_newNetflagsWhere (b : SelectBuilder) op v :
  sb_OrderBys (newNetflagsWhere b op v) = sb_OrderBys b.
Proof. now destruct op. Qed.

Lemma orderBys_addBenchmarks (benches : list (Z * pb.MaxMinUint64)) :
  forall b : SelectBuilder,
    sb_OrderBys (addBenchmarksConditionsWhere b benches) = sb_OrderBys b.
Proof.
  unfold addBenchmarksConditionsWhere.
  induction benches as [|[benchID condition] rest IH]; intros b;
    [reflexivity|].
  cbn [fold_left]. rewrite IH.
  now destruct (pb.Max64 condition >? 0), (pb.Min64 condition >? 0).
Qed.

Ltac keep_unsorted :=
  repeat first
    [ assumption
    | reflexivity
    | rewrite orderBys_Where
    | rewrite orderBys_newNetflagsWhere
    | rewrite orderBys_addBenchmarks
    | match goal with
      | |- context [if ?c then _ else _] => destruct c
      | |- context [match ?o with Some _ => _ | None => _ end] => destruct o
      end ].

Ltac peel_unsorted :=
  lazymatch goal with
  | |- builds ?P (let x := ?A in @?B x) =>
      let H := fresh "H" in
      let b := fresh "builder" in
      assert (H : sb_OrderBys A = []) by keep_unsorted;
      change (builds P (B A)); revert H; generalize A;
      clear; intros b H; cbv beta
  end.

(** For every request, the ORDER BY list of the statement [GetOrders] builds
    is the list of the requested sort options, each formatted as it came:
    no option is dropped or checked against the columns. *)
Lemma ordersBuilder_orderBys (c : sqlStorage) (r : pb.OrdersRequest) :
  builds (fun b =>
            sb_OrderBys b
            = map (fun sort =>
                     pb.so_Field sort ++ " "
                     ++ pb.SortingOrder_name (pb.so_Order sort))
                  (pb.r_Sortings r))
         (ordersBuilder c r).
Proof.
  cbv beta delta [ordersBuilder].
  do 7 peel_unsorted.
  eapply builds_bind with (P := fun b => sb_OrderBys b = []).
  - destruct (pb.r_Price r) as [p|]; [|assumption].
    eapply builds_bind with (P := fun b => sb_OrderBys b = []).
    + destruct (pb.MaxBig p) as [mx|]; [|assumption].
      apply builds_padded. intros s. simpl. keep_unsorted.
    + intros b Hb. destruct (pb.MinBig p) as [mn|]; [|exact Hb].
      apply builds_padded. intros s. simpl. keep_unsorted.
  - clear. intros builder Hb.
    do 4 peel_unsorted.
    apply builds_Ok. unfold builderWithSortings, OrderBy. cbn [sb_OrderBys].
    match goal with H : sb_OrderBys _ = [] |- _ => now rewrite H end.
Qed.

(** C7, at a request whose sort field is not a column of Orders.
    [filterSortings] would drop the option, but [GetOrders] does not call it:
    the field is copied into the ORDER BY clause of the statement sent. *)
Theorem unknown_sort_field_reaches_order_by :
  filterSortings (pb.r_Sortings sample.hostileRequest)
                 (OrderColumns (tablesInfo_ sample.storage)) = []
  /\ (exists b,
        ordersBuilder sample.storage sample.hostileRequest = Ok b
        /\ sb_OrderBys b = ["Price; DROP TABLE Orders; -- Asc"])
  /\ fst (GetOrders sample.storage sample.hostileRequest sample.emptyConn)
     = [EvQuery
          ("SELECT Id, CreatedTS, DealID, Type, Status, AuthorID, CounterpartyID, "
           ++ "Duration, Price, Netflags, IdentityLevel, Blacklist, Tag, FrozenSum, "
           ++ "CreatorIdentityLevel, CreatorName, CreatorCountry, "
           ++ "CreatorCertificates, Benchmark0, Benchmark1 "
           ++ "FROM Orders WHERE Status = $1 "
           ++ "ORDER BY Price; DROP TABLE Orders; -- Asc")
          [VInt pb.OrderStatus_ORDER_ACTIVE]].
Proof.
  split; [now vm_compute|]. split; [|now vm_compute].
  eexists. split; [now vm_compute | reflexivity].
Qed.

End Sortings.

Section Decoders.

Import dwh.

(** C6, at stored rows whose price is not a decimal integer. [decodeOrder]
    reports the field; [decodeDeal], [decodeDealCondition] and
    [decodeDealChangeRequest] return an entity, with whatever [SetString]
    left in the price, and no error. *)
Theorem decode_unparsable_price_is_not_reported :
  decodeOrder sample.storage
              (sample.orderRow 5 pb.OrderType_BID sample.alice "abc")
  = Err "failed to NewBigIntFromString (Price): cannot convert abc to big.Int"
  /\ (exists d, decodeDeal sample.storage (sample.dealRow "abc") = Ok d
                /\ pb.d_Price (pb.Deal_ d) = 0)
  /\ (exists d, decodeDealCondition (sample.conditionRow "12x") = Ok d
                /\ pb.dc_Price d = 12)
  /\ (exists d, decodeDealChangeRequest (sample.changeRequestRow "") = Ok d
                /\ pb.cr_Price d = 0).
Proof.
  split; [now vm_compute|].
  repeat split; eexists; (split; [now vm_compute | reflexivity]).
Qed.

End Decoders.

(** * The write path *)

Section InsertDealFlag.

Import dwh.

Lemma bindM_Ok {A B : Type} (m : M A) (f : A -> M B) (conn : queryConn)
      (log : list Event) (a : A) :
  m conn = (log, Ok a) ->
  bindM m f conn = ((log ++ fst (f a conn))%list, snd (f a conn)).
Proof. intros H. unfold bindM. rewrite H. now destruct (f a conn). Qed.

Lemma wrapM_Ok {A : Type} (msg : string) (m : M A) (conn : queryConn)
      (log : list Event) (a : A) :
  m conn = (log, Ok a) -> wrapM msg m conn = (log, Ok a).
Proof. intros H. unfold wrapM. now rewrite H. Qed.

(** The flag is the twentieth argument of the insert statement. *)
Lemma dealColumns_flag (c : sqlStorage) (deal : pb.Deal) (ask bid : pb.DWHOrder)
      (flag : bool) (cols : list Value) :
  dealColumns c deal ask bid flag = Ok cols ->
  nth_error cols 19 = Some (VBool flag).
Proof.
  unfold dealColumns.
  destruct (pb.BigInt_PaddedString (pb.d_Price deal)); try discriminate.
  destruct (pb.BigInt_PaddedString (pb.d_BlockedBalance deal)); try discriminate.
  destruct (pb.BigInt_PaddedString (pb.d_TotalPayout deal)); try discriminate.
  cbn [bind].
  destruct (benchmarkArgs (pb.d_Benchmarks deal) (Z.to_nat (numBenchmarks c)));
    try discriminate.
  cbn [bind]. intros H. injection H as <-. reflexivity.
Qed.

(** C10. Whenever the two orders of the deal are found and the lookup of the
    change requests of the deal returns without error, with any list of
    change requests, the empty one included, [InsertDeal] sends the insert
    statement with [true] in the ActiveChangeRequest position: the argument
    list does not depend on the change requests found. *)
Theorem insert_deal_flags_any_successful_lookup
        (c : sqlStorage) (deal : pb.Deal) (conn : queryConn)
        (ask bid : pb.DWHOrder) (crs : list pb.DealChangeRequest)
        (l1 l2 l3 : list Event) (cols : list Value) :
  GetOrderByID c (pb.d_AskID deal) conn = (l1, Ok ask) ->
  GetOrderByID c (pb.d_BidID deal) conn = (l2, Ok bid) ->
  GetDealChangeRequestsByID c (pb.d_Id deal) conn = (l3, Ok crs) ->
  dealColumns c deal ask bid true = Ok cols ->
  fst (InsertDeal c deal conn)
  = (l1 ++ l2 ++ l3 ++ [EvExec (insertDeal c) cols])%list
  /\ nth_error cols 19 = Some (VBool true).
Proof.
  intros Ha Hb Hc Hcols. split; [|exact (dealColumns_flag _ _ _ _ _ _ Hcols)].
  unfold InsertDeal.
  rewrite (bindM_Ok _ _ conn l1 ask (wrapM_Ok _ _ conn l1 ask Ha)). cbn [fst].
  rewrite (bindM_Ok _ _ conn l2 bid (wrapM_Ok _ _ conn l2 bid Hb)). cbn [fst].
  unfold tryM. rewrite Hc. cbn [is_ok].
  rewrite (bindM_Ok _ _ conn [] cols) by (unfold lift; now rewrite Hcols).
  unfold Exec. destruct (conn_Exec conn (insertDeal c) cols); reflexivity.
Qed.

Lemma insert_deal_flags_any_successful_lookup_witness :
  exists l cols,
    fst (InsertDeal sample.storage sample.deal sample.dealConn)
    = (l ++ [EvExec (insertDeal sample.storage) cols])%list
    /\ GetDealChangeRequestsByID sample.storage (pb.d_Id sample.deal) sample.dealConn
       = ([EvQuery
             "SELECT Id, CreatedTS, RequestType, Duration, Price, Status, DealID FROM DealChangeRequests WHERE DealID = $1"
             [VStr "11"]], Ok [])
    /\ nth_error cols 19 = Some (VBool true).
Proof.
  edestruct (insert_deal_flags_any_successful_lookup
               sample.storage sample.deal sample.dealConn) as [H1 H2].
  - vm_compute. reflexivity.
  - vm_compute. reflexivity.
  - vm_compute. reflexivity.
  - vm_compute. reflexivity.
  - eexists. eexists. split; [|split; [|exact H2]].
    + rewrite H1. rewrite !app_assoc. reflexivity.
    + now vm_compute.
Defined.

End InsertDealFlag.

(** * Further properties of the padded encoding and of [ParseBigInt] *)

Section ParseRoundTrip.

Import util.

Lemma isDigit_not_sign (c : ascii) :
  isDigit c = true -> c <> "-"%char /\ c <> "+"%char.
Proof.
  intros H. split; intros ->; vm_compute in H; discriminate H.
Qed.

Lemma scanDigits_digits (s : string) :
  forall acc, isDigits s = true ->
    bigint.scanDigits s acc = (acc * 10 ^ len s + val s, "").
Proof.
  induction s as [|c r IH]; intros acc H.
  - cbn [bigint.scanDigits val]. change (len "") with 0.
    replace (acc * 10 ^ 0 + 0) with acc by (simpl; lia). reflexivity.
  - cbn [isDigits] in H. apply andb_true_iff in H as [Hc Hr].
    cbn [bigint.scanDigits val]. rewrite Hc, (IH _ Hr), len_String.
    rewrite Z.pow_add_r by (pose proof (len_nonneg r); lia).
    f_equal. ring.
Qed.

(** A non-empty digit string is accepted and denotes its value. *)
Lemma SetString_digits (s : string) :
  isDigits s = true -> s <> "" ->
  bigint.SetString s = (val s, true).
Proof.
  intros H Hne. destruct s as [|c r]; [contradiction|].
  pose proof H as H0. cbn [isDigits] in H0.
  apply andb_true_iff in H0 as [Hc _].
  destruct (isDigit_not_sign c Hc) as [Hm Hp].
  unfold bigint.SetString.
  assert (E : match String c r with
              | String "-" r0 => (true, r0)
              | String "+" r0 => (false, r0)
              | _ => (false, String c r)
              end = (false, String c r)).
  { destruct c as [[] [] [] [] [] [] [] []]; try reflexivity;
      solve [exfalso; apply Hm; reflexivity | exfalso; apply Hp; reflexivity]. }
  rewrite E. rewrite (scanDigits_digits _ 0 H). cbn. f_equal; lia.
Qed.

Lemma natDigits_extends (f : nat) :
  forall n acc, acc <> "" -> natDigits f n acc <> "".
Proof.
  induction f as [|f IHf]; intros n acc Ha; cbn [natDigits]; [exact Ha|].
  cbv zeta. destruct (n <? 10); [discriminate | apply IHf; discriminate].
Qed.

Lemma bigString_digits_nonempty (x : Z) : 0 <= x -> bigString x <> "".
Proof.
  intros Hx. unfold bigString.
  replace (x <? 0) with false by (symmetry; apply Z.ltb_ge; lia).
  unfold digitsFuel. cbn [natDigits]. cbv zeta.
  destruct (x <? 10); [discriminate | apply natDigits_extends; discriminate].
Qed.

(** The decimal text of any integer parses back to it. *)
Lemma ParseBigInt_bigString (x : Z) :
  util_parse.ParseBigInt (bigString x) = Ok x.
Proof.
  unfold util_parse.ParseBigInt.
  destruct (Z.ltb_spec x 0) as [Hneg|Hpos].
  - unfold bigString. replace (x <? 0) with true by (symmetry; apply Z.ltb_lt; lia).
    destruct (bigString_nonneg (- x) ltac:(lia)) as [D V].
    pose proof (bigString_digits_nonempty (- x) ltac:(lia)) as NE.
    unfold bigString in D, V, NE.
    replace (- x <? 0) with false in D, V, NE by (symmetry; apply Z.ltb_ge; lia).
    set (d := natDigits (digitsFuel (- x)) (- x) "") in *.
    unfold bigint.SetString.
    rewrite (scanDigits_digits d 0 D), V.
    destruct d as [|c r]; [contradiction|].
    cbn. f_equal; lia.
  - destruct (bigString_nonneg x Hpos) as [D V].
    rewrite (SetString_digits _ D (bigString_digits_nonempty x Hpos)), V.
    reflexivity.
Qed.

End ParseRoundTrip.

Section PaddedExtras.

Import util.

Lemma fits_of_bound (x : Z) :
  0 <= x < 10 ^ FormattedBigIntLength ->
  len (bigString x) <= FormattedBigIntLength.
Proof. intros H. apply bigString_length; [exact H | now vm_compute]. Qed.

Lemma padded_nonempty (x : Z) (k : nat) :
  0 <= x -> zeros k ++ bigString x <> "".
Proof.
  intros Hx E. pose proof (bigString_digits_nonempty x Hx) as NE.
  destruct k; cbn [zeros append] in E; [contradiction | discriminate E].
Qed.

(** X1. Decoding inverts encoding: for [0 <= x < 10 ^ 80], [ParseBigInt]
    applied to the padded string of [x] returns [x]. *)
Theorem parse_padded_round_trip (x : Z) :
  0 <= x -> x < 10 ^ FormattedBigIntLength ->
  exists s, BigIntToPaddedString x = Ok s /\ util_parse.ParseBigInt s = Ok x.
Proof.
  intros Hx Hb.
  pose proof (fits_of_bound x (conj Hx Hb)) as Hl.
  eexists. split; [apply (BigIntToPaddedString_fits x Hl)|].
  set (k := Z.to_nat (FormattedBigIntLength - len (bigString x))).
  destruct (padded_digits x k Hx) as [D V].
  unfold util_parse.ParseBigInt.
  rewrite (SetString_digits _ D (padded_nonempty x k Hx)), V. reflexivity.
Qed.

Lemma parse_padded_round_trip_witness :
  exists s, BigIntToPaddedString 1234567890 = Ok s
            /\ util_parse.ParseBigInt s = Ok 1234567890.
Proof.
  apply (parse_padded_round_trip 1234567890); [lia | now vm_compute].
Defined.

(** X2. On [0 <= x, y < 10 ^ 80] the padded encoding reflects the order as
    well as it preserves it: comparing two encodings as strings gives the
    result of comparing the numbers, so the encoding is injective and
    strictly increasing. *)
Theorem padded_compare_is_numeric (x y : Z) :
  0 <= x < 10 ^ FormattedBigIntLength ->
  0 <= y < 10 ^ FormattedBigIntLength ->
  exists sx sy,
    BigIntToPaddedString x = Ok sx /\ BigIntToPaddedString y = Ok sy
    /\ String.compare sx sy = (x ?= y)
    /\ (sx = sy <-> x = y)
    /\ String.ltb sx sy = (x <? y).
Proof.
  intros Hx Hy.
  pose proof (fits_of_bound x Hx) as Lx. pose proof (fits_of_bound y Hy) as Ly.
  eexists; eexists.
  split; [apply (BigIntToPaddedString_fits x Lx)|].
  split; [apply (BigIntToPaddedString_fits y Ly)|].
  pose proof (padded_length x Lx) as Ex. pose proof (padded_length y Ly) as Ey.
  assert (C : String.compare
                (zeros (Z.to_nat (FormattedBigIntLength - len (bigString x)))
                 ++ bigString x)
                (zeros (Z.to_nat (FormattedBigIntLength - len (bigString y)))
                 ++ bigString y) = (x ?= y)).
  { apply padded_compare; [lia | lia |].
    apply Nat2Z.inj. exact (eq_trans Ex (eq_sym Ey)). }
  split; [exact C|]. split.
  - split.
    + intros E. rewrite E in C.
      apply Z.compare_eq.
      rewrite <- C. clear.
      match goal with |- String.compare ?s ?s = _ => generalize s end.
      intros s. induction s as [|c r IH]; [reflexivity|].
      cbn [String.compare]. unfold Ascii.compare. now rewrite N.compare_refl.
    + intros ->. reflexivity.
  - unfold String.ltb, Z.ltb. now rewrite C.
Qed.

Lemma padded_compare_is_numeric_witness :
  exists sx sy,
    BigIntToPaddedString 100 = Ok sx /\ BigIntToPaddedString 99 = Ok sy
    /\ String.compare sx sy = Gt
    /\ (sx = sy <-> 100 = 99)
    /\ String.ltb sx sy = false.
Proof.
  apply (padded_compare_is_numeric 100 99); split; solve [lia | now vm_compute].
Defined.

Lemma scanDigits_zeros (k : nat) (t : string) :
  forall acc, bigint.scanDigits (zeros k ++ t) acc
              = bigint.scanDigits t (acc * 10 ^ Z.of_nat k).
Proof.
  induction k as [|k IH]; intros acc.
  - cbn [zeros append]. f_equal. simpl. lia.
  - cbn [zeros append bigint.scanDigits].
    change (isDigit "0") with true. cbv iota. rewrite IH.
    change (digitVal "0") with 0. f_equal.
    rewrite Nat2Z.inj_succ, Z.pow_succ_r by lia. ring.
Qed.

(** X3. For a negative [x] above [- 10 ^ 78] the result still has 80
    characters, but the sign sits behind the padding and [ParseBigInt]
    rejects the string. *)
Theorem padded_negative_is_not_parsed (x : Z) :
  - 10 ^ 78 < x -> x < 0 ->
  exists s, BigIntToPaddedString x = Ok s
            /\ len s = FormattedBigIntLength
            /\ util_parse.ParseBigInt s
               = Err ("cannot convert " ++ s ++ " to big.Int").
Proof.
  intros Hlo Hneg.
  assert (Ld : len (bigString (- x)) <= 78)
    by (apply bigString_length; lia).
  assert (E : bigString x = String "-" (bigString (- x))).
  { unfold bigString.
    replace (x <? 0) with true by (symmetry; apply Z.ltb_lt; lia).
    replace (- x <? 0) with false by (symmetry; apply Z.ltb_ge; lia).
    reflexivity. }
  assert (Hl : len (bigString x) <= FormattedBigIntLength).
  { rewrite E, len_String. unfold FormattedBigIntLength. lia. }
  eexists. split; [apply (BigIntToPaddedString_fits x Hl)|].
  split; [apply (padded_length x Hl)|].
  set (k := Z.to_nat (FormattedBigIntLength - len (bigString x))).
  assert (Hk : exists k', k = S k').
  { exists (Nat.pred k). subst k. rewrite E, len_String in *.
    unfold FormattedBigIntLength in *. lia. }
  destruct Hk as [k' ->].
  unfold util_parse.ParseBigInt, bigint.SetString.
  rewrite E. cbn [zeros append].
  change (String "0" (zeros k' ++ String "-" (bigString (- x))))
    with (zeros (S k') ++ String "-" (bigString (- x))).
  rewrite scanDigits_zeros. cbn [bigint.scanDigits].
  change (isDigit "-") with false. cbv iota.
  replace ((String.length (String "-" (bigString (- x)))
            =? String.length (zeros (S k') ++ String "-" (bigString (- x))))%nat)
    with false.
  - reflexivity.
  - symmetry. apply Nat.eqb_neq. rewrite length_app.
    destruct (zeros_facts (S k')) as (_ & _ & L). rewrite L. lia.
Qed.

Lemma padded_negative_is_not_parsed_witness :
  exists s, BigIntToPaddedString (- 5) = Ok s
            /\ len s = FormattedBigIntLength
            /\ util_parse.ParseBigInt s
               = Err ("cannot convert " ++ s ++ " to big.Int").
Proof.
  apply (padded_negative_is_not_parsed (- 5)); [now vm_compute | lia].
Defined.

End PaddedExtras.

(** * Stale ids *)

Section StaleIDs.

Import util dwh_more.

Lemma noUnderscore_app (s t : string) :
  noUnderscore (s ++ t) = noUnderscore s && noUnderscore t.
Proof.
  induction s as [|c s IH]; cbn [append noUnderscore]; [reflexivity|].
  now rewrite IH, andb_assoc.
Qed.

Lemma isDigit_not_underscore (c : ascii) :
  isDigit c = true -> Ascii.eqb c "_" = false.
Proof.
  intros H. destruct (Ascii.eqb_spec c "_") as [->|]; [|reflexivity].
  vm_compute in H. discriminate H.
Qed.

Lemma isDigits_noUnderscore (s : string) :
  isDigits s = true -> noUnderscore s = true.
Proof.
  induction s as [|c r IH]; [reflexivity|]. cbn [isDigits noUnderscore].
  intros H. apply andb_true_iff in H as [Hc Hr].
  now rewrite (isDigit_not_underscore c Hc), (IH Hr).
Qed.

Lemma bigString_noUnderscore (x : Z) : noUnderscore (bigString x) = true.
Proof.
  destruct (Z.ltb_spec x 0) as [Hneg|Hpos].
  - assert (E : bigString x = String "-" (bigString (- x))).
    { unfold bigString.
      replace (x <? 0) with true by (symmetry; apply Z.ltb_lt; lia).
      replace (- x <? 0) with false by (symmetry; apply Z.ltb_ge; lia).
      reflexivity. }
    rewrite E. cbn [noUnderscore]. apply isDigits_noUnderscore.
    apply bigString_nonneg. lia.
  - apply isDigits_noUnderscore. now apply bigString_nonneg.
Qed.

Lemma bigString_inj (x y : Z) : bigString x = bigString y -> x = y.
Proof.
  intros E. pose proof (ParseBigInt_bigString x) as Px.
  rewrite E, ParseBigInt_bigString in Px. now injection Px.
Qed.

(** The text after the last underscore determines the split. *)
Lemma split_at_last_underscore (e1 : string) :
  forall e2 d1 d2,
    noUnderscore d1 = true -> noUnderscore d2 = true ->
    e1 ++ String "_" d1 = e2 ++ String "_" d2 -> e1 = e2 /\ d1 = d2.
Proof.
  induction e1 as [|c e1 IH]; intros [|c2 e2] d1 d2 H1 H2 E; cbn [append] in E.
  - injection E as E. now split.
  - injection E as Ec Ed. subst d1.
    rewrite noUnderscore_app in H1. cbn [noUnderscore] in H1.
    rewrite Ascii.eqb_refl in H1. cbn in H1.
    rewrite andb_false_r in H1. discriminate H1.
  - injection E as Ec Ed. subst d2.
    rewrite noUnderscore_app in H2. cbn [noUnderscore] in H2.
    rewrite Ascii.eqb_refl in H2. cbn in H2.
    rewrite andb_false_r in H2. discriminate H2.
  - injection E as Ec Ed. subst c2.
    destruct (IH e2 d1 d2 H1 H2 Ed) as [-> ->]. now split.
Qed.

Lemma staleKey_eq (id : Z) (entity : string) :
  staleKey id entity = entity ++ String "_" (bigString id).
Proof.
  unfold staleKey.
  assert (G : forall a rest, Sprintf (a ++ "") rest = Sprintf a rest)
    by (intros; now rewrite app_nil_r_string).
  cbn [Sprintf]. now rewrite app_nil_r_string.
Qed.

(** X4. Markers of different entities never collide: the key under which
    [StoreStaleID], [RemoveStaleID] and [CheckStaleID] address an id of an
    entity kind is the same in the three functions, and two keys are equal
    only for the same kind and the same id, whatever characters the kind
    contains. *)
Theorem stale_id_keys_do_not_collide
        (cmds : sqlCommands) (conn : queryConn)
        (id1 id2 : Z) (entity1 entity2 : string) :
  fst (StoreStaleID cmds id1 entity1 conn)
  = [EvExec (storeStaleID cmds) [VStr (staleKey id1 entity1)]]
  /\ fst (RemoveStaleID cmds id1 entity1 conn)
     = [EvExec (removeStaleID cmds) [VStr (staleKey id1 entity1)]]
  /\ fst (CheckStaleID cmds id1 entity1 conn)
     = [EvQuery (checkStaleID cmds) [VStr (staleKey id1 entity1)]]
  /\ (staleKey id1 entity1 = staleKey id2 entity2
      <-> id1 = id2 /\ entity1 = entity2).
Proof.
  repeat split.
  - unfold CheckStaleID, bindM, Query, ret.
    destruct (conn_Query conn (checkStaleID cmds) [VStr (staleKey id1 entity1)])
      as [rows|e|p]; cbn; [destruct (rows_data rows)|..]; reflexivity.
  - rewrite !staleKey_eq in H.
    destruct (split_at_last_underscore _ _ _ _
                (bigString_noUnderscore id1) (bigString_noUnderscore id2) H)
      as [_ Hd].
    now apply bigString_inj.
  - rewrite !staleKey_eq in H.
    now destruct (split_at_last_underscore _ _ _ _
                (bigString_noUnderscore id1) (bigString_noUnderscore id2) H).
  - intros [-> ->]. reflexivity.
Qed.

End StaleIDs.

(** * The insert statements *)

Section InsertPlaceholders.

Import dwh dwh_more.

Lemma string_app_assoc (a b c : string) : (a ++ b) ++ c = a ++ (b ++ c).
Proof. induction a as [|x a IH]; cbn [append]; [reflexivity | now rewrite IH]. Qed.

Lemma fold_append (f : nat -> string) (l : list nat) :
  forall init,
    fold_left (fun acc i => acc ++ f i) l init
    = init ++ String.concat "" (map f l).
Proof.
  induction l as [|i l IH]; intros init; cbn [fold_left map].
  - cbn. now rewrite app_nil_r_string.
  - rewrite IH, string_app_assoc. f_equal.
    destruct l as [|j l]; [cbn; now rewrite app_nil_r_string | reflexivity].
Qed.

Lemma concat_nil_app (l1 l2 : list string) :
  String.concat "" (l1 ++ l2) = String.concat "" l1 ++ String.concat "" l2.
Proof.
  induction l1 as [|a l1 IH]; [reflexivity|].
  assert (C : forall l, String.concat "" (a :: l) = a ++ String.concat "" l).
  { intros [|b l]; [cbn; now rewrite app_nil_r_string | reflexivity]. }
  change ((a :: l1) ++ l2)%list with (a :: (l1 ++ l2))%list.
  now rewrite !C, IH, string_app_assoc.
Qed.

(** Items each followed by the separator, then a last item: the joined
    list. *)
Lemma join_snoc (sep : string) (l : list string) (x : string) :
  String.concat "" (map (fun a => a ++ sep) l) ++ x
  = String.concat sep (l ++ [x]).
Proof.
  induction l as [|a l IH]; [reflexivity|].
  assert (C : forall l, String.concat "" ((a ++ sep)%string :: l)
                        = (a ++ sep) ++ String.concat "" l).
  { intros [|b l']; [cbn; now rewrite app_nil_r_string | reflexivity]. }
  cbn [map]. rewrite C, !string_app_assoc, IH.
  destruct l as [|b l]; reflexivity.
Qed.

Lemma fold_left_agree {A B : Type} (f g : A -> B -> A) (l : list B) :
  (forall a b, In b l -> f a b = g a b) ->
  forall a, fold_left f l a = fold_left g l a.
Proof.
  induction l as [|b l IH]; intros H a; [reflexivity|].
  cbn [fold_left]. rewrite (H a b (or_introl eq_refl)).
  apply IH. intros a' b' I. apply H. now right.
Qed.

Lemma second_loop_last (numColumns numBenchmarks : nat) (init : string) :
  fold_left
    (fun acc i =>
       if Z.of_nat i =? Z.of_nat (S numBenchmarks) + Z.of_nat numColumns - 1
       then acc ++ postgresFormatCb (Z.of_nat i) true
       else acc ++ postgresFormatCb (Z.of_nat i) false)
    (seq numColumns (S numBenchmarks)) init
  = init
    ++ String.concat "" (map (fun i => postgresFormatCb (Z.of_nat i) false)
                             (seq numColumns numBenchmarks))
    ++ postgresFormatCb (Z.of_nat (numColumns + numBenchmarks)) true.
Proof.
  rewrite seq_S, fold_left_app. cbn [fold_left].
  replace (Z.of_nat (numColumns + numBenchmarks)
           =? Z.of_nat (S numBenchmarks) + Z.of_nat numColumns - 1) with true
    by (symmetry; apply Z.eqb_eq; lia).
  rewrite <- string_app_assoc. f_equal.
  rewrite <- fold_append.
  apply fold_left_agree. intros acc i Hi. apply in_seq in Hi.
  replace (Z.of_nat i =? Z.of_nat (S numBenchmarks) + Z.of_nat numColumns - 1)
    with false by (symmetry; apply Z.eqb_neq; lia).
  reflexivity.
Qed.

Lemma formatCb_not_last (i : nat) :
  Z.of_nat i + 1 < 2 ^ 64 ->
  postgresFormatCb (Z.of_nat i) false
  = ("$" ++ util.bigString (Z.of_nat i + 1)) ++ ", ".
Proof.
  intros H. unfold postgresFormatCb. rewrite Z.mod_small by lia. reflexivity.
Qed.

Lemma formatCb_last (i : nat) :
  Z.of_nat i + 1 < 2 ^ 64 ->
  postgresFormatCb (Z.of_nat i) true = "$" ++ util.bigString (Z.of_nat i + 1).
Proof.
  intros H. unfold postgresFormatCb. rewrite Z.mod_small by lia. reflexivity.
Qed.

Lemma map_formatCb (start n : nat) :
  Z.of_nat (start + n) < 2 ^ 64 ->
  map (fun i => postgresFormatCb (Z.of_nat i) false) (seq start n)
  = map (fun a => a ++ ", ")
        (map (fun i => "$" ++ util.bigString (Z.of_nat i + 1)) (seq start n)).
Proof.
  intros H. rewrite map_map. apply map_ext_in. intros i Hi.
  apply in_seq in Hi. apply formatCb_not_last. lia.
Qed.

Lemma placeholdersOf_postgres (numColumns numBenchmarks : Z) :
  0 <= numColumns -> 0 <= numBenchmarks ->
  1 <= numColumns + numBenchmarks < 2 ^ 64 ->
  placeholdersOf postgresFormatCb numColumns numBenchmarks
  = strings.Join (dollarPlaceholders (Z.to_nat (numColumns + numBenchmarks))) ", "
    ++ (if numBenchmarks =? 0 then ", " else "").
Proof.
  intros Hc Hb Ht. unfold placeholdersOf, strings.Join, dollarPlaceholders.
  rewrite fold_append. cbn [append].
  rewrite Z2Nat.inj_add by lia.
  set (NC := Z.to_nat numColumns). set (NB := Z.to_nat numBenchmarks).
  assert (ENC : numColumns = Z.of_nat NC) by (subst NC; lia).
  assert (ENB : numBenchmarks = Z.of_nat NB) by (subst NB; lia).
  destruct NB as [|m].
  - replace (numBenchmarks =? 0) with true by (symmetry; apply Z.eqb_eq; lia).
    cbn [seq fold_left]. rewrite Nat.add_0_r.
    destruct NC as [|k]; [lia|].
    rewrite map_formatCb by lia.
    rewrite seq_S, !map_app. cbn [map].
    rewrite concat_nil_app. cbn [String.concat].
    rewrite <- string_app_assoc, <- join_snoc, !string_app_assoc. reflexivity.
  - replace (numBenchmarks =? 0) with false by (symmetry; apply Z.eqb_neq; lia).
    rewrite app_nil_r_string, ENB, ENC, second_loop_last.
    rewrite formatCb_last by lia.
    rewrite <- string_app_assoc, <- concat_nil_app, <- map_app, <- seq_app.
    rewrite map_formatCb by lia.
    rewrite join_snoc.
    replace (NC + S m)%nat with (S (NC + m)) by lia.
    rewrite (seq_S (NC + m)), map_app. reflexivity.
Qed.

(** X5. With the placeholder callback of the Postgres storage, the insert
    statements list the columns and then the placeholders [$1] to [$k]
    separated by commas, [k] being the number of fixed columns plus the
    number of benchmarks, when at least one benchmark is configured; with no
    benchmark the callback is never told which argument is last and the
    placeholder list ends in a dangling separator. *)
Theorem insert_statement_placeholders
        (format : string) (numBenchmarks : Z) (tInfo : tablesInfo) :
  0 <= numBenchmarks ->
  1 <= NumDealColumns tInfo -> NumDealColumns tInfo + numBenchmarks < 2 ^ 64 ->
  1 <= NumOrderColumns tInfo -> NumOrderColumns tInfo + numBenchmarks < 2 ^ 64 ->
  makeInsertDealQuery format postgresFormatCb numBenchmarks tInfo
  = Sprintf format
      [strings.Join (DealColumns tInfo) ", ";
       strings.Join
         (dollarPlaceholders (Z.to_nat (NumDealColumns tInfo + numBenchmarks))) ", "
       ++ (if numBenchmarks =? 0 then ", " else "")]
  /\ makeInsertOrderQuery format postgresFormatCb numBenchmarks tInfo
     = Sprintf format
         [strings.Join (OrderColumns tInfo) ", ";
          strings.Join
            (dollarPlaceholders (Z.to_nat (NumOrderColumns tInfo + numBenchmarks))) ", "
          ++ (if numBenchmarks =? 0 then ", " else "")].
Proof.
  intros Hb Hd1 Hd2 Ho1 Ho2.
  unfold makeInsertDealQuery, makeInsertOrderQuery.
  rewrite !placeholdersOf_postgres by lia. split; reflexivity.
Qed.

Lemma insert_statement_placeholders_witness :
  makeInsertDealQuery "INSERT INTO Deals(%s) VALUES (%s)" postgresFormatCb 0
                      (newTablesInfo 0)
  = Sprintf "INSERT INTO Deals(%s) VALUES (%s)"
      [strings.Join (DealColumns (newTablesInfo 0)) ", ";
       strings.Join (dollarPlaceholders 20) ", " ++ ", "]
  /\ makeInsertOrderQuery "INSERT INTO Deals(%s) VALUES (%s)" postgresFormatCb 0
                          (newTablesInfo 0)
     = Sprintf "INSERT INTO Deals(%s) VALUES (%s)"
         [strings.Join (OrderColumns (newTablesInfo 0)) ", ";
          strings.Join (dollarPlaceholders 18) ", " ++ ", "].
Proof.
  apply (insert_statement_placeholders "INSERT INTO Deals(%s) VALUES (%s)" 0
                                       (newTablesInfo 0)); now vm_compute.
Defined.

End InsertPlaceholders.

(** * Encoding and decoding rows *)

Section RowRoundTrip.

Import util dwh dwh_more sqlscan.

Lemma inRange_spec (lo hi x : Z) : inRange lo hi x = true <-> lo <= x < hi.
Proof.
  unfold inRange. rewrite andb_true_iff, Z.leb_le, Z.ltb_lt. tauto.
Qed.

Lemma padded_of_inRange (x : Z) :
  inRange 0 (10 ^ 80) x = true ->
  exists s, pb.BigInt_PaddedString x = Ok s
            /\ util_parse.ParseBigInt s = Ok x
            /\ bigint.SetString s = (x, true).
Proof.
  intros H. apply inRange_spec in H.
  assert (Hl : len (bigString x) <= FormattedBigIntLength)
    by (apply fits_of_bound; exact H).
  eexists. split; [apply (BigIntToPaddedString_fits x Hl)|].
  set (k := Z.to_nat (FormattedBigIntLength - len (bigString x))).
  destruct (padded_digits x k (proj1 H)) as [D V].
  pose proof (SetString_digits _ D (padded_nonempty x k (proj1 H))) as S.
  rewrite V in S. split; [|exact S].
  unfold util_parse.ParseBigInt. now rewrite S.
Qed.

Lemma scanUint64_ok (z : Z) :
  inRange 0 (2 ^ 63) z = true -> scanUint64 (VInt z) = Ok z.
Proof.
  intros H. apply inRange_spec in H. unfold scanUint64, uint64_max.
  replace ((0 <=? z) && (z <=? 2 ^ 64 - 1)) with true; [reflexivity|].
  symmetry. apply andb_true_iff. split; [apply Z.leb_le | apply Z.leb_le]; lia.
Qed.

Lemma scanUint64_enum (z : Z) :
  inRange 0 (2 ^ 31) z = true -> scanUint64 (VInt z) = Ok z.
Proof.
  intros H. apply scanUint64_ok. apply inRange_spec in H.
  apply inRange_spec. lia.
Qed.

Lemma scanInt64_ok (z : Z) :
  inRange (- 2 ^ 63) (2 ^ 63) z = true -> scanInt64 (VInt z) = Ok z.
Proof.
  intros H. apply inRange_spec in H. unfold scanInt64.
  replace ((- 2 ^ 63 <=? z) && (z <=? 2 ^ 63 - 1)) with true; [reflexivity|].
  symmetry. apply andb_true_iff. split; [apply Z.leb_le | apply Z.leb_le]; lia.
Qed.

Lemma toUint64_enum (z : Z) : inRange 0 (2 ^ 31) z = true -> toUint64 z = z.
Proof.
  intros H. apply inRange_spec in H. unfold toUint64. apply Z.mod_small. lia.
Qed.

Lemma toInt32_enum (z : Z) : inRange 0 (2 ^ 31) z = true -> toInt32 z = z.
Proof.
  intros H. apply inRange_spec in H. unfold toInt32.
  rewrite Z.mod_small by lia.
  replace (z <? 2 ^ 31) with true by (symmetry; apply Z.ltb_lt; lia).
  reflexivity.
Qed.

Lemma toInt64_small (z : Z) : inRange 0 (2 ^ 63) z = true -> toInt64 z = z.
Proof.
  intros H. apply inRange_spec in H. unfold toInt64.
  replace (z <? 2 ^ 63) with true by (symmetry; apply Z.ltb_lt; lia).
  reflexivity.
Qed.

Lemma benchmarkArgs_all (values : list Z) :
  benchmarkArgs values (List.length values) = Ok (map VInt values).
Proof.
  induction values as [|v rest IH]; [reflexivity|].
  cbn [List.length benchmarkArgs map]. now rewrite IH.
Qed.

Lemma scanAll_benchmarks (values : list Z) :
  forallb (inRange 0 (2 ^ 63)) values = true ->
  scanAll scanUint64 (map VInt values) = Ok values.
Proof.
  induction values as [|v rest IH]; [reflexivity|].
  cbn [forallb map scanAll]. intros H. apply andb_true_iff in H as [Hv Hr].
  now rewrite (scanUint64_ok v Hv), (IH Hr).
Qed.

Ltac split_storable H :=
  repeat match type of H with
         | _ && _ = true =>
             let H1 := fresh "R" in
             apply andb_true_iff in H; destruct H as [H H1]
         end.

(** X6. An order written by [InsertOrder] reads back unchanged: for a
    storable order the argument list of the insert statement, taken as the
    stored row, is decoded by [decodeOrder] to the same order. *)
Theorem order_row_round_trip (c : sqlStorage) (order : pb.DWHOrder) :
  storableOrder c order = true ->
  exists row, orderColumns c order = Ok row /\ decodeOrder c row = Ok order.
Proof.
  destruct order as [o createdTS creatorIdentityLevel creatorName
                       creatorCountry creatorCertificates].
  destruct o as [id dealID orderType orderStatus authorID counterpartyID
                   duration price netflags identityLevel blacklist tag
                   frozenSum benchmarks].
  unfold storableOrder. cbn [pb.Order_ pb.Price pb.FrozenSum pb.CreatedTS
    pb.OrderType_ pb.OrderStatus_ pb.IdentityLevel pb.Duration pb.Netflags
    pb.CreatorIdentityLevel pb.Benchmarks pb.AuthorID pb.CounterpartyID].
  intros H. split_storable H.
  destruct authorID as [author|]; [|discriminate].
  destruct counterpartyID as [counterparty|]; [|discriminate].
  apply Z.eqb_eq in R0.
  destruct (padded_of_inRange price H) as (sp & Ep & Pp & _).
  destruct (padded_of_inRange frozenSum R9) as (sf & Ef & Pf & _).
  unfold orderColumns.
  cbn [pb.Order_ pb.Price pb.FrozenSum pb.CreatedTS pb.OrderType_
       pb.OrderStatus_ pb.IdentityLevel pb.Duration pb.Netflags
       pb.CreatorIdentityLevel pb.Benchmarks pb.AuthorID pb.CounterpartyID
       pb.Id pb.DealID pb.Blacklist pb.Tag pb.CreatorName pb.CreatorCountry
       pb.CreatorCertificates pb.EthAddress_Hex].
  rewrite Ep, Ef. cbn [bind].
  rewrite <- R0, Nat2Z.id, benchmarkArgs_all. cbn [bind].
  eexists. split; [reflexivity|].
  unfold decodeOrder. rewrite <- R0, Nat2Z.id.
  unfold checkArity.
  replace (List.length _ =? 18 + List.length benchmarks)%nat with true
    by (symmetry; apply Nat.eqb_eq; cbn [app List.length];
        rewrite List.length_map; reflexivity).
  cbn [bind col nth app skipn scanString scanBytes].
  rewrite !toUint64_enum by assumption.
  rewrite (scanUint64_ok createdTS), (scanUint64_enum orderType),
    (scanUint64_enum orderStatus), (scanUint64_ok duration),
    (scanUint64_ok netflags), (scanUint64_enum identityLevel),
    (scanUint64_ok creatorIdentityLevel), (scanAll_benchmarks benchmarks)
    by assumption.
  cbn [bind Wrap]. unfold pb.NewBigIntFromString.
  rewrite Pp, Pf, !ParseBigInt_bigString. cbn [bind Wrap].
  rewrite !toInt32_enum, toInt64_small by assumption.
  reflexivity.
Qed.

Lemma order_row_round_trip_witness :
  exists row,
    orderColumns sample.storage
      (pb.mkDWHOrder
         (pb.mkOrder 6 0 pb.OrderType_ASK pb.OrderStatus_ORDER_ACTIVE
                     (Some sample.bob) (Some pb.zeroAddress) 7200 90 7 1 "" "" 0
                     [9; 9])
         1500000001 2 "bob" "DE" "") = Ok row
    /\ decodeOrder sample.storage row
       = Ok (pb.mkDWHOrder
               (pb.mkOrder 6 0 pb.OrderType_ASK pb.OrderStatus_ORDER_ACTIVE
                           (Some sample.bob) (Some pb.zeroAddress) 7200 90 7 1
                           "" "" 0 [9; 9])
               1500000001 2 "bob" "DE" "").
Proof.
  apply (order_row_round_trip sample.storage). now vm_compute.
Defined.

(** The row [orderColumns] builds is the argument list of the one statement
    [InsertOrder] sends. *)
Lemma InsertOrder_sends (cmds : sqlCommands) (c : sqlStorage)
      (order : pb.DWHOrder) (row : list Value) (conn : queryConn) :
  orderColumns c order = Ok row ->
  fst (InsertOrder cmds c order conn) = [EvExec (insertOrder cmds) row].
Proof.
  intros H. unfold InsertOrder. rewrite H, bindM_lift_Ok. reflexivity.
Qed.

(** X7. A deal written by [InsertDeal] reads back unchanged, together with
    the fields copied from its two orders and the change-request flag: for a
    storable deal the argument list of the insert statement, taken as the
    stored row, is decoded by [decodeDeal] to the deal, the netflags and
    identity level of the ask, the identity level of the bid, the
    certificates of both creators and the flag. *)
Theorem deal_row_round_trip
        (c : sqlStorage) (deal : pb.Deal) (ask bid : pb.DWHOrder) (flag : bool) :
  storableDeal c deal = true ->
  inRange 0 (2 ^ 63) (pb.Netflags (pb.Order_ ask)) = true ->
  inRange 0 (2 ^ 31) (pb.IdentityLevel (pb.Order_ ask)) = true ->
  inRange 0 (2 ^ 31) (pb.IdentityLevel (pb.Order_ bid)) = true ->
  exists row,
    dealColumns c deal ask bid flag = Ok row
    /\ decodeDeal c row
       = Ok (pb.mkDWHDeal deal
               (pb.Netflags (pb.Order_ ask))
               (pb.IdentityLevel (pb.Order_ ask))
               (pb.IdentityLevel (pb.Order_ bid))
               (pb.CreatorCertificates ask) (pb.CreatorCertificates bid) flag).
Proof.
  destruct deal as [id supplierID consumerID masterID askID bidID duration
                      price startTime endTime status blockedBalance
                      totalPayout lastBillTS benchmarks].
  unfold storableDeal. cbn [pb.d_Price pb.d_BlockedBalance pb.d_TotalPayout
    pb.d_Duration pb.d_StartTime pb.d_EndTime pb.d_LastBillTS pb.d_Status
    pb.d_Benchmarks].
  intros H Hn Ha Hb. split_storable H.
  apply Z.eqb_eq in R.
  destruct (padded_of_inRange price H) as (sp & Ep & _ & Sp).
  destruct (padded_of_inRange blockedBalance R7) as (sb & Eb & _ & Sb).
  destruct (padded_of_inRange totalPayout R6) as (st & Et & _ & St).
  unfold dealColumns.
  cbn [pb.d_Price pb.d_BlockedBalance pb.d_TotalPayout pb.d_Duration
       pb.d_StartTime pb.d_EndTime pb.d_LastBillTS pb.d_Status
       pb.d_Benchmarks pb.d_Id pb.d_SupplierID pb.d_ConsumerID pb.d_MasterID
       pb.d_AskID pb.d_BidID].
  rewrite Ep, Eb, Et. cbn [bind].
  rewrite <- R, Nat2Z.id, benchmarkArgs_all. cbn [bind].
  eexists. split; [reflexivity|].
  unfold decodeDeal. rewrite <- R, Nat2Z.id.
  unfold checkArity.
  replace (List.length _ =? 20 + List.length benchmarks)%nat with true
    by (symmetry; apply Nat.eqb_eq; cbn [app List.length];
        rewrite List.length_map; reflexivity).
  cbn [bind col nth app skipn scanString scanBytes scanBool].
  rewrite (scanUint64_ok duration), (scanInt64_ok startTime),
    (scanInt64_ok endTime), (scanUint64_enum status),
    (scanInt64_ok lastBillTS), (scanUint64_ok _ Hn), (scanUint64_enum _ Ha),
    (scanUint64_enum _ Hb), (scanAll_benchmarks benchmarks) by assumption.
  cbn [bind Wrap]. unfold pb.NewBigIntFromString.
  rewrite Sp, Sb, St, !ParseBigInt_bigString. cbn [bind Wrap fst].
  rewrite toInt32_enum by assumption.
  reflexivity.
Qed.

Lemma deal_row_round_trip_witness :
  exists row,
    dealColumns sample.storage sample.deal sample.openAsk sample.openBid true
    = Ok row
    /\ decodeDeal sample.storage row
       = Ok (pb.mkDWHDeal sample.deal 7 1 1 "" "" true).
Proof.
  apply (deal_row_round_trip sample.storage sample.deal sample.openAsk
                             sample.openBid true); now vm_compute.
Defined.

End RowRoundTrip.

(** * Reading the outcome of database code backwards *)

Section Inversion.

Import dwh.

Lemma bindM_Ok_inv {A B : Type} (m : M A) (f : A -> M B) (conn : queryConn)
      (log : list Event) (b : B) :
  bindM m f conn = (log, Ok b) ->
  exists l1 a l2, m conn = (l1, Ok a) /\ f a conn = (l2, Ok b)
                  /\ log = (l1 ++ l2)%list.
Proof.
  unfold bindM. destruct (m conn) as [l1 [a|e|p]]; try discriminate.
  destruct (f a conn) as [l2 r] eqn:E. intros H. injection H as <- ->.
  now exists l1, a, l2.
Qed.

Lemma wrapM_Ok_inv {A : Type} (msg : string) (m : M A) (conn : queryConn)
      (log : list Event) (a : A) :
  wrapM msg m conn = (log, Ok a) -> m conn = (log, Ok a).
Proof.
  unfold wrapM. destruct (m conn) as [l [x|e|p]]; cbn; intros H;
    try discriminate; now injection H as <- <-.
Qed.

Lemma lift_Ok_inv {A : Type} (r : Res A) (conn : queryConn)
      (log : list Event) (a : A) :
  lift r conn = (log, Ok a) -> r = Ok a /\ log = [].
Proof. unfold lift. intros H. injection H as <- ->. now split. Qed.

Lemma Wrap_Ok_inv {A : Type} (msg : string) (r : Res A) (a : A) :
  Wrap msg r = Ok a -> r = Ok a.
Proof. destruct r; cbn; intros H; try discriminate; exact H. Qed.

Lemma internalError_Ok_inv {A : Type} (msg : string) (r : Res A) (a : A) :
  internalError msg r = Ok a -> r = Ok a.
Proof. destruct r; cbn; intros H; try discriminate; exact H. Qed.

Lemma runQuery_Ok_inv columns withCount query args (conn : queryConn)
      (log : list Event) (rows : Rows) (count : Z) :
  runQuery columns withCount query args conn = (log, Ok (rows, count)) ->
  conn_Query conn (strings.Replace1 query "*" columns) args = Ok rows.
Proof.
  unfold runQuery, tryM, Query.
  destruct (conn_Query conn (strings.Replace1 query "*" columns) args)
    as [rows0|e|p]; cbn; try discriminate.
  destruct withCount; cbn.
  - destruct (conn_Query conn (strings.Replace1 query "*" "count(*)")
                         [VSlice args]); cbn; try discriminate.
    intros H. now injection H as _ <- _.
  - intros H. now injection H as _ <- _.
Qed.

(** A decoding loop that returns has decoded every row, in order. *)
Lemma decodeRows_Forall2 {A : Type} (decode : Row -> Res A)
      (onError : Res A -> Res A) :
  (forall r a, onError r = Ok a -> r = Ok a) ->
  forall (l : list Row) (out : list A),
    decodeRows decode onError l = Ok out ->
    Forall2 (fun row x => decode row = Ok x) l out.
Proof.
  intros Hon. induction l as [|row rest IH]; intros out H; cbn [decodeRows] in H.
  - injection H as <-. constructor.
  - destruct (onError (decode row)) as [x|e|p] eqn:E; try discriminate.
    cbn [bind] in H.
    destruct (decodeRows decode onError rest) as [t|e|p]; try discriminate.
    cbn [bind] in H. injection H as <-.
    constructor; [now apply Hon | now apply IH].
Qed.

(** X8. [GetOrders] is all or nothing: when it returns orders, the data
    query was answered, the row iterator reported no error, and the orders
    are the decodings of all the rows of the answer, one per row and in the
    order of the rows; a single row that does not decode makes the call
    fail. *)
Theorem getorders_decodes_every_row
        (c : sqlStorage) (r : pb.OrdersRequest) (conn : queryConn)
        (log : list Event) (orders : list pb.DWHOrder) (count : Z) :
  GetOrders c r conn = (log, Ok (orders, count)) ->
  exists b rows,
    ordersBuilder c r = Ok b
    /\ conn_Query conn
         (strings.Replace1
            (fst (squirrel.ToSql
                    (builderWithOffsetLimit b (pb.r_Limit r) (pb.r_Offset r))))
            "*" (strings.Join (OrderColumns (tablesInfo_ c)) ", "))
         (snd (squirrel.ToSql
                 (builderWithOffsetLimit b (pb.r_Limit r) (pb.r_Offset r))))
       = Ok rows
    /\ rows_err rows = None
    /\ Forall2 (fun row o => decodeOrder c row = Ok o) (rows_data rows) orders.
Proof.
  unfold GetOrders. intros H.
  apply bindM_Ok_inv in H as (l1 & b & l2 & Hb & H & _).
  apply lift_Ok_inv in Hb as [Hb _].
  exists b. rewrite Hb.
  destruct (squirrel.ToSql
              (builderWithOffsetLimit b (pb.r_Limit r) (pb.r_Offset r)))
    as [query args]. cbn [fst snd].
  apply bindM_Ok_inv in H as (l3 & [rows cnt] & l4 & Hq & H & _).
  apply wrapM_Ok_inv, runQuery_Ok_inv in Hq.
  exists rows. split; [reflexivity|]. split; [exact Hq|].
  apply bindM_Ok_inv in H as (l5 & out & l6 & Hd & H & _).
  apply lift_Ok_inv in Hd as [Hd _].
  apply bindM_Ok_inv in H as (l7 & u & l8 & He & H & _).
  apply lift_Ok_inv in He as [He _]. apply Wrap_Ok_inv in He.
  unfold ret in H. injection H as _ <- _.
  split.
  - unfold rowsErr in He. destruct (rows_err rows); [discriminate | reflexivity].
  - apply (decodeRows_Forall2 _ _ (Wrap_Ok_inv "failed to decodeOrder") _ _ Hd).
Qed.

Lemma getorders_decodes_every_row_witness :
  exists b rows,
    ordersBuilder sample.storage sample_more.plainRequest = Ok b
    /\ conn_Query sample_more.oneOrderConn
         (strings.Replace1
            (fst (squirrel.ToSql (builderWithOffsetLimit b 0 0)))
            "*" (strings.Join (OrderColumns (tablesInfo_ sample.storage)) ", "))
         (snd (squirrel.ToSql (builderWithOffsetLimit b 0 0)))
       = Ok rows
    /\ rows_err rows = None
    /\ Forall2 (fun row o => decodeOrder sample.storage row = Ok o)
               (rows_data rows) [sample_more.storedBid].
Proof.
  eapply (getorders_decodes_every_row sample.storage sample_more.plainRequest
            sample_more.oneOrderConn).
  vm_compute. reflexivity.
Defined.

End Inversion.

(** * [InsertDeal] and its lookups *)

Section InsertDealLookups.

Import dwh.

(** [GetOrderByID] sends one query and nothing else. *)
Lemma GetOrderByID_log (c : sqlStorage) (id : Z) (conn : queryConn) :
  existsb isExec (fst (GetOrderByID c id conn)) = false.
Proof.
  unfold GetOrderByID.
  destruct (squirrel.ToSql _) as [query args].
  unfold bindM, wrapM, Query, lift.
  destruct (conn_Query conn query args) as [rows|e|p]; cbn; try reflexivity.
  destruct (rows_data rows); reflexivity.
Qed.

Lemma existsb_isExec_app (l1 l2 : list Event) :
  existsb isExec (l1 ++ l2) = existsb isExec l1 || existsb isExec l2.
Proof. apply existsb_app. Qed.

Lemma bindM_Err {A B : Type} (m : M A) (f : A -> M B) (conn : queryConn)
      (log : list Event) (e : string) :
  m conn = (log, Err e) -> bindM m f conn = (log, Err e).
Proof. intros H. unfold bindM. now rewrite H. Qed.

Lemma bindM_Panic {A B : Type} (m : M A) (f : A -> M B) (conn : queryConn)
      (log : list Event) (p : string) :
  m conn = (log, Panic p) -> bindM m f conn = (log, Panic p).
Proof. intros H. unfold bindM. now rewrite H. Qed.

Lemma wrapM_Err {A : Type} (msg : string) (m : M A) (conn : queryConn)
      (log : list Event) (e : string) :
  m conn = (log, Err e) -> wrapM msg m conn = (log, Err (msg ++ ": " ++ e)).
Proof. intros H. unfold wrapM. now rewrite H. Qed.

Lemma wrapM_Panic {A : Type} (msg : string) (m : M A) (conn : queryConn)
      (log : list Event) (p : string) :
  m conn = (log, Panic p) -> wrapM msg m conn = (log, Panic p).
Proof. intros H. unfold wrapM. now rewrite H. Qed.

(** X9. No deal is written without its two orders: when the lookup of the
    ask or of the bid does not return an order, [InsertDeal] does not return
    normally and sends no statement that modifies the store. *)
Theorem insert_deal_requires_both_orders
        (c : sqlStorage) (deal : pb.Deal) (conn : queryConn) :
  is_ok (snd (GetOrderByID c (pb.d_AskID deal) conn)) = false
  \/ is_ok (snd (GetOrderByID c (pb.d_BidID deal) conn)) = false ->
  is_ok (snd (InsertDeal c deal conn)) = false
  /\ existsb isExec (fst (InsertDeal c deal conn)) = false.
Proof.
  intros H. unfold InsertDeal.
  pose proof (GetOrderByID_log c (pb.d_AskID deal) conn) as La.
  pose proof (GetOrderByID_log c (pb.d_BidID deal) conn) as Lb.
  destruct (GetOrderByID c (pb.d_AskID deal) conn) as [l1 [ask|e|p]] eqn:Ea;
    cbn [fst snd is_ok] in *.
  - destruct H as [H|H]; [discriminate|].
    rewrite (bindM_Ok _ _ conn l1 ask (wrapM_Ok _ _ conn l1 ask Ea)).
    destruct (GetOrderByID c (pb.d_BidID deal) conn) as [l2 [bid|e|p]] eqn:Eb;
      cbn [fst snd is_ok] in *; [discriminate| |].
    + rewrite (bindM_Err _ _ conn l2 _ (wrapM_Err _ _ conn l2 e Eb)).
      cbn [fst snd is_ok]. now rewrite existsb_isExec_app, La, Lb.
    + rewrite (bindM_Panic _ _ conn l2 _ (wrapM_Panic _ _ conn l2 p Eb)).
      cbn [fst snd is_ok]. now rewrite existsb_isExec_app, La, Lb.
  - rewrite (bindM_Err _ _ conn l1 _ (wrapM_Err _ _ conn l1 e Ea)).
    now split.
  - rewrite (bindM_Panic _ _ conn l1 _ (wrapM_Panic _ _ conn l1 p Ea)).
    now split.
Qed.

Lemma insert_deal_requires_both_orders_witness :
  is_ok (snd (InsertDeal sample.storage sample.deal sample_more.noOrderConn))
  = false
  /\ existsb isExec
       (fst (InsertDeal sample.storage sample.deal sample_more.noOrderConn))
     = false.
Proof.
  apply (insert_deal_requires_both_orders sample.storage sample.deal
                                          sample_more.noOrderConn).
  left. now vm_compute.
Defined.

(** X10. A failed lookup of the change requests is swallowed: when the two
    orders are found and the lookup returns an error, [InsertDeal] still
    sends the insert statement, with [false] in the ActiveChangeRequest
    position, and its outcome is that of the insert alone. *)
Theorem insert_deal_ignores_lookup_error
        (c : sqlStorage) (deal : pb.Deal) (conn : queryConn)
        (ask bid : pb.DWHOrder) (e : string)
        (l1 l2 l3 : list Event) (cols : list Value) :
  GetOrderByID c (pb.d_AskID deal) conn = (l1, Ok ask) ->
  GetOrderByID c (pb.d_BidID deal) conn = (l2, Ok bid) ->
  GetDealChangeRequestsByID c (pb.d_Id deal) conn = (l3, Err e) ->
  dealColumns c deal ask bid false = Ok cols ->
  InsertDeal c deal conn
  = ((l1 ++ l2 ++ l3 ++ [EvExec (insertDeal c) cols])%list,
     match conn_Exec conn (insertDeal c) cols with
     | None => Ok tt
     | Some err => Err err
     end)
  /\ nth_error cols 19 = Some (VBool false).
Proof.
  intros Ha Hb Hc Hcols. split; [|exact (dealColumns_flag _ _ _ _ _ _ Hcols)].
  unfold InsertDeal.
  rewrite (bindM_Ok _ _ conn l1 ask (wrapM_Ok _ _ conn l1 ask Ha)).
  rewrite (bindM_Ok _ _ conn l2 bid (wrapM_Ok _ _ conn l2 bid Hb)).
  unfold tryM. rewrite Hc. cbn [is_ok].
  rewrite (bindM_Ok _ _ conn [] cols) by (unfold lift; now rewrite Hcols).
  unfold Exec. cbn [fst snd app]. reflexivity.
Qed.

Lemma insert_deal_ignores_lookup_error_witness :
  exists l cols r,
    InsertDeal sample.storage sample.deal sample_more.brokenRequestsConn
    = ((l ++ [EvExec (insertDeal sample.storage) cols])%list, r)
    /\ nth_error cols 19 = Some (VBool false).
Proof.
  edestruct (insert_deal_ignores_lookup_error
               sample.storage sample.deal sample_more.brokenRequestsConn)
    as [H1 H2].
  - vm_compute. reflexivity.
  - vm_compute. reflexivity.
  - vm_compute. reflexivity.
  - vm_compute. reflexivity.
  - eexists. eexists. eexists. split; [|exact H2].
    rewrite H1. rewrite !app_assoc. reflexivity.
Defined.

End InsertDealLookups.

(** * Deal conditions *)

Section DealConditions.

Import dwh dwh_more squirrel.

Lemma dealConditionsBuilder_sorted (c : sqlStorage) id s lim off wc :
  s <> [] ->
  dealConditionsBuilder c (mkDealConditionsRequest id s lim off wc)
  = builderWithOffsetLimit
      (Where (From (Select (builder c) ["*"]) "DealConditions")
             "DealID = ?" [VStr (util.bigString id)]) lim off.
Proof.
  intros H. unfold dealConditionsBuilder. cbn [dcr_Sortings dcr_DealID dcr_Limit dcr_Offset].
  destruct s; [contradiction | reflexivity].
Qed.

(** X11. [GetDealConditions] never applies the sort options of the request:
    without options the history is sorted by [Id Desc]; with options, any
    options, the statement has no ORDER BY at all, so two requests that
    differ only in their non-empty sort options send the same statements
    and get the same result. *)
Theorem deal_conditions_ignore_requested_sortings
        (c : sqlStorage) (id lim off : Z) (wc : bool)
        (s1 s2 : list pb.SortingOption) (conn : queryConn) :
  s1 <> [] -> s2 <> [] ->
  sb_OrderBys (dealConditionsBuilder c (mkDealConditionsRequest id [] lim off wc))
  = ["Id Desc"]
  /\ sb_OrderBys (dealConditionsBuilder c (mkDealConditionsRequest id s1 lim off wc))
     = []
  /\ GetDealConditions c (mkDealConditionsRequest id s1 lim off wc) conn
     = GetDealConditions c (mkDealConditionsRequest id s2 lim off wc) conn.
Proof.
  intros H1 H2. split; [|split].
  - unfold dealConditionsBuilder. cbn [dcr_Sortings List.length Nat.eqb].
    now rewrite orderBys_builderWithOffsetLimit.
  - rewrite (dealConditionsBuilder_sorted c id s1 lim off wc H1).
    now rewrite orderBys_builderWithOffsetLimit.
  - unfold GetDealConditions.
    rewrite (dealConditionsBuilder_sorted c id s1 lim off wc H1),
      (dealConditionsBuilder_sorted c id s2 lim off wc H2).
    reflexivity.
Qed.

Lemma deal_conditions_ignore_requested_sortings_witness :
  sb_OrderBys (dealConditionsBuilder sample.storage
                 (mkDealConditionsRequest 11 [] 10 0 false)) = ["Id Desc"]
  /\ sb_OrderBys (dealConditionsBuilder sample.storage
                    (mkDealConditionsRequest 11
                       [pb.mkSortingOption "Price" pb.SortingOrder_Asc] 10 0 false))
     = []
  /\ GetDealConditions sample.storage
       (mkDealConditionsRequest 11
          [pb.mkSortingOption "Price" pb.SortingOrder_Asc] 10 0 false)
       sample.emptyConn
     = GetDealConditions sample.storage
         (mkDealConditionsRequest 11
            [pb.mkSortingOption "StartTime" pb.SortingOrder_Desc] 10 0 false)
         sample.emptyConn.
Proof.
  apply (deal_conditions_ignore_requested_sortings sample.storage 11 10 0 false);
    discriminate.
Defined.

End DealConditions.

(** * Columns of the schema and arity of the codecs *)

Section SchemaArity.

Import dwh dwh_more sqlscan.

Lemma benchmarkArgs_length (n : nat) :
  forall values out, benchmarkArgs values n = Ok out -> List.length out = n.
Proof.
  induction n as [|n IH]; intros values out H.
  - destruct values; cbn [benchmarkArgs] in H; now injection H as <-.
  - destruct values as [|v rest]; cbn [benchmarkArgs] in H; [discriminate|].
    destruct (benchmarkArgs rest n) as [t|e|p] eqn:E; try discriminate.
    cbn [bind] in H. injection H as <-. cbn [List.length].
    now rewrite (IH rest t E).
Qed.

Lemma benchmarkColumns_length (n : Z) :
  List.length (benchmarkColumns n) = Z.to_nat n.
Proof. unfold benchmarkColumns. now rewrite List.length_map, List.length_seq. Qed.

Lemma decodeOrder_arity (c : sqlStorage) (row : Row) (o : pb.DWHOrder) :
  decodeOrder c row = Ok o ->
  List.length row = (18 + Z.to_nat (numBenchmarks c))%nat.
Proof.
  unfold decodeOrder, checkArity.
  destruct (List.length row =? 18 + Z.to_nat (numBenchmarks c))%nat eqn:E.
  - intros _. now apply Nat.eqb_eq.
  - cbn [bind Wrap]. discriminate.
Qed.

Lemma decodeDeal_arity (c : sqlStorage) (row : Row) (d : pb.DWHDeal) :
  decodeDeal c row = Ok d ->
  List.length row = (20 + Z.to_nat (numBenchmarks c))%nat.
Proof.
  unfold decodeDeal, checkArity.
  destruct (List.length row =? 20 + Z.to_nat (numBenchmarks c))%nat eqn:E.
  - intros _. now apply Nat.eqb_eq.
  - cbn [bind Wrap]. discriminate.
Qed.

Lemma orderColumns_length (c : sqlStorage) (order : pb.DWHOrder) (cols : list Value) :
  orderColumns c order = Ok cols ->
  List.length cols = (18 + Z.to_nat (numBenchmarks c))%nat.
Proof.
  unfold orderColumns.
  destruct (pb.BigInt_PaddedString (pb.Price (pb.Order_ order))); try discriminate.
  destruct (pb.BigInt_PaddedString (pb.FrozenSum (pb.Order_ order)));
    try discriminate.
  cbn [bind]. cbv zeta.
  destruct (benchmarkArgs _ _) as [t|e|p] eqn:E; try discriminate.
  cbn [bind]. intros H. injection H as <-.
  cbn [app List.length]. rewrite (benchmarkArgs_length _ _ _ E). reflexivity.
Qed.

Lemma dealColumns_length (c : sqlStorage) (deal : pb.Deal) (ask bid : pb.DWHOrder)
      (flag : bool) (cols : list Value) :
  dealColumns c deal ask bid flag = Ok cols ->
  List.length cols = (20 + Z.to_nat (numBenchmarks c))%nat.
Proof.
  unfold dealColumns.
  destruct (pb.BigInt_PaddedString (pb.d_Price deal)); try discriminate.
  destruct (pb.BigInt_PaddedString (pb.d_BlockedBalance deal)); try discriminate.
  destruct (pb.BigInt_PaddedString (pb.d_TotalPayout deal)); try discriminate.
  cbn [bind]. cbv zeta.
  destruct (benchmarkArgs _ _) as [t|e|p] eqn:E; try discriminate.
  cbn [bind]. intros H. injection H as <-.
  cbn [app List.length]. rewrite (benchmarkArgs_length _ _ _ E). reflexivity.
Qed.

(** X12. Columns, insert arguments and decoders agree on the width of a
    row: in a storage whose column lists come from [newTablesInfo] for its
    number of benchmarks, [InsertOrder] and [InsertDeal] pass exactly as
    many arguments as the Orders resp. Deals column list has names, and
    [decodeOrder] and [decodeDeal] accept only rows of that many columns. *)
Theorem row_width_agrees_with_columns
        (c : sqlStorage) (order : pb.DWHOrder) (deal : pb.Deal)
        (ask bid : pb.DWHOrder) (flag : bool) (row : Row) :
  tablesInfo_ c = newTablesInfo (numBenchmarks c) ->
  (forall cols, orderColumns c order = Ok cols ->
                List.length cols = List.length (OrderColumns (tablesInfo_ c)))
  /\ (forall cols, dealColumns c deal ask bid flag = Ok cols ->
                   List.length cols = List.length (DealColumns (tablesInfo_ c)))
  /\ (forall o, decodeOrder c row = Ok o ->
                List.length row = List.length (OrderColumns (tablesInfo_ c)))
  /\ (forall d, decodeDeal c row = Ok d ->
                List.length row = List.length (DealColumns (tablesInfo_ c))).
Proof.
  intros ->. unfold newTablesInfo. cbn [OrderColumns DealColumns].
  rewrite !List.length_app, !benchmarkColumns_length. cbn [List.length].
  repeat split.
  - intros cols H. exact (orderColumns_length c order cols H).
  - intros cols H. exact (dealColumns_length c deal ask bid flag cols H).
  - intros o H. exact (decodeOrder_arity c row o H).
  - intros d H. exact (decodeDeal_arity c row d H).
Qed.

Lemma row_width_agrees_with_columns_witness :
  List.length (sample.orderRow 5 pb.OrderType_BID sample.alice (sample.padded 100))
  = List.length (OrderColumns (tablesInfo_ sample.storage)).
Proof.
  apply (proj1 (proj2 (proj2
    (row_width_agrees_with_columns sample.storage sample.openBid sample.deal
       sample.openAsk sample.openBid true
       (sample.orderRow 5 pb.OrderType_BID sample.alice (sample.padded 100))
       eq_refl))) sample_more.storedBid).
  now vm_compute.
Defined.

End SchemaArity.

(** * Endpoints and files *)

Section Endpoints.

Import util_more.

(** X13. [ParseEndpointPort] returns a port only if the splitter found one
    and its decimal value lies between 1 and 65535; the port is returned as
    the text the splitter cut out, sign or leading zeros included. *)
Theorem endpoint_port_is_in_range
        (SplitHostPort : string -> Res (string * string)) (s port : string) :
  ParseEndpointPort SplitHostPort s = Ok port ->
  exists host n,
    SplitHostPort s = Ok (host, port)
    /\ Atoi port = Ok n /\ 1 <= n <= 65535.
Proof.
  unfold ParseEndpointPort.
  destruct (SplitHostPort s) as [[host p]|e|pn]; cbn [bind snd]; try discriminate.
  destruct (Atoi p) as [n|e|pn] eqn:E; cbn [bind]; try discriminate.
  destruct ((n <? 1) || (n >? 65535)) eqn:R; [discriminate|].
  intros H. injection H as <-.
  apply orb_false_iff in R as [R1 R2].
  apply Z.ltb_ge in R1. rewrite Z.gtb_ltb in R2. apply Z.ltb_ge in R2.
  exists host, n. repeat split; assumption.
Qed.

Lemma endpoint_port_is_in_range_witness :
  exists host n,
    simpleSplitHostPort "127.0.0.1:08080" = Ok (host, "08080")
    /\ Atoi "08080" = Ok n /\ 1 <= n <= 65535.
Proof.
  apply (endpoint_port_is_in_range simpleSplitHostPort "127.0.0.1:08080").
  now vm_compute.
Defined.

(** X14. A path is never reported both as a file and as a directory, a
    missing path is neither, and when [os.Stat] fails for another reason
    [DirectoryExists] answers false while [FileExists] does not answer at
    all: it panics. *)
Theorem file_and_directory_exclusive (Stat : string -> StatResult) (p : string) :
  (FileExists Stat p = Ok true -> DirectoryExists Stat p = false)
  /\ (DirectoryExists Stat p = true -> FileExists Stat p = Ok false)
  /\ (Stat p = StatNotExist ->
      FileExists Stat p = Ok false /\ DirectoryExists Stat p = false)
  /\ (forall msg, Stat p = StatError msg ->
      is_ok (FileExists Stat p) = false /\ is_err (FileExists Stat p) = false
      /\ DirectoryExists Stat p = false).
Proof.
  unfold FileExists, DirectoryExists.
  destruct (Stat p) as [[|]| |m]; repeat split; intros; try discriminate;
    reflexivity.
Qed.

Lemma file_and_directory_exclusive_witness :
  is_ok (FileExists (fun _ => StatError "permission denied") "/root/key") = false
  /\ is_err (FileExists (fun _ => StatError "permission denied") "/root/key") = false
  /\ DirectoryExists (fun _ => StatError "permission denied") "/root/key" = false.
Proof.
  apply (proj2 (proj2 (proj2
    (file_and_directory_exclusive (fun _ => StatError "permission denied")
                                  "/root/key"))) "permission denied").
  reflexivity.
Defined.

End Endpoints.

(** * Configuration tags *)

Section SnakeCase.

Import config.

Lemma IsUpper_range (c : ascii) :
  IsUpper c = true -> (65 <= N_of_ascii c <= 90)%N.
Proof.
  unfold IsUpper. intros H. apply andb_true_iff in H as [H1 H2].
  apply N.leb_le in H1, H2. lia.
Qed.

Lemma ToLower_not_upper (c : ascii) : IsUpper (ToLower c) = false.
Proof.
  unfold ToLower. destruct (IsUpper c) eqn:E; [|exact E].
  apply IsUpper_range in E. unfold IsUpper.
  rewrite N_ascii_embedding by lia.
  apply andb_false_iff. right. apply N.leb_gt. lia.
Qed.

Lemma snakeFrom_noUpper (src : string) :
  forall i, noUpper (snakeFrom i src) = true.
Proof.
  induction src as [|r rest IH]; intros i; [reflexivity|].
  cbn [snakeFrom]. destruct (IsUpper r) eqn:E.
  - destruct (0 <? i)%nat; cbn [noUpper];
      rewrite ?ToLower_not_upper, IH; reflexivity.
  - cbn [noUpper]. now rewrite E, IH.
Qed.

Lemma snakeFrom_fixed (src : string) :
  forall i, noUpper src = true -> snakeFrom i src = src.
Proof.
  induction src as [|r rest IH]; intros i H; [reflexivity|].
  cbn [noUpper] in H. apply andb_true_iff in H as [Hr Hrest].
  apply negb_true_iff in Hr. cbn [snakeFrom]. now rewrite Hr, IH.
Qed.

Lemma snakeFrom_length (src : string) :
  forall i, String.length (snakeFrom (S i) src)
            = (String.length src + countUpper src)%nat.
Proof.
  induction src as [|r rest IH]; intros i; [reflexivity|].
  cbn [snakeFrom countUpper]. change (0 <? S i)%nat with true. cbv iota.
  destruct (IsUpper r); cbn [String.length]; rewrite IH; lia.
Qed.

(** X15. For an ASCII name, [camelCaseToSnakeCase] yields a text without
    capital letters that the function maps to itself; a name without
    capitals is returned unchanged; and every capital after the first
    character costs exactly one underscore, consecutive capitals included:
    the result is longer than the name by the number of those capitals. *)
Theorem snake_case_is_lower_and_stable (src : string) :
  isASCII src = true ->
  noUpper (camelCaseToSnakeCase src) = true
  /\ camelCaseToSnakeCase (camelCaseToSnakeCase src) = camelCaseToSnakeCase src
  /\ (noUpper src = true -> camelCaseToSnakeCase src = src)
  /\ String.length (camelCaseToSnakeCase src)
     = (String.length src
        + countUpper (match src with String _ rest => rest | _ => "" end))%nat.
Proof.
  intros _. unfold camelCaseToSnakeCase.
  pose proof (snakeFrom_noUpper src 0) as N.
  repeat split.
  - exact N.
  - now apply snakeFrom_fixed.
  - apply snakeFrom_fixed.
  - destruct src as [|r rest]; [reflexivity|].
    cbn [snakeFrom]. change (0 <? 0)%nat with false. cbv iota.
    destruct (IsUpper r); cbn [String.length]; now rewrite snakeFrom_length.
Qed.

Lemma snake_case_is_lower_and_stable_witness :
  noUpper (camelCaseToSnakeCase "SupplierID") = true
  /\ camelCaseToSnakeCase (camelCaseToSnakeCase "SupplierID")
     = camelCaseToSnakeCase "SupplierID"
  /\ String.length (camelCaseToSnakeCase "SupplierID") = 12%nat.
Proof.
  destruct (snake_case_is_lower_and_stable "SupplierID" eq_refl)
    as (H1 & H2 & _ & H4).
  split; [exact H1|]. split; [exact H2 | exact H4].
Defined.

End SnakeCase.

(** * More on the matching engine *)

Section MatchingMore.

Import dwh squirrel sqlsem.

(** X16. The engine treats every reference order that is not a bid as an
    ask: for type ASK, but also for type ANY or an unknown type value, it
    looks for bids priced at or above the reference price, whose flags the
    reference flags cover, best (highest) price first.  [invertOrderType]
    agrees with that choice of target only for asks: on any other non-bid
    type it answers ASK.  Once the reference order has been looked up, the
    statement described is the one [GetMatchingOrders] sends. *)
Theorem matching_orders_non_bid_reference
        (c : sqlStorage) (order : pb.DWHOrder) :
  let o := pb.Order_ order in
  len (util.bigString (pb.Price o)) <= util.FormattedBigIntLength ->
  pb.OrderType_ o <> pb.OrderType_BID ->
  exists b price,
    matchingBuilder c order = Ok b
    /\ util.BigIntToPaddedString (pb.Price o) = Ok price
    /\ In (Expr "Type = ?" [VInt pb.OrderType_BID]) (sb_WhereParts b)
    /\ In (Expr "Price >= ?" [VStr price]) (sb_WhereParts b)
    /\ In (Expr "? | ~Netflags = -1" [VInt (pb.Netflags o)]) (sb_WhereParts b)
    /\ sb_OrderBys b = ["Price Desc"]
    /\ (node.invertOrderType (pb.OrderType_ o) = pb.OrderType_BID
        <-> pb.OrderType_ o = pb.OrderType_ASK)
    /\ (forall r conn log0,
          GetOrderByID c (pb.m_Id r) conn = (log0, Ok order) ->
          exists rest,
            fst (GetMatchingOrders c r conn)
            = (log0
               ++ EvQuery
                    (strings.Replace1
                       (fst (ToSql (builderWithOffsetLimit
                                      b (pb.m_Limit r) (pb.m_Offset r))))
                       "*" (strings.Join (OrderColumns (tablesInfo_ c)) ", "))
                    (snd (ToSql (builderWithOffsetLimit
                                   b (pb.m_Limit r) (pb.m_Offset r))))
               :: rest)%list).
Proof.
  intros o Hl Hnb.
  pose proof (BigIntToPaddedString_fits _ Hl) as Hp.
  match type of Hp with _ = Ok ?s => set (price := s) in * end.
  destruct (matchingBuilder_shape c order price Hp)
    as (b & flags & extra & Hb & Hparts & Hflags & _ & Hsort).
  fold o in Hparts, Hflags, Hsort.
  assert (E : (pb.OrderType_ o =? pb.OrderType_BID) = false)
    by (now apply Z.eqb_neq).
  rewrite E in Hparts, Hflags, Hsort.
  exists b, price. split; [exact Hb|]. split; [exact Hp|].
  split; [rewrite Hparts; cbn; tauto|].
  split; [rewrite Hparts; cbn; tauto|].
  split.
  { rewrite Hparts, Hflags. apply in_or_app. right. apply in_or_app. right.
    apply in_or_app. left. cbn. tauto. }
  split; [exact Hsort|].
  split.
  { unfold node.invertOrderType.
    destruct (Z.eqb_spec (pb.OrderType_ o) pb.OrderType_ASK) as [A|A].
    - split; [intros _; exact A | reflexivity].
    - split; [discriminate | intros A'; contradiction]. }
  intros r conn log0 HO.
  exact (GetMatchingOrders_sends c r conn log0 order b HO Hb).
Qed.

Lemma matching_orders_non_bid_reference_witness :
  exists b price,
    matchingBuilder sample.storage sample_more.untypedOrder = Ok b
    /\ util.BigIntToPaddedString 100 = Ok price
    /\ In (Expr "Type = ?" [VInt pb.OrderType_BID]) (sb_WhereParts b)
    /\ sb_OrderBys b = ["Price Desc"]
    /\ node.invertOrderType pb.OrderType_ANY = pb.OrderType_ASK.
Proof.
  destruct (matching_orders_non_bid_reference sample.storage
                                              sample_more.untypedOrder)
    as (b & price & Hb & Hp & Ht & _ & _ & Hs & _).
  - now vm_compute.
  - discriminate.
  - exists b, price. repeat split; assumption.
Defined.

End MatchingMore.

(** * The blacklist sub-select of [GetProfiles] *)

Section ProfilesBlacklist.

Import squirrel dwh profiles.

Lemma dollars_plain (c : ascii) (r : string) (i : Z) :
  Ascii.eqb c "?" = false ->
  dollars (String c r) i = String c (dollars r i).
Proof.
  destruct c as [[] [] [] [] [] [] [] []]; intros H;
    try reflexivity; discriminate H.
Qed.

Lemma dollars_single (c : ascii) (r : string) (i : Z) :
  Ascii.eqb c "?" = false ->
  dollars (String "?" (String c r)) i
  = "$" ++ util.bigString i ++ dollars (String c r) (i + 1).
Proof.
  destruct c as [[] [] [] [] [] [] [] []]; intros H;
    try reflexivity; discriminate H.
Qed.

(** A text without question marks passes through the numbering unchanged. *)
Lemma dollars_noQuestion (t suf : string) (i : Z) :
  noQuestion t = true -> dollars (t ++ suf) i = t ++ dollars suf i.
Proof.
  induction t as [|c t IH]; intros H; [reflexivity|].
  cbn [noQuestion] in H. apply andb_prop in H as [Hc Ht].
  apply negb_true_iff in Hc.
  cbn [append]. rewrite (dollars_plain _ _ _ Hc), (IH Ht). reflexivity.
Qed.

(** Whatever stands before a character that is no question mark, the
    numbering resumes at that character. *)
Lemma dollars_resume (c : ascii) (s : string) :
  Ascii.eqb c "?" = false ->
  forall (n : nat) (pre : string) (i : Z),
    (String.length pre <= n)%nat ->
    exists pre' j,
      dollars (pre ++ String c s) i = pre' ++ dollars (String c s) j.
Proof.
  intros Hc. induction n as [n IH] using lt_wf_ind. intros pre i Hn.
  destruct pre as [|a p].
  - exists "", i. reflexivity.
  - destruct (Ascii.eqb a "?") eqn:Ha.
    + apply Ascii.eqb_eq in Ha. subst a.
      destruct p as [|b p'].
      * cbn [append]. rewrite (dollars_single _ _ _ Hc).
        exists ("$" ++ util.bigString i), (i + 1).
        now rewrite string_app_assoc.
      * destruct (Ascii.eqb b "?") eqn:Hb.
        -- apply Ascii.eqb_eq in Hb. subst b.
           cbn [String.length] in Hn.
           destruct (IH (String.length p') ltac:(lia) p' i (Nat.le_refl _))
             as (pre' & j & E).
           exists (String "?" pre'), j.
           cbn [append dollars]. rewrite E. reflexivity.
        -- cbn [String.length] in Hn.
           destruct (IH (S (String.length p')) ltac:(lia) (String b p') (i + 1)
                        (Nat.le_refl _)) as (pre' & j & E).
           exists ("$" ++ util.bigString i ++ pre'), j.
           change (String "?" (String b p') ++ String c s)
             with (String "?" (String b (p' ++ String c s))).
           rewrite (dollars_single _ _ _ Hb).
           change (String b (p' ++ String c s)) with (String b p' ++ String c s).
           rewrite E, !string_app_assoc. reflexivity.
    + cbn [String.length] in Hn.
      destruct (IH (String.length p) ltac:(lia) p i (Nat.le_refl _))
        as (pre' & j & E).
      exists (String a pre'), j.
      cbn [append]. rewrite (dollars_plain _ _ _ Ha), E. reflexivity.
Qed.

(** A non-empty text without question marks is found again, verbatim, in the
    numbered statement. *)
Lemma dollars_keeps (t : string) :
  noQuestion t = true -> t <> "" ->
  forall (pre suf : string) (i : Z),
    exists pre' suf', dollars (pre ++ t ++ suf) i = pre' ++ t ++ suf'.
Proof.
  intros Ht Hne pre suf i.
  destruct t as [|c t']; [congruence|].
  pose proof Ht as Ht0. cbn [noQuestion] in Ht0.
  apply andb_prop in Ht0 as [Hc _]. apply negb_true_iff in Hc.
  change (String c t' ++ suf) with (String c (t' ++ suf)).
  destruct (dollars_resume c (t' ++ suf) Hc _ pre i (Nat.le_refl _))
    as (pre' & j & E).
  rewrite E.
  change (String c (t' ++ suf)) with (String c t' ++ suf).
  rewrite (dollars_noQuestion _ _ _ Ht).
  now exists pre', (dollars suf j).
Qed.

(** The text of the last WHERE part stands verbatim in the statement before
    the numbering. *)
Lemma rawSql_last_part (b : SelectBuilder) (init : list Sqlizer) (t : string)
      (args : list Value) :
  sb_WhereParts b = (init ++ [Expr t args])%list ->
  exists pre suf, rawSql b = pre ++ t ++ suf.
Proof.
  intros H. unfold rawSql. rewrite H.
  destruct (init ++ [Expr t args])%list as [|p0 l0] eqn:E.
  { now destruct init. }
  rewrite <- E. unfold strings.Join.
  rewrite map_app. cbn [map partSql].
  rewrite <- join_snoc.
  match goal with
  | |- exists pre suf, ?a ++ ?j ++ ?f ++ (?w ++ ?c ++ t) ++ ?rest = _ =>
      exists (a ++ j ++ f ++ w ++ c), rest
  end.
  now rewrite !string_app_assoc.
Qed.

Lemma ownerQuery_Dollar (c : sqlStorage) (q : BlacklistQuery) :
  builder c = Dollar ->
  ownerQuery c q
  = "SELECT AddeeID FROM Blacklists WHERE AdderID = $1 AND AddeeID = p.UserID".
Proof. intros H. unfold ownerQuery. rewrite H. reflexivity. Qed.

(** X17. On a Postgres storage, a profile request that filters on the
    blacklist of a non-zero owner gives a statement that holds the sub-select
    with its own [$1] verbatim, while the argument list starts with the
    identity level and carries the owner's address last: the [$1] of the
    sub-select is the placeholder of the identity level, and the owner's
    address has no placeholder of its own. *)
Theorem profiles_blacklist_shares_first_placeholder
        (c : sqlStorage) (r : ProfilesRequest) (q : BlacklistQuery)
        (owner : pb.Address) :
  builder c = Dollar ->
  pr_BlacklistQuery r = Some q ->
  bq_OwnerID q = Some owner ->
  pb.EthAddress_IsZero (Some owner) = false ->
  bq_Option q <> BlacklistOption_IncludeAndMark ->
  exists kw pre suf args0,
    (kw = "NOT IN" \/ kw = "IN") /\
    fst (profilesStatement c r) = pre ++ blacklistPart kw ++ suf /\
    snd (profilesStatement c r)
    = (VInt (pr_IdentityLevel r) :: args0
       ++ [VStr (pb.EthAddress_Hex (Some owner))])%list.
Proof.
  intros HD Hq Ho Hz Hopt.
  assert (P : exists kw init args0,
             (kw = "NOT IN" \/ kw = "IN") /\
             sb_WhereParts (profilesBuilder c r)
             = (init ++ [Expr (blacklistPart kw) []])%list /\
             flat_map partArgs init = VInt (pr_IdentityLevel r) :: args0).
  { unfold profilesBuilder. rewrite Hq, Ho, Hz. cbn [negb].
    rewrite (ownerQuery_Dollar c q HD).
    destruct (bq_Option q) eqn:EO;
      [exists "NOT IN" | exists "IN" | congruence];
      destruct (pr_Role r), (0 <? String.length (pr_Country r))%nat,
               (0 <? String.length (pr_Name r))%nat;
      cbv zeta;
      match goal with
      | |- context [sb_WhereParts (Where ?B _ _)] => exists (sb_WhereParts B)
      end;
      eexists; (split; [tauto|]); (split; [reflexivity|]);
      cbn [sb_WhereParts Where WherePart From Select flat_map partArgs app];
      reflexivity. }
  destruct P as (kw & init & args0 & Hkw & Hparts & Hargs).
  set (b := builderWithOffsetLimit
              (builderWithSortings (profilesBuilder c r) (pr_Sortings r))
              (pr_Limit r) (pr_Offset r)).
  assert (Hb : sb_WhereParts b = (init ++ [Expr (blacklistPart kw) []])%list).
  { unfold b. now rewrite parts_builderWithOffsetLimit, parts_builderWithSortings. }
  assert (HP : sb_Placeholder b = Dollar).
  { unfold b, builderWithOffsetLimit, profilesBuilder.
    rewrite Hq, Ho, Hz. cbn [negb].
    destruct (pr_Limit r >? 0), (pr_Offset r >? 0), (pr_Role r),
             (0 <? String.length (pr_Country r))%nat,
             (0 <? String.length (pr_Name r))%nat, (bq_Option q);
      exact HD. }
  destruct (rawSql_last_part b init _ _ Hb) as (pre & suf & Hraw).
  assert (Hnq : noQuestion (blacklistPart kw) = true)
    by (destruct Hkw as [-> | ->]; reflexivity).
  assert (Hne : blacklistPart kw <> "")
    by (destruct Hkw as [-> | ->]; discriminate).
  destruct (dollars_keeps _ Hnq Hne pre suf 1) as (pre' & suf' & Hd).
  exists kw, pre', suf', args0. split; [exact Hkw|].
  unfold profilesStatement. fold b.
  unfold ToSql. rewrite Hq, Ho, Hz, HP, Hb. cbn [negb fst snd].
  unfold ReplacePlaceholders. rewrite Hraw, Hd. split; [reflexivity|].
  rewrite flat_map_app, Hargs. cbn [flat_map partArgs app].
  rewrite app_nil_r. reflexivity.
Qed.

Lemma profiles_blacklist_shares_first_placeholder_witness :
  exists kw pre suf args0,
    (kw = "NOT IN" \/ kw = "IN") /\
    fst (profilesStatement sample.storage sample_profiles.blacklisting)
    = pre ++ blacklistPart kw ++ suf /\
    snd (profilesStatement sample.storage sample_profiles.blacklisting)
    = (VInt 2 :: args0
       ++ [VStr (pb.EthAddress_Hex (Some sample.alice))])%list.
Proof.
  apply (profiles_blacklist_shares_first_placeholder
           sample.storage sample_profiles.blacklisting
           (mkBlacklistQuery (Some sample.alice) BlacklistOption_WithoutMatching)
           sample.alice);
    try reflexivity; discriminate.
Defined.

End ProfilesBlacklist.

(** * The filters of [GetOrders] on the rows it selects *)

Section GetOrdersFilters.

Import dwh squirrel sqlsem.

Lemma In_Where (b : SelectBuilder) (p : Sqlizer) sql args :
  In p (sb_WhereParts b) -> In p (sb_WhereParts (Where b sql args)).
Proof. intros H. rewrite parts_Where. apply in_or_app. now left. Qed.

Lemma In_Where_new (b : SelectBuilder) sql args :
  In (Expr sql args) (sb_WhereParts (Where b sql args)).
Proof. rewrite parts_Where. apply in_or_app. right. now left. Qed.

Lemma In_newNetflagsWhere (b : SelectBuilder) (p : Sqlizer) op v :
  In p (sb_WhereParts b) -> In p (sb_WhereParts (newNetflagsWhere b op v)).
Proof.
  intros H. destruct (parts_newNetflagsWhere b op v) as [q ->].
  apply in_or_app. now left.
Qed.

Lemma In_addBenchmarks (benches : list (Z * pb.MaxMinUint64)) :
  forall (b : SelectBuilder) (p : Sqlizer),
    In p (sb_WhereParts b) ->
    In p (sb_WhereParts (addBenchmarksConditionsWhere b benches)).
Proof.
  unfold addBenchmarksConditionsWhere.
  induction benches as [|[benchID condition] rest IH]; intros b p H;
    [exact H|].
  cbn [fold_left]. apply IH.
  destruct (pb.Max64 condition >? 0), (pb.Min64 condition >? 0);
    repeat apply In_Where; exact H.
Qed.

Lemma In_builderWithSortings (b : SelectBuilder) (p : Sqlizer) l :
  In p (sb_WhereParts b) -> In p (sb_WhereParts (builderWithSortings b l)).
Proof. intros H. exact H. Qed.

Ltac keep_in :=
  repeat first
    [ assumption
    | progress cbv zeta
    | match goal with
      | |- In _ (sb_WhereParts (Where _ _ _)) => apply In_Where
      | |- In _ (sb_WhereParts (newNetflagsWhere _ _ _)) =>
          apply In_newNetflagsWhere
      | |- In _ (sb_WhereParts (addBenchmarksConditionsWhere _ _)) =>
          apply In_addBenchmarks
      | |- In _ (sb_WhereParts (builderWithSortings _ _)) =>
          apply In_builderWithSortings
      | |- context [if ?c then _ else _] => destruct c
      | |- context [match ?o with Some _ => _ | None => _ end] => destruct o
      end ].

(** The step that may add the part: [tac] shows that it does. *)
Ltac enter_with p tac :=
  lazymatch goal with
  | |- builds ?P (let x := ?A in @?B x) =>
      let H := fresh "H" in
      let b := fresh "builder" in
      assert (H : In p (sb_WhereParts A)) by tac;
      change (builds P (B A)); revert H; generalize A;
      clear; intros b H; cbv beta
  end.

(** A later step keeps it. *)
Ltac peel_in p := enter_with p ltac:(keep_in).

(** An earlier step: any builder will do. *)
Ltac skip_let :=
  lazymatch goal with
  | |- builds ?P (let x := ?A in @?B x) =>
      let b := fresh "builder" in
      change (builds P (B A)); generalize A; intros b; cbv beta
  end.

(** From the price filter to the end of [ordersBuilder]. *)
Ltac from_price p :=
  eapply builds_bind with (P := fun b => In p (sb_WhereParts b));
  [ match goal with
    | |- builds _ (match ?o with Some _ => _ | None => _ end) =>
        destruct o as [pr|]; [|assumption];
        eapply builds_bind with (P := fun b => In p (sb_WhereParts b));
        [ destruct (pb.MaxBig pr); [|assumption];
          apply builds_padded; intros s; apply builds_Ok; cbv beta; keep_in
        | let b := fresh "b" in
          let Hb := fresh "Hb" in
          intros b Hb; destruct (pb.MinBig pr); [|exact Hb];
          apply builds_padded; intros s; apply builds_Ok; cbv beta; keep_in ]
    end
  | clear; intros builder Hb; do 4 peel_in p; apply builds_Ok; cbv beta; keep_in ].

Lemma ordersBuilder_type (c : sqlStorage) (r : pb.OrdersRequest) :
  (pb.r_Type r >? 0) = true ->
  builds (fun b => In (Expr "Type = ?" [VInt (pb.r_Type r)]) (sb_WhereParts b))
         (ordersBuilder c r).
Proof.
  intros HT. cbv beta delta [ordersBuilder].
  do 3 skip_let.
  enter_with (Expr "Type = ?" [VInt (pb.r_Type r)])
             ltac:(rewrite HT; apply In_Where_new).
  do 3 peel_in (Expr "Type = ?" [VInt (pb.r_Type r)]).
  from_price (Expr "Type = ?" [VInt (pb.r_Type r)]).
Qed.

Lemma ordersBuilder_author (c : sqlStorage) (r : pb.OrdersRequest) :
  pb.EthAddress_IsZero (pb.r_AuthorID r) = false ->
  builds (fun b => In (Expr "AuthorID = ?"
                            [VStr (pb.EthAddress_Hex (pb.r_AuthorID r))])
                      (sb_WhereParts b))
         (ordersBuilder c r).
Proof.
  intros HT. cbv beta delta [ordersBuilder].
  do 4 skip_let.
  enter_with (Expr "AuthorID = ?" [VStr (pb.EthAddress_Hex (pb.r_AuthorID r))])
             ltac:(rewrite HT; apply In_Where_new).
  do 2 peel_in (Expr "AuthorID = ?" [VStr (pb.EthAddress_Hex (pb.r_AuthorID r))]).
  from_price (Expr "AuthorID = ?" [VStr (pb.EthAddress_Hex (pb.r_AuthorID r))]).
Qed.

Lemma ordersBuilder_counterparty (c : sqlStorage) (r : pb.OrdersRequest) :
  pb.EthAddress_IsZero (pb.r_CounterpartyID r) = false ->
  builds (fun b => In (Expr "CounterpartyID = ?"
                            [VStr (pb.EthAddress_Hex (pb.r_CounterpartyID r))])
                      (sb_WhereParts b))
         (ordersBuilder c r).
Proof.
  intros HT. cbv beta delta [ordersBuilder].
  do 5 skip_let.
  enter_with (Expr "CounterpartyID = ?"
                   [VStr (pb.EthAddress_Hex (pb.r_CounterpartyID r))])
             ltac:(rewrite HT; apply In_Where_new).
  do 1 peel_in (Expr "CounterpartyID = ?"
                     [VStr (pb.EthAddress_Hex (pb.r_CounterpartyID r))]).
  from_price (Expr "CounterpartyID = ?"
                   [VStr (pb.EthAddress_Hex (pb.r_CounterpartyID r))]).
Qed.

Lemma ordersBuilder_duration_min (c : sqlStorage) (r : pb.OrdersRequest)
      (d : pb.MaxMinUint64) :
  pb.r_Duration r = Some d ->
  builds (fun b => In (Expr "Duration >= ?" [VInt (pb.Min64 d)]) (sb_WhereParts b))
         (ordersBuilder c r).
Proof.
  intros HT. cbv beta delta [ordersBuilder].
  do 6 skip_let.
  enter_with (Expr "Duration >= ?" [VInt (pb.Min64 d)])
             ltac:(rewrite HT; apply In_Where_new).
  from_price (Expr "Duration >= ?" [VInt (pb.Min64 d)]).
Qed.

Lemma ordersBuilder_duration_max (c : sqlStorage) (r : pb.OrdersRequest)
      (d : pb.MaxMinUint64) :
  pb.r_Duration r = Some d -> (pb.Max64 d >? 0) = true ->
  builds (fun b => In (Expr "Duration <= ?" [VInt (pb.Max64 d)]) (sb_WhereParts b))
         (ordersBuilder c r).
Proof.
  intros HT HM. cbv beta delta [ordersBuilder].
  do 6 skip_let.
  enter_with (Expr "Duration <= ?" [VInt (pb.Max64 d)])
             ltac:(rewrite HT; cbv zeta; rewrite HM;
                   apply In_Where, In_Where_new).
  from_price (Expr "Duration <= ?" [VInt (pb.Max64 d)]).
Qed.

Lemma ordersBuilder_level (c : sqlStorage) (r : pb.OrdersRequest) :
  (pb.r_CreatorIdentityLevel r >? 0) = true ->
  builds (fun b => In (Expr "CreatorIdentityLevel >= ?"
                            [VInt (pb.r_CreatorIdentityLevel r)])
                      (sb_WhereParts b))
         (ordersBuilder c r).
Proof.
  intros HT. cbv beta delta [ordersBuilder].
  do 7 skip_let.
  eapply builds_bind with (P := fun _ => True).
  - destruct (pb.r_Price r) as [pr|]; [|exact I].
    eapply builds_bind with (P := fun _ => True).
    + destruct (pb.MaxBig pr); [|exact I].
      apply builds_padded. intros s. exact I.
    + intros b _. destruct (pb.MinBig pr); [|exact I].
      apply builds_padded. intros s. exact I.
  - intros b _. skip_let.
    enter_with (Expr "CreatorIdentityLevel >= ?"
                     [VInt (pb.r_CreatorIdentityLevel r)])
               ltac:(rewrite HT; apply In_Where_new).
    do 2 peel_in (Expr "CreatorIdentityLevel >= ?"
                       [VInt (pb.r_CreatorIdentityLevel r)]).
    apply builds_Ok. cbv beta. keep_in.
Qed.

Lemma evalPred_counterparty (a : string) (row : NamedRow) :
  evalPred "CounterpartyID = ?" [VStr a] row = Some true ->
  lookup row "CounterpartyID" = Some (VStr a).
Proof.
  unfold evalPred.
  change (tokenize "CounterpartyID = ?")
    with [TIdent "CounterpartyID"; TCmp "="; TParam].
  cbn [splitCmp]. unfold evalSide. cbn [splitOr evalOperand evalOrs].
  destruct (lookup row "CounterpartyID") as [v|]; [|discriminate].
  cbn [evalOrs evalOperand].
  destruct v as [|p| | | |]; cbn [compareValues]; try discriminate.
  change (cmpHolds "=" ?c) with (match c with Datatypes.Eq => true | _ => false end).
  destruct (String.compare p a) eqn:E; try discriminate.
  apply String.compare_eq_iff in E. now subst.
Qed.

Lemma evalPred_duration_ge (m : Z) (row : NamedRow) :
  evalPred "Duration >= ?" [VInt m] row = Some true ->
  exists v, lookup row "Duration" = Some (VInt v) /\ m <= v.
Proof.
  unfold evalPred.
  change (tokenize "Duration >= ?") with [TIdent "Duration"; TCmp ">="; TParam].
  cbn [splitCmp]. unfold evalSide. cbn [splitOr evalOperand evalOrs].
  destruct (lookup row "Duration") as [v|]; [|discriminate].
  cbn [evalOrs evalOperand].
  destruct v as [x| | | | |]; cbn [compareValues]; try discriminate.
  change (cmpHolds ">=" ?c) with (match c with Lt => false | _ => true end).
  intros H. exists x. split; [reflexivity|].
  destruct (Z.compare_spec x m); [lia | discriminate | lia].
Qed.

Lemma evalPred_duration_le (m : Z) (row : NamedRow) :
  evalPred "Duration <= ?" [VInt m] row = Some true ->
  exists v, lookup row "Duration" = Some (VInt v) /\ v <= m.
Proof.
  unfold evalPred.
  change (tokenize "Duration <= ?") with [TIdent "Duration"; TCmp "<="; TParam].
  cbn [splitCmp]. unfold evalSide. cbn [splitOr evalOperand evalOrs].
  destruct (lookup row "Duration") as [v|]; [|discriminate].
  cbn [evalOrs evalOperand].
  destruct v as [x| | | | |]; cbn [compareValues]; try discriminate.
  change (cmpHolds "<=" ?c) with (match c with Gt => false | _ => true end).
  intros H. exists x. split; [reflexivity|].
  destruct (Z.compare_spec x m); [lia | lia | discriminate].
Qed.

Lemma evalPred_level_ge (m : Z) (row : NamedRow) :
  evalPred "CreatorIdentityLevel >= ?" [VInt m] row = Some true ->
  exists v, lookup row "CreatorIdentityLevel" = Some (VInt v) /\ m <= v.
Proof.
  unfold evalPred.
  change (tokenize "CreatorIdentityLevel >= ?")
    with [TIdent "CreatorIdentityLevel"; TCmp ">="; TParam].
  cbn [splitCmp]. unfold evalSide. cbn [splitOr evalOperand evalOrs].
  destruct (lookup row "CreatorIdentityLevel") as [v|]; [|discriminate].
  cbn [evalOrs evalOperand].
  destruct v as [x| | | | |]; cbn [compareValues]; try discriminate.
  change (cmpHolds ">=" ?c) with (match c with Lt => false | _ => true end).
  intros H. exists x. split; [reflexivity|].
  destruct (Z.compare_spec x m); [lia | discriminate | lia].
Qed.

(** X18. Every row the statement of [GetOrders] selects passes the filters
    the request sets: the type when it is positive, the author and the
    counterparty when they are not the zero address, the creator's identity
    level when it is positive, and the duration, whose lower bound applies
    whenever a duration filter is given while its upper bound applies only
    when it is positive. *)
Theorem getorders_rows_pass_filters
        (c : sqlStorage) (r : pb.OrdersRequest) (b : SelectBuilder)
        (row : NamedRow) :
  ordersBuilder c r = Ok b ->
  selects b row = true ->
  (pb.r_Type r > 0 -> lookup row "Type" = Some (VInt (pb.r_Type r)))
  /\ (pb.EthAddress_IsZero (pb.r_AuthorID r) = false ->
      lookup row "AuthorID" = Some (VStr (pb.EthAddress_Hex (pb.r_AuthorID r))))
  /\ (pb.EthAddress_IsZero (pb.r_CounterpartyID r) = false ->
      lookup row "CounterpartyID"
      = Some (VStr (pb.EthAddress_Hex (pb.r_CounterpartyID r))))
  /\ (forall d, pb.r_Duration r = Some d ->
      exists v, lookup row "Duration" = Some (VInt v)
                /\ pb.Min64 d <= v
                /\ (pb.Max64 d > 0 -> v <= pb.Max64 d))
  /\ (pb.r_CreatorIdentityLevel r > 0 ->
      exists v, lookup row "CreatorIdentityLevel" = Some (VInt v)
                /\ pb.r_CreatorIdentityLevel r <= v).
Proof.
  intros Hb Hs.
  assert (use : forall p, builds (fun b => In p (sb_WhereParts b)) (ordersBuilder c r) ->
                          partHolds p row = Some true).
  { intros p H. rewrite Hb in H. exact (selects_In b p row H Hs). }
  repeat split.
  - intros H. apply evalPred_type.
    apply (use _ (ordersBuilder_type c r ltac:(apply Z.gtb_lt; lia))).
  - intros H. apply evalPred_author.
    apply (use _ (ordersBuilder_author c r H)).
  - intros H. apply evalPred_counterparty.
    apply (use _ (ordersBuilder_counterparty c r H)).
  - intros d Hd.
    destruct (evalPred_duration_ge _ _ (use _ (ordersBuilder_duration_min c r d Hd)))
      as (v & L & Hv).
    exists v. repeat split; [exact L | exact Hv |].
    intros HM.
    destruct (evalPred_duration_le _ _
                (use _ (ordersBuilder_duration_max c r d Hd
                          ltac:(apply Z.gtb_lt; lia))))
      as (v' & L' & Hv').
    rewrite L in L'. injection L' as <-. exact Hv'.
  - intros H. apply evalPred_level_ge.
    apply (use _ (ordersBuilder_level c r ltac:(apply Z.gtb_lt; lia))).
Qed.

Lemma getorders_rows_pass_filters_witness :
  lookup sample.askForCarol "CounterpartyID" = Some (VStr sample.carol).
Proof.
  destruct (ordersBuilder sample.storage sample_filters.asksOfBob) as [b| |] eqn:E;
    [|discriminate E..].
  refine (proj1 (proj2 (proj2
    (getorders_rows_pass_filters sample.storage sample_filters.asksOfBob b
                                 sample.askForCarol E _))) eq_refl).
  vm_compute in E. injection E as <-. now vm_compute.
Defined.

End GetOrdersFilters.

(** * The terms of a match beyond type and price *)

Section MatchingTerms.

Import dwh squirrel sqlsem.

Ltac int_column_cases H L col toks :=
  unfold evalPred in H;
  change (tokenize _) with toks in H;
  cbn [splitCmp] in H; unfold evalSide in H;
  cbn [splitOr evalOperand evalOrs] in H;
  destruct (lookup _ col) as [[x| | | | |]|] eqn:L;
  cbn [evalOrs evalOperand compareValues] in H; try discriminate H.

Lemma evalPred_duration_eq (m : Z) (row : NamedRow) :
  evalPred "Duration = ?" [VInt m] row = Some true ->
  lookup row "Duration" = Some (VInt m).
Proof.
  intros H.
  int_column_cases H L "Duration" [TIdent "Duration"; TCmp "="; TParam].
  change (cmpHolds "=" ?c) with (match c with Datatypes.Eq => true | _ => false end) in H.
  rewrite compare_eq_eqb in H. injection H as H.
  apply Z.eqb_eq in H. now subst.
Qed.

Lemma evalPred_identity_ge (m : Z) (row : NamedRow) :
  evalPred "IdentityLevel >= ?" [VInt m] row = Some true ->
  exists v, lookup row "IdentityLevel" = Some (VInt v) /\ m <= v.
Proof.
  intros H.
  int_column_cases H L "IdentityLevel" [TIdent "IdentityLevel"; TCmp ">="; TParam].
  change (cmpHolds ">=" ?c) with (match c with Lt => false | _ => true end) in H.
  exists x. split; [reflexivity|].
  destruct (Z.compare_spec x m); [lia | discriminate | lia].
Qed.

Lemma evalPred_creator_le (m : Z) (row : NamedRow) :
  evalPred "CreatorIdentityLevel <= ?" [VInt m] row = Some true ->
  exists v, lookup row "CreatorIdentityLevel" = Some (VInt v) /\ v <= m.
Proof.
  intros H.
  int_column_cases H L "CreatorIdentityLevel"
                   [TIdent "CreatorIdentityLevel"; TCmp "<="; TParam].
  change (cmpHolds "<=" ?c) with (match c with Gt => false | _ => true end) in H.
  exists x. split; [reflexivity|].
  destruct (Z.compare_spec x m); [lia | lia | discriminate].
Qed.

Lemma evalPred_at_least_inv (v : Z) (row : NamedRow) :
  evalPred "Netflags | ~ ? = -1" [VInt v] row = Some true ->
  exists f, lookup row "Netflags" = Some (VInt f) /\ Z.land f v = v.
Proof.
  intros H.
  destruct (lookup row "Netflags") as [[f| | | | |]|] eqn:L;
    [ rewrite (evalPred_at_least f v row L) in H; injection H as H;
      exists f; split; [reflexivity | now apply Z.eqb_eq]
    | unfold evalPred in H;
      change (tokenize "Netflags | ~ ? = -1")
        with [TIdent "Netflags"; TOr; TNot; TParam; TCmp "="; TInt (-1)] in H;
      cbn [splitCmp] in H; unfold evalSide in H;
      cbn [splitOr evalOperand evalOrs] in H; rewrite L in H;
      cbn in H; discriminate H .. ].
Qed.

Lemma evalPred_at_most_inv (v : Z) (row : NamedRow) :
  evalPred "? | ~Netflags = -1" [VInt v] row = Some true ->
  exists f, lookup row "Netflags" = Some (VInt f) /\ Z.land v f = f.
Proof.
  intros H.
  destruct (lookup row "Netflags") as [[f| | | | |]|] eqn:L;
    [ rewrite (evalPred_at_most f v row L) in H; injection H as H;
      exists f; split; [reflexivity | now apply Z.eqb_eq]
    | unfold evalPred in H;
      change (tokenize "? | ~Netflags = -1")
        with [TParam; TOr; TNot; TIdent "Netflags"; TCmp "="; TInt (-1)] in H;
      cbn [splitCmp] in H; unfold evalSide in H;
      cbn [splitOr evalOperand evalOrs] in H; rewrite L in H;
      cbn in H; discriminate H .. ].
Qed.

(** X19. The statement built for a reference order is the one
    [GetMatchingOrders] sends once the order has been looked up, and beyond
    type and price an order it selects matches the reference order only on
    these terms.  Its identity level is at least the reference's and its
    creator's identity level at most that of the reference's creator,
    whichever side the reference is on.  For a reference without duration it
    has no duration either.  For a bid with a duration it lasts at least as
    long and offers every network flag the bid asks for; for any other
    reference with a duration it lasts at most as long and asks for no flag
    the reference lacks. *)
Theorem matching_orders_terms
        (c : sqlStorage) (order : pb.DWHOrder) (b : SelectBuilder) :
  let o := pb.Order_ order in
  matchingBuilder c order = Ok b ->
  (forall r conn log0,
     GetOrderByID c (pb.m_Id r) conn = (log0, Ok order) ->
     exists rest,
       fst (GetMatchingOrders c r conn)
       = (log0
          ++ EvQuery
               (strings.Replace1
                  (fst (ToSql (builderWithOffsetLimit
                                 b (pb.m_Limit r) (pb.m_Offset r))))
                  "*" (strings.Join (OrderColumns (tablesInfo_ c)) ", "))
               (snd (ToSql (builderWithOffsetLimit
                              b (pb.m_Limit r) (pb.m_Offset r))))
          :: rest)%list)
  /\ (forall limit offset row,
        selects (builderWithOffsetLimit b limit offset) row = true ->
        exists d f il cil,
          lookup row "Duration" = Some (VInt d)
          /\ lookup row "Netflags" = Some (VInt f)
          /\ lookup row "IdentityLevel" = Some (VInt il)
          /\ lookup row "CreatorIdentityLevel" = Some (VInt cil)
          /\ pb.IdentityLevel o <= il
          /\ cil <= pb.CreatorIdentityLevel order
          /\ (pb.Duration o <= 0 -> d = pb.Duration o)
          /\ (pb.OrderType_ o = pb.OrderType_BID ->
              (0 < pb.Duration o -> pb.Duration o <= d)
              /\ Z.land f (pb.Netflags o) = pb.Netflags o)
          /\ (pb.OrderType_ o <> pb.OrderType_BID ->
              (0 < pb.Duration o -> d <= pb.Duration o)
              /\ Z.land (pb.Netflags o) f = f)).
Proof.
  intros o Hb.
  split; [intros r conn log0 HO;
          exact (GetMatchingOrders_sends c r conn log0 order b HO Hb)|].
  intros limit offset row Hs.
  rewrite selects_builderWithOffsetLimit in Hs.
  destruct (util.BigIntToPaddedString (pb.Price o)) as [price| |] eqn:Hp;
    [ | unfold matchingBuilder, pb.BigInt_PaddedString in Hb;
        fold o in Hb; rewrite Hp in Hb;
        destruct (pb.OrderType_ o =? pb.OrderType_BID); discriminate Hb .. ].
  destruct (matchingBuilder_shape c order price Hp)
    as (b' & flags & extra & Hb' & Hparts & Hflags & _ & _).
  rewrite Hb in Hb'. injection Hb' as <-. fold o in Hparts, Hflags.
  assert (use : forall p, In p (sb_WhereParts b) -> partHolds p row = Some true)
    by (intros p I; exact (selects_In b p row I Hs)).
  assert (Idur : In (Expr (if pb.Duration o >? 0
                           then (if pb.OrderType_ o =? pb.OrderType_BID
                                 then "Duration >= ?" else "Duration <= ?")
                           else "Duration = ?") [VInt (pb.Duration o)])
                    (sb_WhereParts b))
    by (rewrite Hparts; cbn; tauto).
  assert (Iflags : In flags (sb_WhereParts b))
    by (rewrite Hparts; apply in_or_app; right; apply in_or_app; right;
        cbn; tauto).
  assert (Iil : In (Expr "IdentityLevel >= ?" [VInt (pb.IdentityLevel o)])
                   (sb_WhereParts b))
    by (rewrite Hparts; apply in_or_app; right; apply in_or_app; right;
        cbn; tauto).
  assert (Icil : In (Expr "CreatorIdentityLevel <= ?"
                          [VInt (pb.CreatorIdentityLevel order)])
                    (sb_WhereParts b))
    by (rewrite Hparts; apply in_or_app; right; apply in_or_app; right;
        cbn; tauto).
  destruct (evalPred_identity_ge _ _ (use _ Iil)) as (il & Lil & Hil).
  destruct (evalPred_creator_le _ _ (use _ Icil)) as (cil & Lcil & Hcil).
  apply use in Idur. apply use in Iflags. rewrite Hflags in Iflags.
  cbn [partHolds] in Idur, Iflags.
  destruct (pb.OrderType_ o =? pb.OrderType_BID) eqn:EB;
    [apply Z.eqb_eq in EB | apply Z.eqb_neq in EB].
  - destruct (evalPred_at_least_inv _ _ Iflags) as (f & Lf & Hf).
    destruct (pb.Duration o >? 0) eqn:ED;
      [ apply Z.gtb_lt in ED;
        destruct (evalPred_duration_ge _ _ Idur) as (d & Ld & Hd)
      | assert (~ pb.Duration o > 0) by (rewrite Z.gtb_ltb, Z.ltb_ge in ED; lia);
        pose proof (evalPred_duration_eq _ _ Idur) as Ld;
        set (d := pb.Duration o) in * ];
      exists d, f, il, cil; repeat split; try assumption; try lia;
      intros; try contradiction; try lia; subst d; try lia.
  - destruct (evalPred_at_most_inv _ _ Iflags) as (f & Lf & Hf).
    destruct (pb.Duration o >? 0) eqn:ED;
      [ apply Z.gtb_lt in ED;
        destruct (evalPred_duration_le _ _ Idur) as (d & Ld & Hd)
      | assert (~ pb.Duration o > 0) by (rewrite Z.gtb_ltb, Z.ltb_ge in ED; lia);
        pose proof (evalPred_duration_eq _ _ Idur) as Ld;
        set (d := pb.Duration o) in * ];
      exists d, f, il, cil; repeat split; try assumption; try lia;
      intros; try contradiction; try lia; subst d; try lia.
Qed.

Lemma matching_orders_terms_witness :
  exists d f,
    lookup sample_filters.openAskRow "Duration" = Some (VInt d)
    /\ lookup sample_filters.openAskRow "Netflags" = Some (VInt f)
    /\ 3600 <= d
    /\ Z.land f 3 = 3.
Proof.
  destruct (matchingBuilder sample.storage sample.openBid) as [b| |] eqn:E;
    [|discriminate E..].
  destruct (proj2 (matching_orders_terms sample.storage sample.openBid b E)
                  0 0 sample_filters.openAskRow)
    as (d & f & il & cil & Ld & Lf & _ & _ & _ & _ & _ & Hbid & _).
  - vm_compute in E. injection E as <-. now vm_compute.
  - destruct (Hbid eq_refl) as [Hd Hf].
    exists d, f. repeat split; try assumption.
    apply Hd. reflexivity.
Defined.

End MatchingTerms.
